(** * init.py: the interactive project-initialisation script

    A shallow embedding of [init.py] (the one source file of the template
    repository) and the properties of its console dialogue, of its two
    file-rewriting helpers and of its top-level driver.

    The script talks to a terminal and rewrites files of the working
    directory, so every function of the script is a computation over an
    explicit [world]: the keys the user is going to type, what has been
    shown on the terminal so far, the entries of the working directory,
    the calendar year and the interpreter's recursion limit.  Python
    exceptions are results of the computation, and the world is kept when
    one is raised (a file written before the exception stays written). *)

From Stdlib Require Import String Ascii List Bool Arith NArith ZArith Lia.
From Stdlib Require Import DecimalString DecimalPos.
Import ListNotations.
Local Open Scope list_scope.
Local Open Scope string_scope.

Set Implicit Arguments.
Set Warnings "-register-all".

(* ===================================================================== *)
(** ** Strings as Python uses them *)
(* ===================================================================== *)

Module Str.

(** [not s] on a Python string: true exactly on the empty string. *)
Definition is_empty (s : string) : bool :=
  match s with
  | EmptyString => true
  | String _ _ => false
  end.

(** [s or d]. *)
Definition or_default (s d : string) : string :=
  if is_empty s then d else s.

(** [c.lower()] on one character; the letters A-Z move to a-z and every
    other byte stays (no byte outside A-Z lowers to an ASCII letter). *)
Definition lower_ascii (c : ascii) : ascii :=
  let n := nat_of_ascii c in
  if ((65 <=? n)%nat && (n <=? 90)%nat)%bool then ascii_of_nat (n + 32) else c.

(** [s.lower()]. *)
Fixpoint lower (s : string) : string :=
  match s with
  | EmptyString => EmptyString
  | String c s' => String (lower_ascii c) (lower s')
  end.

(** [s.replace(old, new)] for the empty [old]: Python puts [new] before
    every character and at the end. *)
Fixpoint interleave (new s : string) : string :=
  match s with
  | EmptyString => new
  | String c s' => new ++ String c (interleave new s')
  end.

(** The scan of [s.replace(old, new)] for a non-empty [old]: left to
    right, an occurrence of [old] at the scan position is replaced and
    the scan resumes behind it ([skip] counts the characters of the
    occurrence still to be passed over), any other character is copied. *)
Fixpoint replace_scan (skip : nat) (old new s : string) : string :=
  match s with
  | EmptyString => EmptyString
  | String c s' =>
      match skip with
      | S k => replace_scan k old new s'
      | O =>
          if prefix old s
          then new ++ replace_scan (String.length old - 1) old new s'
          else String c (replace_scan 0 old new s')
      end
  end.

(** [s.replace(old, new)]. *)
Definition replace (old new s : string) : string :=
  if is_empty old then interleave new s else replace_scan 0 old new s.

(** The character [c] occurs in [s]. *)
Fixpoint has_char (c : ascii) (s : string) : bool :=
  match s with
  | EmptyString => false
  | String c' s' => Ascii.eqb c c' || has_char c s'
  end.

(** [str(n)] for a non-negative integer: decimal, no padding. *)
Definition of_N (n : N) : string :=
  NilEmpty.string_of_uint (N.to_uint n).

End Str.

(* ===================================================================== *)
(** ** Python dictionaries with string keys *)
(* ===================================================================== *)

(** A [dict] keeps its keys in insertion order, and the script depends on
    that order when it formats the dependency lists; a dictionary is
    therefore the list of its items. *)
Module Dict.

Definition t (V : Type) : Type := list (string * V).

(** [d.get(k)] *)
Fixpoint get {V} (d : t V) (k : string) : option V :=
  match d with
  | [] => None
  | (k', v) :: d' => if String.eqb k k' then Some v else get d' k
  end.

(** [d[k] = v]: an existing key keeps its place, a new key goes last. *)
Fixpoint set {V} (d : t V) (k : string) (v : V) : t V :=
  match d with
  | [] => [(k, v)]
  | (k', v') :: d' =>
      if String.eqb k k' then (k', v) :: d' else (k', v') :: set d' k v
  end.

(** [list(d)] *)
Definition keys {V} (d : t V) : list string := map fst d.

End Dict.

(* ===================================================================== *)
(** ** The world and the monad of the script *)
(* ===================================================================== *)

(** What the user does at a blocking read of the terminal.  The script
    spends its time waiting there, and that is where the model has the
    interrupt arrive: a Ctrl+C that falls between two prompts, while the
    script computes or writes, is not part of the model. *)
Inductive key_event : Type :=
| Line (s : string)      (* types [s] and Enter *)
| CtrlC.                 (* presses Ctrl+C *)

(** What the script shows on the terminal. *)
Inductive out_event : Type :=
| Prompted (s : string)  (* the prompt of an [input(s)] *)
| Printed (s : string).  (* a [print(s)] *)

(** An entry of a directory.  Symbolic links are followed, so a link
    counts as what it points to; a link that points to nothing is not
    part of the model. *)
Inductive node : Type :=
| File (content : string)  (* a regular file whose bytes decode to the text
                              [content], line ends as they are on disk *)
| Binary                   (* a regular file whose bytes do not decode *)
| Dir (entries : list (string * node))
| Special.                 (* neither [isfile] nor [isdir], and not to be
                              opened: a socket *)

Inductive exn : Type :=
| KeyboardInterrupt
| EOFError
| FileNotFoundError
| IsADirectoryError
| NotADirectoryError
| OSError
| KeyError
| TypeError
| TomlDecodeError
| UnicodeDecodeError
| RecursionError
| SystemExit (code : Z)
| OutOfFuel.             (* not a Python exception: a loop of the model ran
                            out of steps; [query_params_total] and
                            [query_dependencies_total] show that the loops
                            of the script never do *)

Inductive result (A : Type) : Type :=
| Ok (a : A)
| Raise (e : exn).
Arguments Ok {A} a.
Arguments Raise {A} e.

Record world : Type := mkWorld {
  stdin : list key_event;          (* the keys still to come *)
  stdout : list out_event;         (* the terminal so far, oldest first *)
  cwd : list (string * node);      (* the working directory, in [os.listdir] order *)
  year : N;                        (* [datetime.now().year] *)
  recursion_limit : nat;           (* frames left for [rename_project] *)
  script_file : string             (* [__file__] *)
}.

Definition with_stdin (k : list key_event) (w : world) : world :=
  mkWorld k (stdout w) (cwd w) (year w) (recursion_limit w) (script_file w).
Definition with_stdout (o : list out_event) (w : world) : world :=
  mkWorld (stdin w) o (cwd w) (year w) (recursion_limit w) (script_file w).
Definition with_cwd (d : list (string * node)) (w : world) : world :=
  mkWorld (stdin w) (stdout w) d (year w) (recursion_limit w) (script_file w).

Definition M (A : Type) : Type := world -> result A * world.

Definition ret {A} (a : A) : M A := fun w => (Ok a, w).

Definition bind {A B} (m : M A) (f : A -> M B) : M B :=
  fun w =>
    match m w with
    | (Ok a, w') => f a w'
    | (Raise e, w') => (Raise e, w')
    end.

Definition raise {A} (e : exn) : M A := fun w => (Raise e, w).

(** [try: m  except E: handler], where [catches] tells the exceptions of
    class [E]. *)
Definition try_except {A} (m : M A) (catches : exn -> bool) (handler : M A) : M A :=
  fun w =>
    match m w with
    | (Ok a, w') => (Ok a, w')
    | (Raise e, w') => if catches e then handler w' else (Raise e, w')
    end.

(** A pure step that may raise ([d[k]] on a missing key). *)
Definition lift {A} (r : result A) : M A := fun w => (r, w).

Declare Scope script_scope.
Delimit Scope script_scope with script.
Notation "x <- m ;; k" := (bind m (fun x => k))
  (at level 61, m at next level, right associativity) : script_scope.
Notation "m ;; k" := (bind m (fun _ => k))
  (at level 61, right associativity) : script_scope.
Notation "' pat <- m ;; k" := (bind m (fun x => match x with pat => k end))
  (at level 61, pat pattern, m at next level, right associativity) : script_scope.
Local Open Scope script_scope.

Definition is_KeyboardInterrupt (e : exn) : bool :=
  match e with KeyboardInterrupt => true | _ => false end.
Definition is_FileNotFoundError (e : exn) : bool :=
  match e with FileNotFoundError => true | _ => false end.

(** *** The terminal *)

Definition print (s : string) : M unit :=
  fun w => (Ok tt, with_stdout (stdout w ++ [Printed s])%list w).

(** [input(prompt)]: shows the prompt, then blocks for a line; Ctrl+C
    raises [KeyboardInterrupt], the end of the input [EOFError]. *)
Definition input (prompt : string) : M string :=
  fun w =>
    let w1 := with_stdout (stdout w ++ [Prompted prompt])%list w in
    match stdin w with
    | [] => (Raise EOFError, w1)
    | Line s :: rest => (Ok s, with_stdin rest w1)
    | CtrlC :: rest => (Raise KeyboardInterrupt, with_stdin rest w1)
    end.

(** [exit(code)] *)
Definition exit {A} (code : Z) : M A := raise (SystemExit code).

(** *** Loops

    [while True:] with the variables [s] it carries from one round to the
    next: the body ends a round with [inl s'] (next round, also
    [continue]) or with [inr a] ([break] or [return]).  Every round of
    every loop of the script starts with an [input], so a loop makes at
    most one round per key still to come, plus the one in which the input
    has run dry and [EOFError] ends it. *)
Fixpoint while_fuel {S A} (fuel : nat) (body : S -> M (S + A)) (s : S) : M A :=
  match fuel with
  | O => raise OutOfFuel
  | Datatypes.S fuel' =>
      c <- body s ;;
      match c with
      | inl s' => while_fuel fuel' body s'
      | inr a => ret a
      end
  end.

Definition while_input {S A} (body : S -> M (S + A)) (s : S) : M A :=
  fun w => while_fuel (Datatypes.S (List.length (stdin w))) body s w.

(* ===================================================================== *)
(** ** The dialogue *)
(* ===================================================================== *)

Definition DEFAULT_PY_VERSION : string := ">=3.10".

(** [while not (x := input(prompt)): print(complaint)] *)
Definition ask_required (prompt complaint : string) : M string :=
  while_input (fun _ : unit =>
    s <- input prompt ;;
    if Str.is_empty s
    then print complaint ;; ret (inl tt)
    else ret (inr s)) tt.

(** [input(...).lower() != "y"] *)
Definition declines (answer : string) : bool :=
  negb (String.eqb (Str.lower answer) "y").

Definition answers : Type := (string * string * string * string * string)%type.

Definition query_params (validate : bool) : M answers :=
  while_input (fun _ : unit =>
    name <- ask_required "What is your name? "
              "Please enter your name, or press Ctrl+C to exit." ;;
    email <- ask_required "What is your email address? "
              "Please enter your email address, or press Ctrl+C to exit." ;;
    project_name <- ask_required "What should we call your project? "
              "Please enter a project name, or press Ctrl+C to exit." ;;
    project_description <- ask_required "What is your project about? "
              "Please enter a project description, or press Ctrl+C to exit." ;;
    s <- input ("What version of Python do you want to use? (default: "
                ++ DEFAULT_PY_VERSION ++ ") ") ;;
    let py_version := Str.or_default s DEFAULT_PY_VERSION in
    if validate then
      print "So far, we have:" ;;
      print (" - Author: " ++ name ++ " <" ++ email ++ ">") ;;
      print (" - Project name: " ++ project_name) ;;
      print (" - Project description: " ++ project_description) ;;
      print (" - Python version: " ++ py_version) ;;
      a <- input "Is this correct? (y/n) " ;;
      if declines a
      then print "Understood, let's try again." ;; ret (inl tt)
      else ret (inr (name, email, project_name, project_description, py_version))
    else ret (inr (name, email, project_name, project_description, py_version))) tt.

(** The version prompt of [query_dependencies]:
    [while not (version := input(...) or <empty>): print(...)], where
    [<empty>] is the empty string literal. *)
Definition ask_version (dep : string) : M string :=
  while_input (fun _ : unit =>
    s <- input ("Version of " ++ dep ++ " (default: empty): ") ;;
    let version := Str.or_default s EmptyString in
    if Str.is_empty version
    then print "Please enter a version, or press Ctrl+C to exit." ;; ret (inl tt)
    else ret (inr version)) tt.

(** The [try] block of [query_dependencies], lines 66-75. *)
Definition add_dependency (deps : Dict.t string) : M (Dict.t string + Dict.t string) :=
  print "Please enter the dependencies you want to add." ;;
  print "Press Ctrl+C to leave empty and move on." ;;
  dep <- ask_required "Add a dependency (e.g. requests): "
           "Please enter a dependency, or press Ctrl+C to exit." ;;
  version <- ask_version dep ;;
  print "Added!" ;;
  a <- input "Add another dependency? (y/n) " ;;
  if declines a
  then ret (inr deps)                               (* break *)
  else ret (inl (Dict.set deps dep version)).       (* deps[dep] = version *)

Definition query_dependencies (scope : string) : M (Dict.t string) :=
  deps <- while_input (fun deps : Dict.t string =>
    a <- input ("Add " ++ scope ++ " dependencies? (y/n) ") ;;
    if declines a
    then ret (inr deps)                             (* break *)
    else try_except (add_dependency deps) is_KeyboardInterrupt
           (ret (inr []))) [] ;;                    (* deps = {}; break *)
  print "Understood, let's move on." ;;
  ret deps.

(* ===================================================================== *)
(** ** The working directory *)
(* ===================================================================== *)

(** The script never changes directory, and apart from the one
    [os.rename] it names entries of the working directory itself. *)

(** [os.listdir(".")] *)
Definition os_listdir : M (list string) :=
  fun w => (Ok (Dict.keys (cwd w)), w).

(** [os.path.isdir(path)] *)
Definition os_path_isdir (path : string) : M bool :=
  fun w => (Ok match Dict.get (cwd w) path with
               | Some (Dir _) => true
               | _ => false
               end, w).

(** [os.path.isfile(path)] *)
Definition os_path_isfile (path : string) : M bool :=
  fun w => (Ok match Dict.get (cwd w) path with
               | Some (File _) | Some Binary => true
               | _ => false
               end, w).

Definition carriage_return : ascii := ascii_of_nat 13.
Definition line_feed : ascii := ascii_of_nat 10.

(** The line ends of a text as a file opened for reading in text mode
    gives them: CR LF and a CR on its own become LF.  [after_cr] tells
    that the character before was a CR. *)
Fixpoint newlines_scan (after_cr : bool) (s : string) : string :=
  match s with
  | EmptyString => EmptyString
  | String c s' =>
      if Ascii.eqb c carriage_return then String line_feed (newlines_scan true s')
      else if Ascii.eqb c line_feed then
        if after_cr then newlines_scan false s'
        else String c (newlines_scan false s')
      else String c (newlines_scan false s')
  end.

Definition universal_newlines (s : string) : string := newlines_scan false s.

(** [with open(path) as f: f.read()].  The file is opened in text mode:
    its bytes are decoded, which fails with [UnicodeDecodeError] when
    they are no text, and the line ends are translated. *)
Definition read_text (path : string) : M string :=
  fun w => match Dict.get (cwd w) path with
           | Some (File content) => (Ok (universal_newlines content), w)
           | Some Binary => (Raise UnicodeDecodeError, w)
           | Some (Dir _) => (Raise IsADirectoryError, w)
           | Some Special => (Raise OSError, w)
           | None => (Raise FileNotFoundError, w)
           end.

(** [with open(path, "w") as f: f.write(content)]: an existing file is
    overwritten, a missing one is created.  The line ends are written as
    they are, as on POSIX. *)
Definition write_text (path content : string) : M unit :=
  fun w => match Dict.get (cwd w) path with
           | Some (Dir _) => (Raise IsADirectoryError, w)
           | Some Special => (Raise OSError, w)
           | _ => (Ok tt, with_cwd (Dict.set (cwd w) path (File content)) w)
           end.

(** The entries of a directory with the entry [old] now called [new]. *)
Fixpoint rename_entry (es : list (string * node)) (old new : string)
  : list (string * node) :=
  match es with
  | [] => []
  | (k, n) :: es' =>
      if String.eqb old k then (new, n) :: es' else (k, n) :: rename_entry es' old new
  end.

(** [os.rename(dir + "/" + old, dir + "/" + new)].  The rename needs the
    directory [dir] and its entry [old].  Destinations that already exist
    or that are not a plain name are not modelled and end in [OSError]. *)
Definition os_rename_in (dir old new : string) : M unit :=
  fun w =>
    match Dict.get (cwd w) dir with
    | None => (Raise FileNotFoundError, w)
    | Some (Dir es) =>
        match Dict.get es old with
        | None => (Raise FileNotFoundError, w)
        | Some _ =>
            if String.eqb old new then (Ok tt, w)
            else if Str.is_empty new || Str.has_char "/"%char new then (Raise OSError, w)
            else match Dict.get es new with
                 | Some _ => (Raise OSError, w)
                 | None =>
                     (Ok tt, with_cwd (Dict.set (cwd w) dir (Dir (rename_entry es old new))) w)
                 end
        end
    | Some _ => (Raise NotADirectoryError, w)
    end.

(** [for x in l: body(x)] *)
Fixpoint for_each {A} (l : list A) (body : A -> M unit) : M unit :=
  match l with
  | [] => ret tt
  | x :: l' => body x ;; for_each l' body
  end.

(** [rename_project], lines 83-94.  The recursive call passes the name of
    the subdirectory as the new [project_name] and the callee lists [.]
    again; [depth] is the number of frames the interpreter still allows. *)
Fixpoint rename_project (depth : nat) (project_name : string) : M unit :=
  match depth with
  | O => raise RecursionError
  | S depth' =>
      paths <- os_listdir ;;
      for_each paths (fun path =>
        d <- os_path_isdir path ;;
        if d then rename_project depth' path
        else
          f <- os_path_isfile path ;;
          if f then
            data <- read_text path ;;
            write_text path (Str.replace "project_name" project_name data)
          else ret tt)
  end.

(** [datetime.now().year] *)
Definition now_year : M N := fun w => (Ok (year w), w).

(** [update_license], lines 97-107. *)
Definition update_license (name : string) : M unit :=
  data <- read_text "LICENSE" ;;
  y <- now_year ;;
  let data := Str.replace "<year>" (Str.of_N y) data in
  let data := Str.replace "<name>" name data in
  write_text "LICENSE" data.

(* ===================================================================== *)
(** ** The descriptor *)
(* ===================================================================== *)

(** What [toml.load] returns: tables are dictionaries. *)
Inductive toml : Type :=
| TStr (s : string)
| TInt (z : Z)
| TBool (b : bool)
| TList (l : list toml)
| TTable (t : list (string * toml)).

(** [d[k]] *)
Definition getitem (d : toml) (k : string) : result toml :=
  match d with
  | TTable t => match Dict.get t k with
                | Some v => Ok v
                | None => Raise KeyError
                end
  | _ => Raise TypeError
  end.

(** [d[k] = v] *)
Definition setitem (d : toml) (k : string) (v : toml) : result toml :=
  match d with
  | TTable t => Ok (TTable (Dict.set t k v))
  | _ => Raise TypeError
  end.

(** [d[p1]...[pn][k] = v]: the tables on the way are looked up, the last
    one is updated, and the update shows in [d], of which it is a part. *)
Fixpoint setitem_at (d : toml) (path : list string) (k : string) (v : toml)
  : result toml :=
  match path with
  | [] => setitem d k v
  | p :: path' =>
      match getitem d p with
      | Raise e => Raise e
      | Ok sub =>
          match setitem_at sub path' k v with
          | Raise e => Raise e
          | Ok sub' => setitem d p sub'
          end
      end
  end.

(** [d[p1]...[pn]] *)
Fixpoint getitem_at (d : toml) (path : list string) : result toml :=
  match path with
  | [] => Ok d
  | p :: path' =>
      match getitem d p with
      | Raise e => Raise e
      | Ok sub => getitem_at sub path'
      end
  end.

Definition dquote : string := String (ascii_of_nat 34) EmptyString.
Definition newline : string := String (ascii_of_nat 10) EmptyString.

(** [[f'"{dep} {version}"' for dep, version in dependencies.items()]] *)
Definition format_dependencies (dependencies : Dict.t string) : toml :=
  TList (map (fun '(dep, version) =>
                TStr (dquote ++ dep ++ " " ++ version ++ dquote)) dependencies).

(** [exit status] of the interpreter for a script that ended with [r]. *)
Definition exit_status (r : result unit) : Z :=
  match r with
  | Ok _ => 0
  | Raise (SystemExit code) => code
  | Raise _ => 1
  end.

(* ===================================================================== *)
(** ** The driver *)
(* ===================================================================== *)

Section Driver.

(** The [toml] package is not part of the script: [toml.load] is any
    partial parser and [toml.dump] any printer. *)
Variable toml_loads : string -> option toml.
Variable toml_dumps : toml -> string.

(** [with open("pyproject.toml") as f: data = toml.load(f)] *)
Definition load_descriptor : M toml :=
  text <- read_text "pyproject.toml" ;;
  match toml_loads text with
  | Some data => ret data
  | None => raise TomlDecodeError
  end.

(** Lines 119-125. *)
Definition ask_metadata (data : toml) : M (toml * string * string) :=
  print "Hi! Let's get started." ;;
  print "Please answer the following questions to help us get you set up." ;;
  '(name, email, project_name, project_description, py_version) <- query_params true ;;
  data <- lift (setitem_at data ["project"] "authors"
                  (TList [TTable [("name", TStr name); ("email", TStr email)]])) ;;
  data <- lift (setitem_at data ["project"] "name" (TStr project_name)) ;;
  data <- lift (setitem_at data ["project"] "description" (TStr project_description)) ;;
  data <- lift (setitem_at data ["project"] "python" (TStr py_version)) ;;
  ret (data, name, project_name).

(** Lines 127-144. *)
Definition ask_dependencies (data : toml) : M toml :=
  dependencies <- query_dependencies "runtime" ;;
  data <- lift (setitem_at data ["project"] "dependencies"
                  (format_dependencies dependencies)) ;;
  dependencies <- query_dependencies "development" ;;
  data <- lift (setitem_at data ["project"; "optional-dependencies"] "dev"
                  (format_dependencies dependencies)) ;;
  dependencies <- query_dependencies "documentation" ;;
  data <- lift (setitem_at data ["project"; "optional-dependencies"] "doc"
                  (format_dependencies dependencies)) ;;
  dependencies <- query_dependencies "testing" ;;
  data <- lift (setitem_at data ["project"; "optional-dependencies"] "test"
                  (format_dependencies dependencies)) ;;
  ret data.

(** Lines 146-152. *)
Definition store_descriptor (data : toml) (name : string) : M unit :=
  print "Updating license..." ;;
  update_license name ;;
  print "Generating pyproject.toml..." ;;
  write_text "pyproject.toml" (toml_dumps data).

(** Lines 154-161. *)
Definition rename_tree (data : toml) (project_name : string) : M unit :=
  print "Renaming project..." ;;
  limit <- (fun w => (Ok (recursion_limit w), w)) ;;
  rename_project limit project_name ;;
  os_rename_in "src" "project_name" project_name ;;
  _ <- lift (setitem_at data ["tool"; "setuptools"] "dynamic"
               (TStr (project_name ++ ".__version__"))) ;;
  print "Your project is ready! Deleting myself from existence, farewell!" ;;
  file <- (fun w => (Ok (script_file w), w)) ;;
  print file.

(** The body of the second [try] of [main]. *)
Definition main_body (data : toml) : M unit :=
  '(data, name, project_name) <- ask_metadata data ;;
  data <- ask_dependencies data ;;
  store_descriptor data name ;;
  rename_tree data project_name.

(** [main], lines 110-166. *)
Definition main : M unit :=
  data <- try_except load_descriptor is_FileNotFoundError
            (print "No pyproject.toml found, exiting." ;; exit 1) ;;
  try_except (main_body data) is_KeyboardInterrupt
    (print (newline ++ "Exiting.") ;; exit 0).

End Driver.

(* ===================================================================== *)
(** ** Worlds along a dialogue *)
(* ===================================================================== *)

(** The world once the terminal has shown [shown] and the keys still to
    come are [keys]. *)
Definition typed (keys : list key_event) (shown : list out_event) (w : world) : world :=
  with_stdin keys (with_stdout (stdout w ++ shown)%list w).

(** [n] times Enter on an empty line. *)
Definition blanks (n : nat) : list key_event := repeat (Line EmptyString) n.

(** What [n] empty answers to a required prompt put on the terminal. *)
Fixpoint reprompts (prompt complaint : string) (n : nat) : list out_event :=
  match n with
  | O => []
  | S n' => Prompted prompt :: Printed complaint :: reprompts prompt complaint n'
  end.

(** The number of keys still to come does not grow ([steady]), and
    shrinks when the computation returns ([eager]). *)
Definition steady {A} (m : M A) : Prop :=
  forall w r w', m w = (r, w') -> List.length (stdin w') <= List.length (stdin w).

Definition eager {A} (m : M A) : Prop :=
  forall w a w', m w = (Ok a, w') -> List.length (stdin w') < List.length (stdin w).

(** The computation never ends in the model's own [OutOfFuel]. *)
Definition fuel_safe {A} (m : M A) : Prop :=
  forall w w', m w <> (Raise OutOfFuel, w').


(** The round of a required prompt. *)
Definition ask_body (prompt complaint : string) (_ : unit) : M (unit + string) :=
  s <- input prompt ;;
  if Str.is_empty s
  then print complaint ;; ret (inl tt)
  else ret (inr s).

Definition version_prompt (dep : string) : string :=
  "Version of " ++ dep ++ " (default: empty): ".
Definition version_complaint : string :=
  "Please enter a version, or press Ctrl+C to exit.".

(** *** One pass through the five questions of [query_params] *)

(** What the user types during one pass: some empty lines and then the
    answer at each of the four required prompts, and one line, maybe
    empty, at the Python version. *)
Record attempt : Type := mkAttempt {
  skip_name : nat;         a_name : string;
  skip_email : nat;        a_email : string;
  skip_project : nat;      a_project : string;
  skip_description : nat;  a_description : string;
  a_python : string
}.

(** The four required answers are not empty. *)
Definition complete (a : attempt) : bool :=
  negb (Str.is_empty (a_name a)) && negb (Str.is_empty (a_email a)) &&
  negb (Str.is_empty (a_project a)) && negb (Str.is_empty (a_description a)).

(** The keys of the pass, followed by [tail]. *)
Definition attempt_keys (a : attempt) (tail : list key_event) : list key_event :=
  (blanks (skip_name a) ++ Line (a_name a) ::
   blanks (skip_email a) ++ Line (a_email a) ::
   blanks (skip_project a) ++ Line (a_project a) ::
   blanks (skip_description a) ++ Line (a_description a) ::
   Line (a_python a) :: tail)%list.

Definition name_prompt : string := "What is your name? ".
Definition name_complaint : string :=
  "Please enter your name, or press Ctrl+C to exit.".
Definition email_prompt : string := "What is your email address? ".
Definition email_complaint : string :=
  "Please enter your email address, or press Ctrl+C to exit.".
Definition project_prompt : string := "What should we call your project? ".
Definition project_complaint : string :=
  "Please enter a project name, or press Ctrl+C to exit.".
Definition description_prompt : string := "What is your project about? ".
Definition description_complaint : string :=
  "Please enter a project description, or press Ctrl+C to exit.".
Definition python_prompt : string :=
  "What version of Python do you want to use? (default: >=3.10) ".
Definition confirm_prompt : string := "Is this correct? (y/n) ".

(** The five values the pass collects. *)
Definition attempt_values (a : attempt) : answers :=
  (a_name a, a_email a, a_project a, a_description a,
   if Str.is_empty (a_python a) then ">=3.10" else a_python a).

(** What the terminal shows during the pass. *)
Definition attempt_shown (a : attempt) : list out_event :=
  (reprompts name_prompt name_complaint (skip_name a) ++
   Prompted name_prompt ::
   reprompts email_prompt email_complaint (skip_email a) ++
   Prompted email_prompt ::
   reprompts project_prompt project_complaint (skip_project a) ++
   Prompted project_prompt ::
   reprompts description_prompt description_complaint (skip_description a) ++
   Prompted description_prompt ::
   [Prompted python_prompt])%list.

(** The echo of the five values and the question that follows it. *)
Definition echo (v : answers) : list out_event :=
  let '(name, email, project_name, project_description, py_version) := v in
  [ Printed "So far, we have:";
    Printed (" - Author: " ++ name ++ " <" ++ email ++ ">");
    Printed (" - Project name: " ++ project_name);
    Printed (" - Project description: " ++ project_description);
    Printed (" - Python version: " ++ py_version);
    Prompted confirm_prompt ].

Definition try_again : out_event := Printed "Understood, let's try again.".

(** The round of the loop of [query_params]. *)
Definition params_body (validate : bool) (_ : unit) : M (unit + answers) :=
  name <- ask_required "What is your name? "
            "Please enter your name, or press Ctrl+C to exit." ;;
  email <- ask_required "What is your email address? "
            "Please enter your email address, or press Ctrl+C to exit." ;;
  project_name <- ask_required "What should we call your project? "
            "Please enter a project name, or press Ctrl+C to exit." ;;
  project_description <- ask_required "What is your project about? "
            "Please enter a project description, or press Ctrl+C to exit." ;;
  s <- input ("What version of Python do you want to use? (default: "
              ++ DEFAULT_PY_VERSION ++ ") ") ;;
  let py_version := Str.or_default s DEFAULT_PY_VERSION in
  if validate then
    print "So far, we have:" ;;
    print (" - Author: " ++ name ++ " <" ++ email ++ ">") ;;
    print (" - Project name: " ++ project_name) ;;
    print (" - Project description: " ++ project_description) ;;
    print (" - Python version: " ++ py_version) ;;
    a <- input "Is this correct? (y/n) " ;;
    if declines a
    then print "Understood, let's try again." ;; ret (inl tt)
    else ret (inr (name, email, project_name, project_description, py_version))
  else ret (inr (name, email, project_name, project_description, py_version)).

(** *** One round of the loop of [query_dependencies] *)

(** What the user types during a round that reaches the last question:
    the answer to "Add ... dependencies?", the name and the version, each
    after some empty lines, and the answer to "Add another dependency?". *)
Record entry : Type := mkEntry {
  e_add : string;
  skip_dep : nat;      e_dep : string;
  skip_version : nat;  e_version : string;
  e_another : string
}.

(** The round gets to the last question: the first answer is [y] or [Y]
    and the name and the version are not empty. *)
Definition entered (e : entry) : bool :=
  negb (declines (e_add e)) &&
  negb (Str.is_empty (e_dep e)) && negb (Str.is_empty (e_version e)).

(** ... and the last answer is [y] or [Y] as well. *)
Definition kept (e : entry) : bool :=
  entered e && negb (declines (e_another e)).

Definition entry_keys (e : entry) (tail : list key_event) : list key_event :=
  (Line (e_add e) ::
   blanks (skip_dep e) ++ Line (e_dep e) ::
   blanks (skip_version e) ++ Line (e_version e) ::
   Line (e_another e) :: tail)%list.

Definition scope_prompt (scope : string) : string :=
  "Add " ++ scope ++ " dependencies? (y/n) ".
Definition dep_prompt : string := "Add a dependency (e.g. requests): ".
Definition dep_complaint : string :=
  "Please enter a dependency, or press Ctrl+C to exit.".
Definition another_prompt : string := "Add another dependency? (y/n) ".
Definition try_banner : list out_event :=
  [ Printed "Please enter the dependencies you want to add.";
    Printed "Press Ctrl+C to leave empty and move on." ].
Definition moving_on : out_event := Printed "Understood, let's move on.".

Definition entry_shown (scope : string) (e : entry) : list out_event :=
  (Prompted (scope_prompt scope) :: try_banner ++
   reprompts dep_prompt dep_complaint (skip_dep e) ++
   Prompted dep_prompt ::
   reprompts (version_prompt (e_dep e)) version_complaint (skip_version e) ++
   [ Prompted (version_prompt (e_dep e)); Printed "Added!"; Prompted another_prompt ])%list.

(** Several rounds in a row. *)
Definition entries_keys (es : list entry) (tail : list key_event) : list key_event :=
  fold_right entry_keys tail es.
Definition entries_shown (scope : string) (es : list entry) : list out_event :=
  flat_map (entry_shown scope) es.

(** [deps[dep] = version] for the entries of [es], in turn. *)
Definition commits (es : list entry) (deps : Dict.t string) : Dict.t string :=
  fold_left (fun d e => Dict.set d (e_dep e) (e_version e)) es deps.

(** Where, inside the [try] block, the user presses Ctrl+C: at the name
    prompt, at the version prompt or at "Add another dependency?". *)
Inductive interruption : Type :=
| AtDep (n : nat)
| AtVersion (n : nat) (dep : string) (m : nat)
| AtAnother (n : nat) (dep : string) (m : nat) (version : string).

Definition interruption_keys (i : interruption) (tail : list key_event)
  : list key_event :=
  match i with
  | AtDep n => blanks n ++ CtrlC :: tail
  | AtVersion n dep m => blanks n ++ Line dep :: blanks m ++ CtrlC :: tail
  | AtAnother n dep m version =>
      blanks n ++ Line dep :: blanks m ++ Line version :: CtrlC :: tail
  end%list.

Definition interruption_ok (i : interruption) : bool :=
  match i with
  | AtDep _ => true
  | AtVersion _ dep _ => negb (Str.is_empty dep)
  | AtAnother _ dep _ version =>
      negb (Str.is_empty dep) && negb (Str.is_empty version)
  end.

(** The round of the loop of [query_dependencies]. *)
Definition deps_body (scope : string) (deps : Dict.t string)
  : M (Dict.t string + Dict.t string) :=
  a <- input ("Add " ++ scope ++ " dependencies? (y/n) ") ;;
  if declines a
  then ret (inr deps)
  else try_except (add_dependency deps) is_KeyboardInterrupt (ret (inr [])).

(** No version of the mapping is the empty string. *)
Definition versions_nonempty (deps : Dict.t string) : Prop :=
  Forall (fun item => Str.is_empty (snd item) = false) deps.

(** *** License templates *)

(** A license text cut at its placeholders. *)
Inductive piece : Type :=
| Txt (s : string)
| YearTag               (* the token <year> *)
| NameTag.              (* the token <name> *)

Fixpoint template (ps : list piece) : string :=
  match ps with
  | [] => EmptyString
  | Txt s :: ps' => s ++ template ps'
  | YearTag :: ps' => "<year>" ++ template ps'
  | NameTag :: ps' => "<name>" ++ template ps'
  end.

(** The text with the year and the name in the place of the tokens. *)
Fixpoint filled (yr name : string) (ps : list piece) : string :=
  match ps with
  | [] => EmptyString
  | Txt s :: ps' => s ++ filled yr name ps'
  | YearTag :: ps' => yr ++ filled yr name ps'
  | NameTag :: ps' => name ++ filled yr name ps'
  end.

(** Every text is cut at its placeholders by one scan from the left: a
    token at the scan position is a tag (the counter [skip] passes over
    the rest of it), any other character is a piece of text. *)
Fixpoint cut_scan (skip : nat) (s : string) : list piece :=
  match s with
  | EmptyString => []
  | String c s' =>
      match skip with
      | S k => cut_scan k s'
      | O =>
          if prefix "<year>" s then YearTag :: cut_scan 5 s'
          else if prefix "<name>" s then NameTag :: cut_scan 5 s'
          else Txt (String c EmptyString) :: cut_scan 0 s'
      end
  end.

Definition cut (s : string) : list piece := cut_scan 0 s.

(** Decimal numerals: at least one character, and digits only. *)
Definition is_digit (c : ascii) : bool :=
  let n := nat_of_ascii c in ((48 <=? n)%nat && (n <=? 57)%nat)%bool.

Fixpoint all_digits (s : string) : bool :=
  match s with
  | EmptyString => true
  | String c s' => is_digit c && all_digits s'
  end.

Definition decimal (s : string) : bool :=
  negb (Str.is_empty s) && all_digits s.

(** Characters that are neither [<] nor a digit. *)
Fixpoint wordy (s : string) : bool :=
  match s with
  | EmptyString => true
  | String c s' => negb (Ascii.eqb "<"%char c) && negb (is_digit c) && wordy s'
  end.

(** *** The walk of [rename_project] *)

(** What [rename_project] does at one name of the listing, with [depth]
    frames left for the call it makes on a directory. *)
Definition visit (depth : nat) (project_name path : string) : M unit :=
  d <- os_path_isdir path ;;
  if d then rename_project depth path
  else
    f <- os_path_isfile path ;;
    if f then
      data <- read_text path ;;
      write_text path (Str.replace "project_name" project_name data)
    else ret tt.

(** What a name of the working directory is: nothing, a regular file, a
    directory with its entries, or something else. *)
Inductive shape : Type :=
| Absent
| IsFile
| IsDir (entries : list (string * node))
| IsSpecial.

Definition shape_of (o : option node) : shape :=
  match o with
  | None => Absent
  | Some (File _) | Some Binary => IsFile
  | Some (Dir es) => IsDir es
  | Some Special => IsSpecial
  end.

(** Every name is in [d'] what it is in [d], and a directory has the same
    entries. *)
Definition same_shapes (d d' : list (string * node)) : Prop :=
  forall path, shape_of (Dict.get d' path) = shape_of (Dict.get d path).

(** A regular file after the substitution, made on the text as it is
    read; anything else as it is. *)
Definition rewritten (project_name : string) (n : node) : node :=
  match n with
  | File content =>
      File (Str.replace "project_name" project_name (universal_newlines content))
  | _ => n
  end.

(** Every regular file of the directory decodes. *)
Definition readable (d : list (string * node)) : bool :=
  forallb (fun item => match snd item with Binary => false | _ => true end) d.

(** No name of the directory is a directory. *)
Definition flat (d : list (string * node)) : Prop :=
  forall path es, Dict.get d path <> Some (Dir es).

(** *** The descriptor along the run *)

(** Two paths part ways: at some depth they name different keys. *)
Fixpoint diverges (p q : list string) : bool :=
  match p, q with
  | a :: p', b :: q' => if String.eqb a b then diverges p' q' else true
  | _, _ => false
  end.

Definition then_set (r : result toml) (path : list string) (k : string) (v : toml)
  : result toml :=
  match r with
  | Ok d => setitem_at d path k v
  | Raise e => Raise e
  end.

(** The four assignments of lines 122-125. *)
Definition mutate_metadata (data : toml) (v : answers) : result toml :=
  let '(name, email, project_name, project_description, py_version) := v in
  then_set (then_set (then_set
    (setitem_at data ["project"] "authors"
       (TList [TTable [("name", TStr name); ("email", TStr email)]]))
    ["project"] "name" (TStr project_name))
    ["project"] "description" (TStr project_description))
    ["project"] "python" (TStr py_version).

(** The four assignments of lines 129-144. *)
Definition mutate_dependencies (data : toml) (runtime dev doc test : Dict.t string)
  : result toml :=
  then_set (then_set (then_set
    (setitem_at data ["project"] "dependencies" (format_dependencies runtime))
    ["project"; "optional-dependencies"] "dev" (format_dependencies dev))
    ["project"; "optional-dependencies"] "doc" (format_dependencies doc))
    ["project"; "optional-dependencies"] "test" (format_dependencies test).

Definition greeting : list out_event :=
  [ Printed "Hi! Let's get started.";
    Printed "Please answer the following questions to help us get you set up." ].

Definition storing : list out_event :=
  [ Printed "Updating license..."; Printed "Generating pyproject.toml..." ].

(** The two replacements of [update_license] made on [text], and nothing
    else altered. *)
Definition licensed (name : string) (yr : N) (text : string) : string :=
  Str.replace "<name>" name (Str.replace "<year>" (Str.of_N yr) text).

(** The first pass of the end-to-end run: Ada, a project called acme, the
    default Python version. *)
Definition ada : attempt :=
  mkAttempt 0 "Ada" 0 "a@x.com" 0 "acme" 0 "demo" EmptyString.

(** The keys of a run in which the five answers are confirmed and the four
    questions on dependencies are answered with [no]. *)
Definition plain_run (a : attempt) (confirm : string) (tail : list key_event)
  : list key_event :=
  attempt_keys a
    (Line confirm :: Line "no" :: Line "no" :: Line "no" :: Line "no" :: tail).

(** What the terminal shows in such a run, up to the writing of
    [pyproject.toml]. *)
Definition plain_shown (a : attempt) : list out_event :=
  (greeting ++ attempt_shown a ++ echo (attempt_values a) ++
   [ Prompted (scope_prompt "runtime"); moving_on;
     Prompted (scope_prompt "development"); moving_on;
     Prompted (scope_prompt "documentation"); moving_on;
     Prompted (scope_prompt "testing"); moving_on ] ++ storing)%list.

(** *** A template to run the script on *)

(** A descriptor with the containers the script assigns into. *)
Definition sample_descriptor : toml :=
  TTable
    [ ("project",
       TTable
         [ ("name", TStr "project_name");
           ("dependencies", TList []);
           ("optional-dependencies",
            TTable [("dev", TList []); ("doc", TList []); ("test", TList [])]) ]);
      ("tool",
       TTable
         [ ("setuptools",
            TTable
              [ ("dynamic",
                 TTable
                   [("version",
                     TTable [("attr", TStr "project_name.__version__")])]) ]) ]) ].

(** A stand-in for the [toml] package: one text is known to the parser,
    and the printer tells a descriptor by its project name. *)
Definition sample_loads (text : string) : option toml :=
  if String.eqb text "[project]" then Some sample_descriptor else None.

Definition sample_dumps (data : toml) : string :=
  match getitem_at data ["project"; "name"] with
  | Ok (TStr s) => "[project] name = " ++ s
  | _ => "[project]"
  end.

Definition sample_tree : list (string * node) :=
  [ ("pyproject.toml", File "[project]");
    ("LICENSE", File "Copyright (c) <year> <name>");
    ("src",
     Dir [("project_name", Dir [("utils.py", File "import project_name.utils")])]) ].

(** The world of a run in 2024, with the recursion limit of CPython. *)
Definition console (keys : list key_event) (files : list (string * node)) : world :=
  mkWorld keys [] files 2024 1000 "init.py".

(** The sample descriptor after the first phase of the end-to-end run,
    and after the second. *)
Definition sample_descriptor1 : toml :=
  match mutate_metadata sample_descriptor (attempt_values ada) with
  | Ok d => d
  | Raise _ => sample_descriptor
  end.

Definition sample_descriptor2 : toml :=
  match mutate_dependencies sample_descriptor1 [] [] [] [] with
  | Ok d => d
  | Raise _ => sample_descriptor1
  end.

(* ===================================================================== *)
(** ** Vocabulary of the further properties *)
(* ===================================================================== *)


(** *** Where a dialogue stops *)

(** How the keys end: with Ctrl+C and what the user would have typed
    next, or with the end of the input. *)
Definition halt (rest : option (list key_event)) : list key_event :=
  match rest with
  | Some keys => CtrlC :: keys
  | None => []
  end.

(** The exception [input] raises there, and the keys it leaves. *)
Definition halt_exn (rest : option (list key_event)) : exn :=
  match rest with
  | Some _ => KeyboardInterrupt
  | None => EOFError
  end.

Definition halt_rest (rest : option (list key_event)) : list key_event :=
  match rest with
  | Some keys => keys
  | None => []
  end.

(** The keys of a pass through [query_params] that stops at its prompt
    number [stage]: 0 to 3 for the four required prompts, 4 for the Python
    version, and anything above for the confirmation. *)
Definition attempt_until (a : attempt) (stage : nat) (tail : list key_event)
  : list key_event :=
  match stage with
  | 0 => blanks (skip_name a) ++ tail
  | 1 => blanks (skip_name a) ++ Line (a_name a) ::
         blanks (skip_email a) ++ tail
  | 2 => blanks (skip_name a) ++ Line (a_name a) ::
         blanks (skip_email a) ++ Line (a_email a) ::
         blanks (skip_project a) ++ tail
  | 3 => blanks (skip_name a) ++ Line (a_name a) ::
         blanks (skip_email a) ++ Line (a_email a) ::
         blanks (skip_project a) ++ Line (a_project a) ::
         blanks (skip_description a) ++ tail
  | 4 => blanks (skip_name a) ++ Line (a_name a) ::
         blanks (skip_email a) ++ Line (a_email a) ::
         blanks (skip_project a) ++ Line (a_project a) ::
         blanks (skip_description a) ++ Line (a_description a) :: tail
  | _ => attempt_keys a tail
  end%list.

(** Passes that are answered and then turned down, followed by [tail]. *)
Definition rejected_keys (passes : list (attempt * string)) (tail : list key_event)
  : list key_event :=
  fold_right (fun p rest => attempt_keys (fst p) (Line (snd p) :: rest)) tail passes.

Definition rejected_shown (passes : list (attempt * string)) : list out_event :=
  flat_map (fun p => attempt_shown (fst p) ++ echo (attempt_values (fst p)) ++ [try_again])%list
           passes.

(** Every pass is complete and its confirmation is not [y] or [Y]. *)
Definition rejected (passes : list (attempt * string)) : bool :=
  forallb (fun p => complete (fst p) && declines (snd p)) passes.

(** No value of the five is the empty string. *)
Definition answers_nonempty (v : answers) : Prop :=
  let '(name, email, project_name, project_description, py_version) := v in
  Str.is_empty name = false /\ Str.is_empty email = false /\
  Str.is_empty project_name = false /\ Str.is_empty project_description = false /\
  Str.is_empty py_version = false.

(** No name of the mapping is the empty string. *)
Definition names_nonempty (deps : Dict.t string) : Prop :=
  Forall (fun item => Str.is_empty (fst item) = false) deps.

(** The last entry of [es] with the name [dep], if there is one. *)
Definition last_entry (es : list entry) (dep : string) : option entry :=
  find (fun e => String.eqb dep (e_dep e)) (rev es).

(** The keys of a round of [query_dependencies] that run dry inside the
    [try] block, at the prompt that [i] tells. *)
Definition exhausted_keys (i : interruption) : list key_event :=
  match i with
  | AtDep n => blanks n
  | AtVersion n dep m => blanks n ++ Line dep :: blanks m
  | AtAnother n dep m version => blanks n ++ Line dep :: blanks m ++ [Line version]
  end%list.

(** *** What a computation leaves alone *)

(** The computation leaves the files as they are, whatever its outcome. *)
Definition keeps_files {A} (m : M A) : Prop :=
  forall w, cwd (snd (m w)) = cwd w.

(** The exceptions of the computation are among those [allowed]. *)
Definition raises_only {A} (allowed : exn -> bool) (m : M A) : Prop :=
  forall w e w', m w = (Raise e, w') -> allowed e = true.

Definition not_exit (e : exn) : bool :=
  match e with SystemExit _ => false | _ => true end.

Definition not_interrupt (e : exn) : bool :=
  match e with KeyboardInterrupt => false | _ => true end.

(** Neither [SystemExit] nor [KeyboardInterrupt]. *)
Definition plain_error (e : exn) : bool := not_exit e && not_interrupt e.

(** [old in s]: [old] occurs somewhere in [s]. *)
Fixpoint occurs (old s : string) : bool :=
  prefix old s ||
  match s with
  | EmptyString => false
  | String _ s' => occurs old s'
  end.

(** The listing and the kinds of the entries are the same. *)
Definition same_listing (d d' : list (string * node)) : Prop :=
  Dict.keys d' = Dict.keys d /\ same_shapes d d'.

(** The places of the descriptor that [main] assigns to before it writes
    the descriptor. *)
Definition assigned : list (list string) :=
  [ ["project"; "authors"]; ["project"; "name"]; ["project"; "description"];
    ["project"; "python"]; ["project"; "dependencies"];
    ["project"; "optional-dependencies"; "dev"];
    ["project"; "optional-dependencies"; "doc"];
    ["project"; "optional-dependencies"; "test"] ].

(** The path [q] parts ways with every place that is assigned to. *)
Definition untouched (q : list string) : bool :=
  forallb (fun p => diverges p q) assigned.

(** The exceptions of [input], and the one the model adds for its loops. *)
Definition input_error (e : exn) : bool :=
  match e with
  | KeyboardInterrupt | EOFError | OutOfFuel => true
  | _ => false
  end.

(** The exception of [data["project"][k] = v] when [data] has no table
    [project]: the [KeyError] of the lookup when the key is missing, the
    [TypeError] of the assignment when its value is no table. *)
Definition no_project_table (data : toml) : option exn :=
  match getitem data "project" with
  | Raise e => Some e
  | Ok (TTable _) => None
  | Ok _ => Some TypeError
  end.

(** [flat], as a check on a listing. *)
Definition flatb (d : list (string * node)) : bool :=
  forallb (fun item => match snd item with Dir _ => false | _ => true end) d.

(** Lines 7-21: the three mappings of default dependencies. *)
Definition DEFAULT_DEPS_DEV : Dict.t string :=
  [ ("black", ">= 23.0.0, 24"); ("ruff", ">= 0.1.0, < 1"); ("isort", ">= 5.0.0, < 6") ].

Definition DEFAULT_DEPS_DOC : Dict.t string :=
  [ ("mkdocs-material", ">= 9.2.0, < 10"); ("mdx-include", ">= 1.3.0, < 2") ].

Definition DEFAULT_DEPS_TEST : Dict.t string :=
  [ ("pytest", ">= 7.4.0, < 8"); ("pytest-cov", ">= 4.1.0, < 5");
    ("coverage", ">= 7.3.0, < 8") ].

(** What the terminal shows when the four scopes are declined. *)
Definition all_declined : list out_event :=
  [ Prompted (scope_prompt "runtime"); moving_on;
    Prompted (scope_prompt "development"); moving_on;
    Prompted (scope_prompt "documentation"); moving_on;
    Prompted (scope_prompt "testing"); moving_on ].

(** *** Samples for the text mode and for the printer *)

(** A license with the line ends of DOS. *)
Definition dos_license : string :=
  "MIT License" ++
  String carriage_return (String line_feed "Copyright (c) <year> <name>").

(** A printer that tells a descriptor by its dynamic version. *)
Definition dynamic_dumps (data : toml) : string :=
  match getitem_at data ["tool"; "setuptools"; "dynamic"] with
  | Ok (TStr s) => "dynamic = " ++ s
  | Ok (TTable _) =>
      match getitem_at data ["tool"; "setuptools"; "dynamic"; "version"; "attr"] with
      | Ok (TStr s) => "dynamic.version.attr = " ++ s
      | _ => "dynamic"
      end
  | _ => EmptyString
  end.

(** The sample descriptor of a project whose dynamic version is already
    that of [acme]. *)
Definition released_descriptor : toml :=
  match setitem_at sample_descriptor ["tool"; "setuptools"] "dynamic"
          (TStr "acme.__version__") with
  | Ok d => d
  | Raise _ => sample_descriptor
  end.

Definition released_loads (text : string) : option toml :=
  if String.eqb text "[project]" then Some released_descriptor else None.
(* ===================================================================== *)
(** ** The monad and its loops *)
(* ===================================================================== *)

Lemma bind_ok {A B} (m : M A) (f : A -> M B) w a w' :
  m w = (Ok a, w') -> bind m f w = f a w'.
Proof. unfold bind. intros ->. reflexivity. Qed.

Lemma bind_raise {A B} (m : M A) (f : A -> M B) w e w' :
  m w = (Raise e, w') -> bind m f w = (Raise e, w').
Proof. unfold bind. intros ->. reflexivity. Qed.

Lemma bind_inv_ok {A B} (m : M A) (f : A -> M B) w b w' :
  bind m f w = (Ok b, w') ->
  exists a w1, m w = (Ok a, w1) /\ f a w1 = (Ok b, w').
Proof.
  unfold bind. destruct (m w) as [[a | e] w1]; intros H.
  - exists a, w1. split; [reflexivity | exact H].
  - discriminate H.
Qed.

Lemma steady_ret {A} (a : A) : steady (ret a).
Proof. intros w r w' H. inversion H. subst. apply le_n. Qed.

Lemma steady_raise {A} e : steady (@raise A e).
Proof. intros w r w' H. inversion H. subst. apply le_n. Qed.

Lemma steady_lift {A} (r : result A) : steady (lift r).
Proof. intros w r' w' H. inversion H. subst. apply le_n. Qed.

Lemma steady_print s : steady (print s).
Proof. intros w r w' H. inversion H. subst. apply le_n. Qed.

Lemma steady_input p : steady (input p).
Proof.
  intros w r w' H. unfold input in H.
  destruct (stdin w) as [| [s |] rest] eqn:E; inversion H; subst; simpl;
    rewrite ?E; simpl; lia.
Qed.

Lemma eager_input p : eager (input p).
Proof.
  intros w a w' H. unfold input in H.
  destruct (stdin w) as [| [s |] rest] eqn:E; inversion H; subst; simpl;
    rewrite ?E; simpl; lia.
Qed.

Lemma steady_bind {A B} (m : M A) (f : A -> M B) :
  steady m -> (forall a, steady (f a)) -> steady (bind m f).
Proof.
  intros Hm Hf w r w' H. unfold bind in H.
  destruct (m w) as [[a | e] w1] eqn:E.
  - specialize (Hm _ _ _ E). specialize (Hf a _ _ _ H). lia.
  - inversion H. subst. exact (Hm _ _ _ E).
Qed.

Lemma eager_bind_l {A B} (m : M A) (f : A -> M B) :
  eager m -> (forall a, steady (f a)) -> eager (bind m f).
Proof.
  intros Hm Hf w b w' H.
  destruct (bind_inv_ok _ _ _ H) as (a & w1 & E1 & E2).
  specialize (Hm _ _ _ E1). specialize (Hf a _ _ _ E2). lia.
Qed.

Lemma steady_try_except {A} (m h : M A) c :
  steady m -> steady h -> steady (try_except m c h).
Proof.
  intros Hm Hh w r w' H. unfold try_except in H.
  destruct (m w) as [[a | e] w1] eqn:E.
  - inversion H. subst. exact (Hm _ _ _ E).
  - specialize (Hm _ _ _ E). destruct (c e).
    + specialize (Hh _ _ _ H). lia.
    + inversion H. subst. exact Hm.
Qed.

Lemma steady_while_fuel {S A} (body : S -> M (S + A)) :
  (forall s, steady (body s)) -> forall fuel s, steady (while_fuel fuel body s).
Proof.
  intros Hb fuel. induction fuel as [| fuel IH]; intros s; simpl.
  - apply steady_raise.
  - apply steady_bind; [apply Hb |]. intros [s' | a]; [apply IH | apply steady_ret].
Qed.

Lemma steady_while_input {S A} (body : S -> M (S + A)) s :
  (forall s, steady (body s)) -> steady (while_input body s).
Proof.
  intros Hb w r w' H. unfold while_input in H.
  exact (@steady_while_fuel _ _ body Hb _ _ _ _ _ H).
Qed.

Lemma eager_while_fuel {S A} (body : S -> M (S + A)) :
  (forall s, steady (body s)) -> (forall s, eager (body s)) ->
  forall fuel s, eager (while_fuel fuel body s).
Proof.
  intros Hs Hb fuel. induction fuel as [| fuel IH]; intros s; simpl.
  - intros w a w' H. discriminate H.
  - apply eager_bind_l; [apply Hb |].
    intros [s' | a]; [apply steady_while_fuel; exact Hs | apply steady_ret].
Qed.

Lemma eager_while_input {S A} (body : S -> M (S + A)) s :
  (forall s, steady (body s)) -> (forall s, eager (body s)) ->
  eager (while_input body s).
Proof.
  intros Hs Hb w a w' H. unfold while_input in H.
  exact (@eager_while_fuel _ _ body Hs Hb _ _ _ _ _ H).
Qed.

(** Once there is a unit of fuel per key still to come, and one more,
    the amount of fuel does not matter. *)
Lemma while_fuel_enough {S A} (body : S -> M (S + A)) :
  (forall s, eager (body s)) ->
  forall n m s w,
    List.length (stdin w) < n -> List.length (stdin w) < m ->
    while_fuel n body s w = while_fuel m body s w.
Proof.
  intros Hb n. induction n as [| n IH]; intros m s w Hn Hm; [lia |].
  destruct m as [| m]; [lia |]. simpl. unfold bind.
  destruct (body s w) as [[[s' | a] | e] w1] eqn:E; try reflexivity.
  specialize (Hb _ _ _ _ E). apply IH; lia.
Qed.

(** The loop, one round at a time. *)
Lemma while_input_unfold {S A} (body : S -> M (S + A)) s w :
  (forall s, eager (body s)) ->
  while_input body s w =
  match body s w with
  | (Ok (inl s'), w') => while_input body s' w'
  | (Ok (inr a), w') => (Ok a, w')
  | (Raise e, w') => (Raise e, w')
  end.
Proof.
  intros Hb. unfold while_input at 1. simpl. unfold bind.
  destruct (body s w) as [[[s' | a] | e] w1] eqn:E; try reflexivity.
  unfold while_input. pose proof (Hb _ _ _ _ E) as Hlt.
  apply while_fuel_enough; [exact Hb | lia | lia].
Qed.

Lemma fuel_safe_bind {A B} (m : M A) (f : A -> M B) :
  fuel_safe m -> (forall a, fuel_safe (f a)) -> fuel_safe (bind m f).
Proof.
  intros Hm Hf w w' H. unfold bind in H.
  destruct (m w) as [[a | e] w1] eqn:E.
  - exact (Hf a _ _ H).
  - inversion H. subst. exact (Hm _ _ E).
Qed.

Lemma fuel_safe_try_except {A} (m h : M A) c :
  fuel_safe m -> fuel_safe h -> fuel_safe (try_except m c h).
Proof.
  intros Hm Hh w w' H. unfold try_except in H.
  destruct (m w) as [[a | e] w1] eqn:E; [discriminate H |].
  destruct (c e) eqn:Ec.
  - exact (Hh _ _ H).
  - inversion H. subst. exact (Hm _ _ E).
Qed.

(** *** The terminal, step by step *)

Lemma print_run s k o d y r f :
  print s (mkWorld k o d y r f) = (Ok tt, mkWorld k (o ++ [Printed s]) d y r f).
Proof. reflexivity. Qed.

Lemma input_line p s rest o d y r f :
  input p (mkWorld (Line s :: rest) o d y r f) =
  (Ok s, mkWorld rest (o ++ [Prompted p]) d y r f).
Proof. reflexivity. Qed.

Lemma input_interrupt p rest o d y r f :
  input p (mkWorld (CtrlC :: rest) o d y r f) =
  (Raise KeyboardInterrupt, mkWorld rest (o ++ [Prompted p]) d y r f).
Proof. reflexivity. Qed.

Lemma input_eof p o d y r f :
  input p (mkWorld [] o d y r f) =
  (Raise EOFError, mkWorld [] (o ++ [Prompted p]) d y r f).
Proof. reflexivity. Qed.

Lemma ret_run {A} (a : A) w : ret a w = (Ok a, w).
Proof. reflexivity. Qed.

(** One step of a computation at a world that is written out. *)
Ltac step :=
  first
    [ erewrite bind_ok by apply print_run
    | erewrite bind_ok by apply input_line
    | erewrite bind_raise by apply input_interrupt
    | erewrite bind_raise by apply input_eof
    | rewrite print_run
    | rewrite ret_run ].

(** Worlds, written out. *)
Ltac world_norm :=
  unfold typed, with_stdin, with_stdout, with_cwd;
  cbn [stdin stdout cwd year recursion_limit script_file].

(** Lists of shown events, flattened to the right. *)
Ltac tidy_out :=
  repeat (rewrite <- app_assoc || rewrite <- app_comm_cons); cbn [app].

Lemma fuel_safe_ret {A} (a : A) : fuel_safe (ret a).
Proof. intros w w' H. discriminate H. Qed.

Lemma fuel_safe_print s : fuel_safe (print s).
Proof. intros w w' H. discriminate H. Qed.

Lemma fuel_safe_input p : fuel_safe (input p).
Proof.
  intros w w' H. unfold input in H.
  destruct (stdin w) as [| [s |] rest]; discriminate H.
Qed.

(** A loop whose every round reads a key ends before its fuel does. *)
Lemma while_input_total {S A} (body : S -> M (S + A)) :
  (forall s, eager (body s)) -> (forall s, fuel_safe (body s)) ->
  forall s, fuel_safe (while_input body s).
Proof.
  intros He Hs s w. remember (List.length (stdin w)) as n eqn:En.
  revert s w En. induction n as [n IH] using lt_wf_ind. intros s w En w' H.
  rewrite while_input_unfold in H by exact He.
  destruct (body s w) as [[[s' | a] | e] w1] eqn:E.
  - pose proof (He _ _ _ _ E) as Hlt.
    apply (IH (List.length (stdin w1)) ltac:(lia) s' w1 eq_refl w' H).
  - discriminate H.
  - inversion H. subst. exact (Hs _ _ _ E).
Qed.

(* ===================================================================== *)
(** ** The required prompts *)
(* ===================================================================== *)

Ltac steady_tac :=
  repeat first
    [ apply steady_ret | apply steady_print | apply steady_input
    | apply steady_lift | apply steady_raise
    | apply steady_bind | apply steady_try_except
    | apply steady_while_input
    | match goal with
      | |- steady (if ?b then _ else _) => destruct b
      | |- steady (match ?x with _ => _ end) => destruct x
      | |- steady (let _ := _ in _) => cbv zeta
      end
    | intro ].


Lemma ask_body_eager prompt complaint u : eager (ask_body prompt complaint u).
Proof.
  unfold ask_body. apply eager_bind_l; [apply eager_input |]. steady_tac.
Qed.

Lemma ask_body_steady prompt complaint u : steady (ask_body prompt complaint u).
Proof. unfold ask_body. steady_tac. Qed.

Lemma ask_required_eager prompt complaint : eager (ask_required prompt complaint).
Proof.
  apply (@eager_while_input unit string (ask_body prompt complaint) tt).
  - apply ask_body_steady.
  - apply ask_body_eager.
Qed.

Lemma ask_required_steady prompt complaint : steady (ask_required prompt complaint).
Proof.
  apply (@steady_while_input unit string (ask_body prompt complaint) tt).
  apply ask_body_steady.
Qed.

Lemma ask_required_unfold prompt complaint w :
  ask_required prompt complaint w =
  match ask_body prompt complaint tt w with
  | (Ok (inl _), w') => ask_required prompt complaint w'
  | (Ok (inr s), w') => (Ok s, w')
  | (Raise e, w') => (Raise e, w')
  end.
Proof.
  transitivity (while_input (ask_body prompt complaint) tt w); [reflexivity |].
  rewrite while_input_unfold by apply ask_body_eager.
  destruct (ask_body prompt complaint tt w) as [[[[] | s] | e] w']; reflexivity.
Qed.

Lemma is_empty_false s : s <> EmptyString -> Str.is_empty s = false.
Proof. destruct s; [congruence | reflexivity]. Qed.

(** Empty answers are complained about, the first non-empty line is the
    answer. *)
Lemma ask_required_run prompt complaint n s rest o d y r f :
  Str.is_empty s = false ->
  ask_required prompt complaint (mkWorld (blanks n ++ Line s :: rest) o d y r f) =
  (Ok s, mkWorld rest (o ++ reprompts prompt complaint n ++ [Prompted prompt]) d y r f).
Proof.
  intros Hs. revert o. induction n as [| n IH]; intros o.
  - rewrite ask_required_unfold. unfold ask_body, bind, input. simpl.
    rewrite Hs. reflexivity.
  - rewrite ask_required_unfold. unfold ask_body, bind, input, print. simpl.
    unfold with_stdout, with_stdin. simpl. rewrite IH.
    repeat rewrite <- app_assoc. reflexivity.
Qed.

(** Ctrl+C at a required prompt, after any number of empty answers. *)
Lemma ask_required_interrupt prompt complaint n rest o d y r f :
  ask_required prompt complaint (mkWorld (blanks n ++ CtrlC :: rest) o d y r f) =
  (Raise KeyboardInterrupt,
   mkWorld rest (o ++ reprompts prompt complaint n ++ [Prompted prompt]) d y r f).
Proof.
  revert o. induction n as [| n IH]; intros o.
  - rewrite ask_required_unfold. reflexivity.
  - rewrite ask_required_unfold. unfold ask_body, bind, input, print. simpl.
    unfold with_stdout, with_stdin. simpl. rewrite IH.
    repeat rewrite <- app_assoc. reflexivity.
Qed.

(** A required prompt never returns the empty string. *)
Lemma ask_required_nonempty prompt complaint w s w' :
  ask_required prompt complaint w = (Ok s, w') -> Str.is_empty s = false.
Proof.
  remember (List.length (stdin w)) as n eqn:En.
  revert w En. induction n as [n IH] using lt_wf_ind. intros w En H.
  rewrite ask_required_unfold in H.
  destruct (ask_body prompt complaint tt w) as [[[[] | s1] | e] w1] eqn:E.
  - pose proof (@ask_body_eager prompt complaint tt _ _ _ E) as Hlt.
    apply (IH (List.length (stdin w1)) ltac:(lia) w1 eq_refl H).
  - inversion H. subst. unfold ask_body, bind in E.
    destruct (input prompt w) as [[s0 | e0] w0]; [| discriminate E].
    destruct (Str.is_empty s0) eqn:E0.
    + unfold print, ret in E. simpl in E. discriminate E.
    + unfold ret in E. inversion E. subst. exact E0.
  - discriminate H.
Qed.

(** The version prompt is a required prompt: its fallback to the empty
    string gives back the empty string it was given. *)
Lemma or_default_empty s : Str.or_default s EmptyString = s.
Proof. destruct s; reflexivity. Qed.

Lemma while_fuel_ext {S A} (body1 body2 : S -> M (S + A)) :
  (forall s w, body1 s w = body2 s w) ->
  forall fuel s w, while_fuel fuel body1 s w = while_fuel fuel body2 s w.
Proof.
  intros Hb fuel. induction fuel as [| fuel IH]; intros s w; simpl.
  - reflexivity.
  - unfold bind. rewrite Hb.
    destruct (body2 s w) as [[[s' | a] | e] w1]; try reflexivity. apply IH.
Qed.


Lemma ask_version_required dep w :
  ask_version dep w = ask_required (version_prompt dep) version_complaint w.
Proof.
  unfold ask_version, ask_required, while_input.
  apply while_fuel_ext. intros [] w0. unfold bind.
  destruct (input _ w0) as [[s | e] w1]; [| reflexivity].
  rewrite or_default_empty. reflexivity.
Qed.

(** *** Answers that count as yes *)

Lemma lower_ascii_y c :
  Str.lower_ascii c = "y"%char -> c = "y"%char \/ c = "Y"%char.
Proof.
  destruct c as [[] [] [] [] [] [] [] []]; vm_compute; intros H;
    try discriminate H; auto.
Qed.

(** The script takes an answer for a yes when it is [y] or [Y]. *)
Lemma declines_spec answer :
  declines answer = false <-> answer = "y" \/ answer = "Y".
Proof.
  unfold declines. rewrite negb_false_iff, String.eqb_eq. split.
  - destruct answer as [| c [| c' rest]]; cbn [Str.lower]; intros H.
    + discriminate H.
    + injection H as H. destruct (lower_ascii_y c H) as [-> | ->]; auto.
    + discriminate H.
  - intros [-> | ->]; reflexivity.
Qed.

(* ===================================================================== *)
(** ** [query_params] *)
(* ===================================================================== *)

Lemma params_body_eager validate u : eager (params_body validate u).
Proof.
  unfold params_body. apply eager_bind_l; [apply ask_required_eager |].
  pose proof ask_required_steady. steady_tac.
Qed.

Lemma query_params_unfold validate w :
  query_params validate w =
  match params_body validate tt w with
  | (Ok (inl _), w') => query_params validate w'
  | (Ok (inr v), w') => (Ok v, w')
  | (Raise e, w') => (Raise e, w')
  end.
Proof.
  transitivity (while_input (params_body validate) tt w); [reflexivity |].
  rewrite while_input_unfold by apply params_body_eager.
  destruct (params_body validate tt w) as [[[[] | v] | e] w']; reflexivity.
Qed.

Lemma complete_inv a :
  complete a = true ->
  Str.is_empty (a_name a) = false /\ Str.is_empty (a_email a) = false /\
  Str.is_empty (a_project a) = false /\ Str.is_empty (a_description a) = false.
Proof.
  unfold complete. intros H.
  repeat (apply andb_prop in H; destruct H as [H ?]).
  repeat split; apply negb_true_iff; assumption.
Qed.

(** One pass through the five questions, up to the echo. *)
Lemma params_pass a validate tail o d y r f :
  complete a = true ->
  params_body validate tt (mkWorld (attempt_keys a tail) o d y r f) =
  if validate then
    match tail with
    | [] => (Raise EOFError,
             mkWorld [] (o ++ attempt_shown a ++ echo (attempt_values a)) d y r f)
    | CtrlC :: rest =>
        (Raise KeyboardInterrupt,
         mkWorld rest (o ++ attempt_shown a ++ echo (attempt_values a)) d y r f)
    | Line c :: rest =>
        if declines c
        then (Ok (inl tt),
              mkWorld rest (o ++ attempt_shown a ++ echo (attempt_values a) ++ [try_again])
                d y r f)
        else (Ok (inr (attempt_values a)),
              mkWorld rest (o ++ attempt_shown a ++ echo (attempt_values a)) d y r f)
    end
  else (Ok (inr (attempt_values a)), mkWorld tail (o ++ attempt_shown a) d y r f).
Proof.
  intros Ha. destruct (complete_inv a Ha) as (H1 & H2 & H3 & H4).
  unfold params_body, attempt_keys.
  erewrite bind_ok by (apply ask_required_run; exact H1).
  erewrite bind_ok by (apply ask_required_run; exact H2).
  erewrite bind_ok by (apply ask_required_run; exact H3).
  erewrite bind_ok by (apply ask_required_run; exact H4).
  erewrite bind_ok by apply input_line.
  unfold attempt_values, attempt_shown, echo, try_again, Str.or_default,
    DEFAULT_PY_VERSION. cbv zeta.
  destruct validate.
  - do 5 step.
    destruct tail as [| [c |] rest].
    + step. do 2 f_equal. tidy_out. reflexivity.
    + step. destruct (declines c); repeat step; do 2 f_equal; tidy_out; reflexivity.
    + step. do 2 f_equal. tidy_out. reflexivity.
  - rewrite ret_run. do 2 f_equal. tidy_out. reflexivity.
Qed.

Lemma query_params_pass a validate tail o d y r f :
  complete a = true ->
  query_params validate (mkWorld (attempt_keys a tail) o d y r f) =
  if validate then
    match tail with
    | [] => (Raise EOFError,
             mkWorld [] (o ++ attempt_shown a ++ echo (attempt_values a)) d y r f)
    | CtrlC :: rest =>
        (Raise KeyboardInterrupt,
         mkWorld rest (o ++ attempt_shown a ++ echo (attempt_values a)) d y r f)
    | Line c :: rest =>
        if declines c
        then query_params true
               (mkWorld rest (o ++ attempt_shown a ++ echo (attempt_values a) ++ [try_again])
                  d y r f)
        else (Ok (attempt_values a),
              mkWorld rest (o ++ attempt_shown a ++ echo (attempt_values a)) d y r f)
    end
  else (Ok (attempt_values a), mkWorld tail (o ++ attempt_shown a) d y r f).
Proof.
  intros Ha. rewrite query_params_unfold, (params_pass a validate tail o d y r f Ha).
  destruct validate; [| reflexivity].
  destruct tail as [| [c |] rest]; try reflexivity.
  destruct (declines c); reflexivity.
Qed.

(** C7.  Each of the four required prompts of [query_params] (name,
    email, project name, project description) complains about every
    empty line and asks again, and takes the first line that is not
    empty; the Python version prompt takes its one line as it comes, and
    an empty line there stands for [">=3.10"].  With validation on, the
    five values are returned once the echo is confirmed. *)
Theorem query_params_required_fields
  (a : attempt) (validate : bool) (confirm : string) (rest : list key_event)
  (w : world) :
  complete a = true ->
  declines confirm = false ->
  stdin w = attempt_keys a (if validate then Line confirm :: rest else rest) ->
  query_params validate w =
  (Ok (a_name a, a_email a, a_project a, a_description a,
       if Str.is_empty (a_python a) then ">=3.10" else a_python a),
   typed rest
     (attempt_shown a ++ if validate then echo (attempt_values a) else [])%list w).
Proof.
  intros Ha Hc Hw. destruct w as [k o d y r f]. simpl in Hw. subst k.
  rewrite query_params_pass by exact Ha.
  unfold typed, with_stdin, with_stdout. simpl.
  destruct validate.
  - rewrite Hc. reflexivity.
  - rewrite app_nil_r. reflexivity.
Qed.


(** The loops of [query_params] end: the function returns or raises a
    Python exception, it never runs out of fuel. *)
Lemma ask_required_total prompt complaint : fuel_safe (ask_required prompt complaint).
Proof.
  apply (@while_input_total unit string (ask_body prompt complaint)).
  - apply ask_body_eager.
  - intros []. unfold ask_body. apply fuel_safe_bind; [apply fuel_safe_input |].
    intros s. destruct (Str.is_empty s).
    + apply fuel_safe_bind; [apply fuel_safe_print |]. intros _. apply fuel_safe_ret.
    + apply fuel_safe_ret.
Qed.

Lemma query_params_total validate : fuel_safe (query_params validate).
Proof.
  apply (@while_input_total unit answers (params_body validate)).
  - apply params_body_eager.
  - intros []. unfold params_body.
    repeat (apply fuel_safe_bind; [apply ask_required_total | intros ?]).
    apply fuel_safe_bind; [apply fuel_safe_input | intros ?]. cbv zeta.
    destruct validate; [| apply fuel_safe_ret].
    repeat (apply fuel_safe_bind; [apply fuel_safe_print | intros ?]).
    apply fuel_safe_bind; [apply fuel_safe_input | intros confirm].
    destruct (declines confirm); [| apply fuel_safe_ret].
    apply fuel_safe_bind; [apply fuel_safe_print |]. intros _. apply fuel_safe_ret.
Qed.

(* ===================================================================== *)
(** ** [query_dependencies] *)
(* ===================================================================== *)

Lemma ask_version_steady dep : steady (ask_version dep).
Proof.
  intros w r w' H. rewrite ask_version_required in H.
  exact (@ask_required_steady _ _ _ _ _ H).
Qed.

Lemma add_dependency_steady deps : steady (add_dependency deps).
Proof.
  unfold add_dependency.
  pose proof ask_required_steady. pose proof ask_version_steady. steady_tac.
Qed.

Lemma deps_body_eager scope deps : eager (deps_body scope deps).
Proof.
  unfold deps_body. apply eager_bind_l; [apply eager_input |].
  pose proof add_dependency_steady. steady_tac.
Qed.

Lemma deps_loop_unfold scope deps w :
  while_input (deps_body scope) deps w =
  match deps_body scope deps w with
  | (Ok (inl deps'), w') => while_input (deps_body scope) deps' w'
  | (Ok (inr a), w') => (Ok a, w')
  | (Raise e, w') => (Raise e, w')
  end.
Proof. apply while_input_unfold. intros s. apply deps_body_eager. Qed.

Lemma query_dependencies_loop scope w :
  query_dependencies scope w =
  match while_input (deps_body scope) [] w with
  | (Ok deps, w') => (Ok deps, with_stdout (stdout w' ++ [moving_on]) w')
  | (Raise e, w') => (Raise e, w')
  end.
Proof.
  unfold query_dependencies, bind.
  change (while_input _ [] w) with (while_input (deps_body scope) [] w).
  destruct (while_input (deps_body scope) [] w) as [[deps | e] w']; reflexivity.
Qed.

Lemma ask_version_run dep n s rest o d y r f :
  Str.is_empty s = false ->
  ask_version dep (mkWorld (blanks n ++ Line s :: rest) o d y r f) =
  (Ok s, mkWorld rest
           (o ++ reprompts (version_prompt dep) version_complaint n ++
            [Prompted (version_prompt dep)]) d y r f).
Proof. intros Hs. rewrite ask_version_required. apply ask_required_run. exact Hs. Qed.

Lemma ask_version_interrupt dep n rest o d y r f :
  ask_version dep (mkWorld (blanks n ++ CtrlC :: rest) o d y r f) =
  (Raise KeyboardInterrupt,
   mkWorld rest
     (o ++ reprompts (version_prompt dep) version_complaint n ++
      [Prompted (version_prompt dep)]) d y r f).
Proof. rewrite ask_version_required. apply ask_required_interrupt. Qed.

Lemma entered_inv e :
  entered e = true ->
  declines (e_add e) = false /\
  Str.is_empty (e_dep e) = false /\ Str.is_empty (e_version e) = false.
Proof.
  unfold entered. intros H.
  repeat (apply andb_prop in H; destruct H as [H ?]).
  repeat split; apply negb_true_iff; assumption.
Qed.

(** A round that reaches "Add another dependency?": the entry enters the
    mapping when the answer is [y] or [Y], and on any other answer the
    loop ends with the mapping as it was before the round. *)
Lemma deps_round scope deps e tail o d y r f :
  entered e = true ->
  deps_body scope deps (mkWorld (entry_keys e tail) o d y r f) =
  (if declines (e_another e)
   then Ok (inr deps)
   else Ok (inl (Dict.set deps (e_dep e) (e_version e))),
   mkWorld tail (o ++ entry_shown scope e) d y r f).
Proof.
  intros He. destruct (entered_inv e He) as (H1 & H2 & H3).
  unfold deps_body, entry_keys. step. rewrite H1.
  unfold try_except, add_dependency. do 2 step.
  erewrite bind_ok by (apply ask_required_run; exact H2).
  erewrite bind_ok by (apply ask_version_run; exact H3).
  do 2 step.
  unfold entry_shown, try_banner, scope_prompt, dep_prompt, dep_complaint,
    another_prompt.
  destruct (declines (e_another e)); rewrite ret_run; do 2 f_equal; tidy_out;
    reflexivity.
Qed.

Lemma kept_inv e : kept e = true -> entered e = true /\ declines (e_another e) = false.
Proof.
  unfold kept. intros H. apply andb_prop in H. destruct H as [H1 H2].
  split; [exact H1 | apply negb_true_iff; exact H2].
Qed.

(** Rounds that all end with [y] to "Add another dependency?" put their
    entries into the mapping, one after the other. *)
Lemma deps_rounds scope es :
  forallb kept es = true ->
  forall deps tail o d y r f,
    while_input (deps_body scope) deps (mkWorld (entries_keys es tail) o d y r f) =
    while_input (deps_body scope) (commits es deps)
      (mkWorld tail (o ++ entries_shown scope es) d y r f).
Proof.
  induction es as [| e es IH]; intros Hes deps tail o d y r f; simpl.
  - rewrite app_nil_r. reflexivity.
  - simpl in Hes. apply andb_prop in Hes. destruct Hes as [He Hes].
    destruct (kept_inv e He) as [He1 He2].
    rewrite deps_loop_unfold, deps_round by exact He1. rewrite He2.
    rewrite (IH Hes). rewrite <- app_assoc. reflexivity.
Qed.

(** Ctrl+C inside the [try] block: the round ends the loop with the empty
    mapping, whatever the mapping was. *)
Lemma deps_round_interrupted scope deps add i tail o d y r f :
  declines add = false ->
  interruption_ok i = true ->
  exists shown,
    deps_body scope deps (mkWorld (Line add :: interruption_keys i tail) o d y r f) =
    (Ok (inr []), mkWorld tail (o ++ shown) d y r f).
Proof.
  intros Hadd Hi.
  unfold deps_body. step. rewrite Hadd.
  unfold try_except, add_dependency. do 2 step.
  destruct i as [n | n dep m | n dep m version]; simpl in Hi;
    unfold interruption_keys.
  - erewrite bind_raise by apply ask_required_interrupt.
    cbn [is_KeyboardInterrupt]. rewrite ret_run.
    eexists. do 2 f_equal. tidy_out. reflexivity.
  - apply negb_true_iff in Hi.
    erewrite bind_ok by (apply ask_required_run; exact Hi).
    erewrite bind_raise by apply ask_version_interrupt.
    cbn [is_KeyboardInterrupt]. rewrite ret_run.
    eexists. do 2 f_equal. tidy_out. reflexivity.
  - apply andb_prop in Hi. destruct Hi as [Hd Hv].
    apply negb_true_iff in Hd. apply negb_true_iff in Hv.
    erewrite bind_ok by (apply ask_required_run; exact Hd).
    erewrite bind_ok by (apply ask_version_run; exact Hv).
    do 2 step.
    cbn [is_KeyboardInterrupt]. rewrite ret_run.
    eexists. do 2 f_equal. tidy_out. reflexivity.
Qed.

(** The loops of [query_dependencies] end as well. *)
Lemma query_dependencies_total scope : fuel_safe (query_dependencies scope).
Proof.
  unfold query_dependencies. apply fuel_safe_bind.
  - apply (@while_input_total (Dict.t string) (Dict.t string) (deps_body scope)).
    + apply deps_body_eager.
    + intros deps. unfold deps_body.
      apply fuel_safe_bind; [apply fuel_safe_input | intros a].
      destruct (declines a); [apply fuel_safe_ret |].
      apply fuel_safe_try_except; [| apply fuel_safe_ret].
      unfold add_dependency.
      do 2 (apply fuel_safe_bind; [apply fuel_safe_print | intros ?]).
      apply fuel_safe_bind; [apply ask_required_total | intros dep].
      apply fuel_safe_bind.
      { intros w w' H. rewrite ask_version_required in H.
        exact (@ask_required_total _ _ _ _ H). }
      intros version.
      apply fuel_safe_bind; [apply fuel_safe_print | intros ?].
      apply fuel_safe_bind; [apply fuel_safe_input | intros b].
      destruct (declines b); apply fuel_safe_ret.
  - intros deps. apply fuel_safe_bind; [apply fuel_safe_print |].
    intros _. apply fuel_safe_ret.
Qed.

(** C1.  A round of [query_dependencies] in which a name and a version
    have been collected and "Add another dependency?" is answered with
    anything but [y] or [Y] ends the loop at the [break] of line 74,
    before the assignment of line 75: the terminal has shown "Added!",
    and the mapping returned holds the entries of the earlier rounds
    only, without the entry just collected.  At the keys [y], [requests],
    [>=2.0], [no] the mapping returned is empty. *)
Theorem query_dependencies_last_entry_dropped
  (scope : string) (es : list entry) (e : entry) (rest : list key_event) (w : world) :
  forallb kept es = true ->
  entered e = true ->
  declines (e_another e) = true ->
  stdin w = entries_keys es (entry_keys e rest) ->
  query_dependencies scope w =
  (Ok (commits es []),
   typed rest (entries_shown scope es ++ entry_shown scope e ++ [moving_on])%list w)
  /\ In (Printed "Added!") (entry_shown scope e).
Proof.
  intros Hes He Hno Hw. destruct w as [k o d y r f]. simpl in Hw. subst k. split.
  - rewrite query_dependencies_loop, (deps_rounds scope es Hes).
    rewrite deps_loop_unfold, deps_round by exact He. rewrite Hno.
    world_norm. do 2 f_equal. tidy_out. reflexivity.
  - unfold entry_shown. simpl. right. right. right.
    apply in_or_app. right. right. apply in_or_app. right. simpl. auto.
Qed.

(** Ctrl+C at any of the three prompts inside the [try]
    block of [query_dependencies] (the name, the version, "Add another
    dependency?"), after any number of rounds that have put entries into
    the mapping, ends the call, and the call returns the empty mapping. *)
Lemma query_dependencies_interrupted
  (scope : string) (es : list entry) (add : string) (i : interruption)
  (rest : list key_event) (w : world) :
  forallb kept es = true ->
  declines add = false ->
  interruption_ok i = true ->
  stdin w = entries_keys es (Line add :: interruption_keys i rest) ->
  fst (query_dependencies scope w) = Ok [] /\
  stdin (snd (query_dependencies scope w)) = rest.
Proof.
  intros Hes Hadd Hi Hw. destruct w as [k o d y r f]. simpl in Hw. subst k.
  rewrite query_dependencies_loop, (deps_rounds scope es Hes), deps_loop_unfold.
  destruct (deps_round_interrupted scope (commits es []) add i rest
              (o ++ entries_shown scope es)%list d y r f Hadd Hi) as [shown ->].
  split; reflexivity.
Qed.

(** *** Versions are never empty *)

Lemma while_fuel_invariant {S A} (body : S -> M (S + A)) (I : S -> Prop) (Q : A -> Prop) :
  (forall s w c w', I s -> body s w = (Ok c, w') ->
     match c with inl s' => I s' | inr a => Q a end) ->
  forall fuel s w a w', I s -> while_fuel fuel body s w = (Ok a, w') -> Q a.
Proof.
  intros Hb fuel. induction fuel as [| fuel IH]; intros s w a w' Hs H; simpl in H.
  - discriminate H.
  - apply bind_inv_ok in H. destruct H as ([s' | a'] & w1 & E1 & E2).
    + apply (IH s' w1 a w'); [exact (Hb _ _ _ _ Hs E1) | exact E2].
    + inversion E2. subst. exact (Hb _ _ _ _ Hs E1).
Qed.

Lemma versions_nonempty_set deps dep version :
  versions_nonempty deps -> Str.is_empty version = false ->
  versions_nonempty (Dict.set deps dep version).
Proof.
  unfold versions_nonempty. intros Hd Hv.
  induction deps as [| [k v] deps IH]; simpl.
  - constructor; [exact Hv | constructor].
  - inversion Hd as [| ? ? Hk Hrest]. subst.
    destruct (String.eqb dep k).
    + constructor; [exact Hv | exact Hrest].
    + constructor; [exact Hk | exact (IH Hrest)].
Qed.

Lemma ask_version_nonempty dep w v w' :
  ask_version dep w = (Ok v, w') -> Str.is_empty v = false.
Proof.
  rewrite ask_version_required. apply ask_required_nonempty.
Qed.

Ltac bind_inv H :=
  let a := fresh "a" in
  let w := fresh "w" in
  let E := fresh "E" in
  apply bind_inv_ok in H; destruct H as (a & w & E & H).

Lemma add_dependency_invariant deps w c w' :
  versions_nonempty deps ->
  add_dependency deps w = (Ok c, w') ->
  match c with
  | inl deps' => versions_nonempty deps'
  | inr deps' => versions_nonempty deps'
  end.
Proof.
  intros Hd H. unfold add_dependency in H.
  bind_inv H. bind_inv H. bind_inv H. bind_inv H. bind_inv H. bind_inv H.
  destruct (declines a4); inversion H; subst.
  - exact Hd.
  - apply versions_nonempty_set; [exact Hd |].
    eapply ask_version_nonempty. eassumption.
Qed.

Lemma deps_body_invariant scope deps w c w' :
  versions_nonempty deps ->
  deps_body scope deps w = (Ok c, w') ->
  match c with
  | inl deps' => versions_nonempty deps'
  | inr deps' => versions_nonempty deps'
  end.
Proof.
  intros Hd H. unfold deps_body in H. bind_inv H.
  destruct (declines a).
  - inversion H. subst. exact Hd.
  - unfold try_except in H.
    destruct (add_dependency deps w0) as [[c0 | e] w1] eqn:E0.
    + inversion H. subst. eapply add_dependency_invariant; eassumption.
    + destruct (is_KeyboardInterrupt e); inversion H. subst. constructor.
Qed.

(** C6.  An empty line at the version prompt is complained about and the
    prompt comes again; the prompt never returns the empty string, so the
    empty default it announces cannot be chosen; and no version in the
    mapping that [query_dependencies] returns is empty. *)
Theorem query_dependencies_versions_nonempty :
  (forall dep rest w,
     stdin w = Line EmptyString :: rest ->
     ask_version dep w =
     ask_version dep
       (typed rest [Prompted (version_prompt dep); Printed version_complaint] w))
  /\ (forall dep w version w',
        ask_version dep w = (Ok version, w') -> version <> EmptyString)
  /\ (forall scope w deps w',
        query_dependencies scope w = (Ok deps, w') ->
        forall dep version, In (dep, version) deps -> version <> EmptyString).
Proof.
  split; [| split].
  - intros dep rest w Hw. destruct w as [k o d y r f]. simpl in Hw. subst k.
    rewrite !ask_version_required. rewrite ask_required_unfold.
    unfold ask_body. step. cbn [Str.is_empty]. step. rewrite ret_run.
    world_norm. tidy_out. reflexivity.
  - intros dep w version w' H Hv. subst.
    apply ask_version_nonempty in H. discriminate H.
  - intros scope w deps w' H dep version Hin Hv. subst.
    rewrite query_dependencies_loop in H.
    destruct (while_input (deps_body scope) [] w) as [[deps0 | e] w1] eqn:E;
      [| discriminate H].
    inversion H. subst.
    assert (Hq : versions_nonempty deps).
    { unfold while_input in E.
      refine (@while_fuel_invariant _ _ (deps_body scope) versions_nonempty
                versions_nonempty _ _ _ _ _ _ _ E).
      - intros s w0 c w0' Hs Hb. eapply deps_body_invariant; eassumption.
      - constructor. }
    unfold versions_nonempty in Hq. rewrite Forall_forall in Hq.
    specialize (Hq _ Hin). discriminate Hq.
Qed.

(* ===================================================================== *)
(** ** [str.replace] *)
(* ===================================================================== *)

Unset Implicit Arguments.

(** The characters of an occurrence that is being passed over. *)
Lemma replace_scan_skip old new u t :
  Str.replace_scan (String.length u) old new (u ++ t) = Str.replace_scan 0 old new t.
Proof.
  induction u as [| x u IH]; simpl; [| exact IH].
  destruct t; reflexivity.
Qed.

Lemma prefix_append old t : prefix old (old ++ t) = true.
Proof.
  induction old as [| x old IH]; simpl; [destruct t; reflexivity |].
  destruct (ascii_dec x x) as [_ | N]; [exact IH | congruence].
Qed.

Lemma replace_scan_0 old new c s :
  Str.replace_scan 0 old new (String c s) =
  if prefix old (String c s)
  then new ++ Str.replace_scan (String.length old - 1) old new s
  else String c (Str.replace_scan 0 old new s).
Proof. reflexivity. Qed.

(** An occurrence at the scan position is replaced. *)
Lemma replace_scan_here c old' new t :
  Str.replace_scan 0 (String c old') new (String c old' ++ t) =
  new ++ Str.replace_scan 0 (String c old') new t.
Proof.
  change (String c old' ++ t) with (String c (old' ++ t)).
  rewrite replace_scan_0.
  assert (Hp : prefix (String c old') (String c (old' ++ t)) = true)
    by apply (prefix_append (String c old') t).
  rewrite Hp.
  replace (String.length (String c old') - 1) with (String.length old')
    by (simpl; lia).
  rewrite replace_scan_skip. reflexivity.
Qed.

(** Text without the first character of [old] is copied. *)
Lemma replace_scan_text c old' new s t :
  Str.has_char c s = false ->
  Str.replace_scan 0 (String c old') new (s ++ t) =
  s ++ Str.replace_scan 0 (String c old') new t.
Proof.
  induction s as [| x s IH]; intros Hs; [reflexivity |].
  simpl in Hs. apply orb_false_elim in Hs. destruct Hs as [Hx Hs].
  change (String x s ++ t) with (String x (s ++ t)).
  rewrite replace_scan_0.
  assert (Hp : prefix (String c old') (String x (s ++ t)) = false).
  { simpl. destruct (ascii_dec c x) as [-> | N]; [| reflexivity].
    rewrite Ascii.eqb_refl in Hx. discriminate Hx. }
  rewrite Hp, (IH Hs). reflexivity.
Qed.

(** *** Texts cut at their placeholders *)

Lemma string_length_ind (P : string -> Prop) :
  (forall s, (forall t, String.length t < String.length s -> P t) -> P s) ->
  forall s, P s.
Proof.
  intros H s. remember (String.length s) as n eqn:En. revert s En.
  induction n as [n IH] using lt_wf_ind. intros s En. apply H.
  intros t Ht. apply (IH (String.length t)); [subst n; exact Ht | reflexivity].
Qed.

Lemma prefix_split p : forall s, prefix p s = true -> exists t, s = p ++ t.
Proof.
  induction p as [| x p IH]; intros s H.
  - exists s. reflexivity.
  - destruct s as [| c s]; [discriminate H |]. simpl in H.
    destruct (ascii_dec x c) as [-> | _]; [| discriminate H].
    destruct (IH s H) as [t ->]. exists t. reflexivity.
Qed.

Lemma prefix_empty s : prefix EmptyString s = true.
Proof. destruct s; reflexivity. Qed.

Lemma cut_scan_skip u t : cut_scan (String.length u) (u ++ t) = cut_scan 0 t.
Proof.
  induction u as [| x u IH]; simpl; [| exact IH].
  destruct t; reflexivity.
Qed.

Lemma cut_scan_0 c s :
  cut_scan 0 (String c s) =
  if prefix "<year>" (String c s) then YearTag :: cut_scan 5 s
  else if prefix "<name>" (String c s) then NameTag :: cut_scan 5 s
  else Txt (String c EmptyString) :: cut_scan 0 s.
Proof. reflexivity. Qed.

Lemma cut_year t : cut ("<year>" ++ t) = YearTag :: cut t.
Proof.
  unfold cut. change ("<year>" ++ t) with (String "<" ("year>" ++ t)).
  rewrite cut_scan_0.
  assert (Hp : prefix "<year>" (String "<" ("year>" ++ t)) = true)
    by apply (prefix_append "<year>" t).
  rewrite Hp. apply f_equal. exact (cut_scan_skip "year>" t).
Qed.

Lemma cut_name t : cut ("<name>" ++ t) = NameTag :: cut t.
Proof.
  unfold cut. change ("<name>" ++ t) with (String "<" ("name>" ++ t)).
  rewrite cut_scan_0.
  change (prefix "<year>" (String "<" ("name>" ++ t))) with false. cbv iota.
  assert (Hp : prefix "<name>" (String "<" ("name>" ++ t)) = true)
    by apply (prefix_append "<name>" t).
  rewrite Hp. apply f_equal. exact (cut_scan_skip "name>" t).
Qed.

Lemma cut_char c s :
  prefix "<year>" (String c s) = false ->
  prefix "<name>" (String c s) = false ->
  cut (String c s) = Txt (String c EmptyString) :: cut s.
Proof. intros Hy Hn. unfold cut. rewrite cut_scan_0, Hy, Hn. reflexivity. Qed.

(** A text is empty, or starts with one of the two tokens, or with a
    character at which no token starts. *)
Lemma cut_cases s :
  s = EmptyString \/
  (exists t, s = "<year>" ++ t) \/
  (exists t, s = "<name>" ++ t) \/
  (exists c s', s = String c s' /\
                prefix "<year>" s = false /\ prefix "<name>" s = false).
Proof.
  destruct s as [| c s']; [left; reflexivity | right].
  destruct (prefix "<year>" (String c s')) eqn:Hy.
  - left. exact (prefix_split _ _ Hy).
  - right. destruct (prefix "<name>" (String c s')) eqn:Hn.
    + left. exact (prefix_split _ _ Hn).
    + right. exists c, s'. repeat split; assumption.
Qed.

(** The cut loses nothing: the pieces, put together, are the text. *)
Lemma template_cut s : template (cut s) = s.
Proof.
  induction s as [s IH] using string_length_ind.
  destruct (cut_cases s) as [-> | [[t ->] | [[t ->] | (c & s' & -> & Hy & Hn)]]].
  - reflexivity.
  - rewrite cut_year. cbn [template]. rewrite IH by (simpl; lia). reflexivity.
  - rewrite cut_name. cbn [template]. rewrite IH by (simpl; lia). reflexivity.
  - rewrite (cut_char c s' Hy Hn). cbn [template]. rewrite IH by (simpl; lia).
    reflexivity.
Qed.

Lemma all_digits_no_lt s : all_digits s = true -> Str.has_char "<"%char s = false.
Proof.
  induction s as [| c s IH]; [reflexivity |]. cbn [all_digits Str.has_char].
  intros H. apply andb_prop in H. destruct H as [Hc Hs]. rewrite (IH Hs).
  destruct (Ascii.eqb_spec "<"%char c) as [<- | _]; [discriminate Hc | reflexivity].
Qed.

Lemma decimal_inv yr :
  decimal yr = true ->
  Str.has_char "<"%char yr = false /\
  exists d yr', yr = String d yr' /\ is_digit d = true.
Proof.
  unfold decimal. intros H. apply andb_prop in H. destruct H as [Hne Hd].
  split; [exact (all_digits_no_lt yr Hd) |].
  destruct yr as [| d yr']; [discriminate Hne |].
  cbn [all_digits] in Hd. apply andb_prop in Hd. destruct Hd as [Hd _].
  exists d, yr'. split; [reflexivity | exact Hd].
Qed.

Lemma all_digits_of_uint d : all_digits (NilEmpty.string_of_uint d) = true.
Proof. induction d; simpl; try reflexivity; exact IHd. Qed.

(** [str] of a year is a decimal numeral. *)
Lemma of_N_decimal n : decimal (Str.of_N n) = true.
Proof.
  unfold decimal, Str.of_N. rewrite all_digits_of_uint, andb_true_r.
  destruct n as [| p]; [reflexivity |]. cbn [N.to_uint].
  pose proof (DecimalPos.Unsigned.to_uint_nonnil p) as Hp.
  destruct (Pos.to_uint p); [congruence | reflexivity ..].
Qed.

(** Replacing the year in any text: the year tags are filled, the rest
    stays. *)
Lemma replace_year_cut yr s :
  Str.replace "<year>" yr s = filled yr "<name>" (cut s).
Proof.
  change (Str.replace "<year>" yr s) with (Str.replace_scan 0 "<year>" yr s).
  induction s as [s IH] using string_length_ind.
  destruct (cut_cases s) as [-> | [[t ->] | [[t ->] | (c & s' & -> & Hy & Hn)]]].
  - reflexivity.
  - rewrite cut_year. cbn [filled].
    rewrite (replace_scan_here "<" "year>" yr t), IH by (simpl; lia). reflexivity.
  - rewrite cut_name. cbn [filled].
    change ("<name>" ++ t) with (String "<" ("name>" ++ t)) at 1.
    rewrite replace_scan_0.
    change (prefix "<year>" (String "<" ("name>" ++ t))) with false. cbv iota.
    rewrite (replace_scan_text "<" "year>" yr "name>" t eq_refl), IH by (simpl; lia).
    reflexivity.
  - rewrite (cut_char c s' Hy Hn). cbn [filled].
    rewrite replace_scan_0, Hy, IH by (simpl; lia). reflexivity.
Qed.

(** Filling in a decimal year makes no [name] token: if the text with the
    year filled in starts with letters, the text itself starts with them. *)
Lemma filled_prefix yr p :
  decimal yr = true -> wordy p = true ->
  forall s, prefix p (filled yr "<name>" (cut s)) = true -> prefix p s = true.
Proof.
  intros Hyr. destruct (decimal_inv yr Hyr) as (_ & d & yr' & -> & Hd).
  induction p as [| x p IH]; intros Hp s H; [apply prefix_empty |].
  cbn [wordy] in Hp. apply andb_prop in Hp. destruct Hp as [Hx Hp].
  apply andb_prop in Hx. destruct Hx as [Hlt Hdig].
  apply negb_true_iff in Hlt. apply negb_true_iff in Hdig.
  destruct (cut_cases s) as [-> | [[t ->] | [[t ->] | (c & s' & -> & Hy & Hn)]]].
  - discriminate H.
  - rewrite cut_year in H. cbn [filled] in H.
    change (String d yr' ++ filled (String d yr') "<name>" (cut t))
      with (String d (yr' ++ filled (String d yr') "<name>" (cut t))) in H.
    cbn [prefix] in H. destruct (ascii_dec x d) as [-> | _]; [| discriminate H].
    rewrite Hd in Hdig. discriminate Hdig.
  - rewrite cut_name in H. cbn [filled] in H.
    change ("<name>" ++ filled (String d yr') "<name>" (cut t))
      with (String "<" ("name>" ++ filled (String d yr') "<name>" (cut t))) in H.
    cbn [prefix] in H. destruct (ascii_dec x "<") as [-> | _]; [| discriminate H].
    discriminate Hlt.
  - rewrite (cut_char c s' Hy Hn) in H. cbn [filled] in H.
    change (String c EmptyString ++ filled (String d yr') "<name>" (cut s'))
      with (String c (filled (String d yr') "<name>" (cut s'))) in H.
    cbn [prefix] in H |- *. destruct (ascii_dec x c) as [_ | _]; [| discriminate H].
    exact (IH Hp s' H).
Qed.

(** Replacing the name in any text whose year is filled in: the name
    tags are filled, the rest stays. *)
Lemma replace_name_cut yr name s :
  decimal yr = true ->
  Str.replace "<name>" name (filled yr "<name>" (cut s)) = filled yr name (cut s).
Proof.
  intros Hyr. destruct (decimal_inv yr Hyr) as (Hlt & _).
  change (Str.replace "<name>" name (filled yr "<name>" (cut s)))
    with (Str.replace_scan 0 "<name>" name (filled yr "<name>" (cut s))).
  induction s as [s IH] using string_length_ind.
  destruct (cut_cases s) as [-> | [[t ->] | [[t ->] | (c & s' & -> & Hy & Hn)]]].
  - reflexivity.
  - rewrite cut_year. cbn [filled].
    rewrite (replace_scan_text "<" "name>" name yr _ Hlt), IH by (simpl; lia).
    reflexivity.
  - rewrite cut_name. cbn [filled].
    rewrite (replace_scan_here "<" "name>" name _), IH by (simpl; lia).
    reflexivity.
  - rewrite (cut_char c s' Hy Hn). cbn [filled].
    change (String c EmptyString ++ filled yr "<name>" (cut s'))
      with (String c (filled yr "<name>" (cut s'))).
    change (String c EmptyString ++ filled yr name (cut s'))
      with (String c (filled yr name (cut s'))).
    rewrite replace_scan_0.
    assert (Hp : prefix "<name>" (String c (filled yr "<name>" (cut s'))) = false).
    { destruct (prefix "<name>" (String c (filled yr "<name>" (cut s')))) eqn:E;
        [| reflexivity].
      cbn [prefix] in E, Hn.
      destruct (ascii_dec "<" c) as [<- | _]; [| discriminate E].
      rewrite (filled_prefix yr "name>" Hyr eq_refl s' E) in Hn. discriminate Hn. }
    rewrite Hp, IH by (simpl; lia). reflexivity.
Qed.

(** The digits of a year have no [<]. *)
Lemma of_N_no_lt n : Str.has_char "<"%char (Str.of_N n) = false.
Proof. exact (proj1 (decimal_inv _ (of_N_decimal n))). Qed.

(* ===================================================================== *)
(** ** Files *)
(* ===================================================================== *)

Lemma get_set_same {V} (d : Dict.t V) k v : Dict.get (Dict.set d k v) k = Some v.
Proof.
  induction d as [| [k' v'] d IH]; simpl.
  - rewrite String.eqb_refl. reflexivity.
  - destruct (String.eqb k k') eqn:E; simpl; rewrite E; [reflexivity | exact IH].
Qed.

Lemma get_set_other {V} (d : Dict.t V) k v k' :
  k <> k' -> Dict.get (Dict.set d k v) k' = Dict.get d k'.
Proof.
  intros N. induction d as [| [k0 v0] d IH]; simpl.
  - destruct (String.eqb_spec k' k) as [-> | _]; [congruence | reflexivity].
  - destruct (String.eqb_spec k k0) as [-> | N0]; simpl.
    + destruct (String.eqb_spec k' k0) as [-> | _]; [congruence | reflexivity].
    + destruct (String.eqb_spec k' k0); [reflexivity | exact IH].
Qed.

Lemma get_in_keys {V} (d : Dict.t V) k v : Dict.get d k = Some v -> In k (Dict.keys d).
Proof.
  induction d as [| [k' v'] d IH]; simpl; [discriminate |].
  destruct (String.eqb_spec k k') as [-> | N]; intros H.
  - left. reflexivity.
  - right. exact (IH H).
Qed.

(** *** Reading in text mode *)

Lemma universal_newlines_plain s :
  Str.has_char carriage_return s = false -> universal_newlines s = s.
Proof.
  unfold universal_newlines. induction s as [| c s IH]; [reflexivity |].
  cbn [Str.has_char newlines_scan]. intros H.
  apply orb_false_elim in H. destruct H as [Hc Hs].
  rewrite Ascii.eqb_sym, Hc, (IH Hs).
  destruct (Ascii.eqb c line_feed); reflexivity.
Qed.

Lemma readable_get d path : readable d = true -> Dict.get d path <> Some Binary.
Proof.
  induction d as [| [k n] d IH]; cbn [readable forallb Dict.get snd]; [discriminate |].
  intros H. apply andb_prop in H. destruct H as [Hn Hd].
  destruct (String.eqb path k).
  - destruct n; [discriminate | discriminate Hn | discriminate | discriminate].
  - exact (IH Hd).
Qed.

Lemma readable_set d path content :
  readable d = true -> readable (Dict.set d path (File content)) = true.
Proof.
  induction d as [| [k n] d IH]; cbn [readable forallb Dict.set snd]; [reflexivity |].
  intros H. apply andb_prop in H. destruct H as [Hn Hd].
  destruct (String.eqb path k); cbn [forallb snd].
  - exact Hd.
  - rewrite Hn. exact (IH Hd).
Qed.

(** *** [update_license] *)

Lemma update_license_run name text w :
  Dict.get (cwd w) "LICENSE" = Some (File text) ->
  update_license name w =
  (Ok tt,
   with_cwd (Dict.set (cwd w) "LICENSE"
               (File (Str.replace "<name>" name
                        (Str.replace "<year>" (Str.of_N (year w))
                           (universal_newlines text))))) w).
Proof.
  intros H. unfold update_license, bind, read_text, now_year, write_text.
  repeat (rewrite H; cbv beta iota zeta). reflexivity.
Qed.

(** C8.  [update_license] reads [LICENSE] in text mode, so with the line
    ends CR LF and CR read as LF, puts the calendar year, as a decimal
    numeral without padding, in the place of every [<year>] and the
    author's name in the place of every [<name>], and writes the result
    back to [LICENSE]: whatever the text, cut at its tokens, the new text
    has the same pieces with the tags filled in and the text between
    them as it was read, which is the text of the file when that has no
    CR; no other entry of the working directory changes. *)
Theorem update_license_fills_placeholders (name text : string) (w : world) :
  Dict.get (cwd w) "LICENSE" = Some (File text) ->
  update_license name w =
    (Ok tt,
     with_cwd (Dict.set (cwd w) "LICENSE"
                 (File (Str.replace "<name>" name
                          (Str.replace "<year>" (Str.of_N (year w))
                             (universal_newlines text))))) w)
  /\ template (cut (universal_newlines text)) = universal_newlines text
  /\ Dict.get (cwd (snd (update_license name w))) "LICENSE" =
       Some (File (filled (Str.of_N (year w)) name (cut (universal_newlines text))))
  /\ (Str.has_char carriage_return text = false -> universal_newlines text = text)
  /\ (forall path, path <> "LICENSE" ->
        Dict.get (cwd (snd (update_license name w))) path = Dict.get (cwd w) path)
  /\ decimal (Str.of_N (year w)) = true
  /\ NilEmpty.uint_of_string (Str.of_N (year w)) = Some (N.to_uint (year w)).
Proof.
  intros H. rewrite (update_license_run name text w H). cbn [snd cwd with_cwd].
  split; [reflexivity |]. split; [apply template_cut |].
  split; [| split; [| split; [| split]]].
  - rewrite get_set_same, replace_year_cut.
    rewrite (replace_name_cut _ _ _ (of_N_decimal _)). reflexivity.
  - apply universal_newlines_plain.
  - intros path N. apply get_set_other. congruence.
  - apply of_N_decimal.
  - apply NilEmpty.usu.
Qed.

(** *** [rename_project] *)

Lemma rename_project_step depth project_name w :
  rename_project (S depth) project_name w =
  for_each (Dict.keys (cwd w)) (visit depth project_name) w.
Proof. reflexivity. Qed.

Lemma visit_dir depth project_name path es w :
  Dict.get (cwd w) path = Some (Dir es) ->
  visit depth project_name path w = rename_project depth path w.
Proof.
  intros H. unfold visit, bind, os_path_isdir.
  repeat (rewrite H; cbv beta iota zeta). reflexivity.
Qed.

Lemma visit_file depth project_name path content w :
  Dict.get (cwd w) path = Some (File content) ->
  visit depth project_name path w =
  (Ok tt,
   with_cwd (Dict.set (cwd w) path
               (File (Str.replace "project_name" project_name
                        (universal_newlines content)))) w).
Proof.
  intros H. unfold visit, bind, os_path_isdir, os_path_isfile, read_text, write_text.
  repeat (rewrite H; cbv beta iota zeta). reflexivity.
Qed.

Lemma visit_binary depth project_name path w :
  Dict.get (cwd w) path = Some Binary ->
  visit depth project_name path w = (Raise UnicodeDecodeError, w).
Proof.
  intros H. unfold visit, bind, os_path_isdir, os_path_isfile, read_text.
  repeat (rewrite H; cbv beta iota zeta). reflexivity.
Qed.

Lemma visit_other depth project_name path w :
  Dict.get (cwd w) path = Some Special \/ Dict.get (cwd w) path = None ->
  visit depth project_name path w = (Ok tt, w).
Proof.
  intros [H | H]; unfold visit, bind, os_path_isdir, os_path_isfile;
    repeat (rewrite H; cbv beta iota zeta); reflexivity.
Qed.

Lemma fst_bind_raise {A B} (m : M A) (f : A -> M B) w e :
  fst (m w) = Raise e -> fst (bind m f w) = Raise e.
Proof.
  unfold bind. destruct (m w) as [[a | e'] w']; simpl; intros H;
    [discriminate H | inversion H; reflexivity].
Qed.

(** With a directory among the names of the listing, the walk does not
    return, whatever the number of frames: the call made on a directory
    lists the working directory again and meets the same directory, so
    the walk runs out of frames, unless it is stopped before by a file
    that does not decode. *)
Lemma rename_project_stuck depth :
  forall project_name w name es,
    Dict.get (cwd w) name = Some (Dir es) ->
    fst (rename_project depth project_name w) = Raise RecursionError \/
    (fst (rename_project depth project_name w) = Raise UnicodeDecodeError /\
     readable (cwd w) = false).
Proof.
  induction depth as [| depth IH]; intros project_name w name es Hdir.
  - left. reflexivity.
  - rewrite rename_project_step.
    pose proof (get_in_keys _ _ _ Hdir) as Hin.
    assert (Hl : forall l w0,
               In name l -> Dict.get (cwd w0) name = Some (Dir es) ->
               fst (for_each l (visit depth project_name) w0) = Raise RecursionError \/
               (fst (for_each l (visit depth project_name) w0) =
                  Raise UnicodeDecodeError /\
                readable (cwd w0) = false)).
    { clear w Hdir Hin. induction l as [| x l IHl]; intros w Hin Hdir;
        [destruct Hin |].
      cbn [for_each].
      destruct (Dict.get (cwd w) x) as [[content | | es' |] |] eqn:Ex.
      - assert (Hx : x <> name) by (intros ->; congruence).
        unfold bind. rewrite (visit_file _ _ _ _ _ Ex).
        destruct (IHl (with_cwd (Dict.set (cwd w) x
                                   (File (Str.replace "project_name" project_name
                                            (universal_newlines content)))) w))
          as [Hr | [Hr Hu]].
        + destruct Hin as [-> | Hin]; [congruence | exact Hin].
        + cbn [cwd with_cwd]. rewrite get_set_other by exact Hx. exact Hdir.
        + left. exact Hr.
        + right. split; [exact Hr |]. cbn [cwd with_cwd] in Hu.
          destruct (readable (cwd w)) eqn:Er; [| reflexivity].
          rewrite (readable_set _ x _ Er) in Hu. discriminate Hu.
      - right. split.
        + apply fst_bind_raise. rewrite (visit_binary _ _ _ _ Ex). reflexivity.
        + destruct (readable (cwd w)) eqn:Er; [| reflexivity].
          exfalso. exact (readable_get _ x Er Ex).
      - assert (Hs : fst (visit depth project_name x w) =
                     fst (rename_project depth x w))
          by (rewrite (visit_dir _ _ _ _ _ Ex); reflexivity).
        destruct (IH x w x es' Ex) as [Hr | [Hr Hu]].
        + left. apply fst_bind_raise. rewrite Hs. exact Hr.
        + right. split; [| exact Hu]. apply fst_bind_raise. rewrite Hs. exact Hr.
      - assert (Hx : x <> name) by (intros ->; congruence).
        unfold bind. rewrite visit_other by (left; exact Ex).
        apply IHl; [| exact Hdir].
        destruct Hin as [-> | Hin]; [congruence | exact Hin].
      - assert (Hx : x <> name) by (intros ->; congruence).
        unfold bind. rewrite visit_other by (right; exact Ex).
        apply IHl; [| exact Hdir].
        destruct Hin as [-> | Hin]; [congruence | exact Hin]. }
    apply Hl; assumption.
Qed.

(** When every regular file decodes, the walk runs out of frames. *)
Lemma rename_project_overflow depth project_name w name es :
  Dict.get (cwd w) name = Some (Dir es) ->
  readable (cwd w) = true ->
  fst (rename_project depth project_name w) = Raise RecursionError.
Proof.
  intros Hdir Hr.
  destruct (rename_project_stuck depth project_name w name es Hdir) as [H | [_ H]];
    [exact H | congruence].
Qed.

Lemma same_shapes_refl d : same_shapes d d.
Proof. intros path. reflexivity. Qed.

Lemma same_shapes_trans d1 d2 d3 :
  same_shapes d1 d2 -> same_shapes d2 d3 -> same_shapes d1 d3.
Proof. intros H1 H2 path. rewrite H2. apply H1. Qed.

Lemma same_shapes_write d path content content' :
  Dict.get d path = Some (File content) ->
  same_shapes d (Dict.set d path (File content')).
Proof.
  intros H p. destruct (String.eqb_spec path p) as [<- | N].
  - rewrite get_set_same, H. reflexivity.
  - rewrite get_set_other by exact N. reflexivity.
Qed.

(** The walk writes regular files of the working directory and nothing
    else: every name stays what it was, and the entries of the
    subdirectories stay as they were. *)
Lemma rename_project_shapes depth :
  forall project_name w,
    same_shapes (cwd w) (cwd (snd (rename_project depth project_name w))).
Proof.
  induction depth as [| depth IH]; intros project_name w.
  - apply same_shapes_refl.
  - rewrite rename_project_step. generalize (Dict.keys (cwd w)) as l.
    intros l. revert w. induction l as [| x l IHl]; intros w.
    + apply same_shapes_refl.
    + simpl for_each. unfold bind.
      destruct (Dict.get (cwd w) x) as [[content | | es' |] |] eqn:Ex.
      * rewrite (visit_file _ _ _ _ _ Ex).
        eapply same_shapes_trans; [| apply IHl]. simpl.
        eapply same_shapes_write. exact Ex.
      * rewrite (visit_binary _ _ _ _ Ex). apply same_shapes_refl.
      * rewrite (visit_dir _ _ _ _ _ Ex).
        pose proof (IH x w) as Hs.
        destruct (rename_project depth x w) as [[[] | e] w1]; simpl in *.
        -- eapply same_shapes_trans; [exact Hs | apply IHl].
        -- exact Hs.
      * rewrite visit_other by (left; exact Ex). apply IHl.
      * rewrite visit_other by (right; exact Ex). apply IHl.
Qed.

(** In a working directory without subdirectories, whose listing names
    every entry once and whose regular files all decode, the walk returns
    and every regular file has every [project_name] replaced. *)
Lemma rename_project_flat depth project_name w :
  flat (cwd w) ->
  NoDup (Dict.keys (cwd w)) ->
  readable (cwd w) = true ->
  exists w',
    rename_project (S depth) project_name w = (Ok tt, w') /\
    forall path,
      Dict.get (cwd w') path =
      option_map (rewritten project_name) (Dict.get (cwd w) path).
Proof.
  intros Hflat Hnd Hread. rewrite rename_project_step.
  assert (Hl : forall l w0,
             NoDup l -> flat (cwd w0) -> readable (cwd w0) = true ->
             exists w',
               for_each l (visit depth project_name) w0 = (Ok tt, w') /\
               forall path,
                 Dict.get (cwd w') path =
                 if existsb (String.eqb path) l
                 then option_map (rewritten project_name) (Dict.get (cwd w0) path)
                 else Dict.get (cwd w0) path).
  { clear w Hflat Hnd Hread. induction l as [| x l IHl]; intros w Hnd Hflat Hread.
    - exists w. split; [reflexivity |]. intros path. reflexivity.
    - inversion Hnd as [| ? ? Hx Hnd']. subst.
      assert (Hxl : existsb (String.eqb x) l = false).
      { destruct (existsb (String.eqb x) l) eqn:E; [| reflexivity].
        apply existsb_exists in E. destruct E as (z & Hz & Ez).
        apply String.eqb_eq in Ez. subst z. contradiction. }
      cbn [for_each]. unfold bind.
      destruct (Dict.get (cwd w) x) as [[content | | es |] |] eqn:Ex.
      + rewrite (visit_file _ _ _ _ _ Ex).
        destruct (IHl (with_cwd (Dict.set (cwd w) x
                                   (File (Str.replace "project_name" project_name
                                            (universal_newlines content)))) w)
                    Hnd') as (w' & Hrun & Hget).
        { intros path es. cbn [cwd with_cwd].
          destruct (String.eqb_spec x path) as [<- | N].
          - rewrite get_set_same. discriminate.
          - rewrite get_set_other by exact N. apply Hflat. }
        { cbn [cwd with_cwd]. apply readable_set. exact Hread. }
        exists w'. split; [exact Hrun |]. intros path. rewrite Hget.
        cbn [existsb cwd with_cwd].
        destruct (String.eqb_spec path x) as [-> | N].
        * rewrite Hxl, get_set_same, Ex. reflexivity.
        * cbn [orb]. rewrite get_set_other by congruence. reflexivity.
      + exfalso. exact (readable_get _ x Hread Ex).
      + exfalso. exact (Hflat x es Ex).
      + rewrite visit_other by (left; exact Ex).
        destruct (IHl w Hnd' Hflat Hread) as (w' & Hrun & Hget).
        exists w'. split; [exact Hrun |]. intros path. rewrite Hget.
        cbn [existsb].
        destruct (String.eqb_spec path x) as [-> | N]; [| reflexivity].
        rewrite Hxl, Ex. reflexivity.
      + rewrite visit_other by (right; exact Ex).
        destruct (IHl w Hnd' Hflat Hread) as (w' & Hrun & Hget).
        exists w'. split; [exact Hrun |]. intros path. rewrite Hget.
        cbn [existsb].
        destruct (String.eqb_spec path x) as [-> | N]; [| reflexivity].
        rewrite Hxl, Ex. reflexivity. }
  destruct (Hl (Dict.keys (cwd w)) w Hnd Hflat Hread) as (w' & Hrun & Hget).
  exists w'. split; [exact Hrun |]. intros path. rewrite Hget.
  destruct (existsb (String.eqb path) (Dict.keys (cwd w))) eqn:E; [reflexivity |].
  destruct (Dict.get (cwd w) path) as [n |] eqn:Eg; [| reflexivity].
  apply get_in_keys in Eg.
  assert (Ht : existsb (String.eqb path) (Dict.keys (cwd w)) = true).
  { apply existsb_exists. exists path. split; [exact Eg | apply String.eqb_refl]. }
  rewrite Ht in E. discriminate E.
Qed.

(** A directory of the working directory is still there, with the same
    entries, when the walk is over. *)
Lemma rename_project_keeps_dir depth project_name name es w :
  Dict.get (cwd w) name = Some (Dir es) ->
  Dict.get (cwd (snd (rename_project depth project_name w))) name = Some (Dir es).
Proof.
  intros H. pose proof (rename_project_shapes depth project_name w name) as Hs.
  rewrite H in Hs. cbn [shape_of] in Hs.
  destruct (Dict.get (cwd (snd (rename_project depth project_name w))) name)
    as [[c | | es' |] |]; cbn [shape_of] in Hs; try discriminate Hs.
  inversion Hs. reflexivity.
Qed.

(** C2.  As soon as the working directory has a subdirectory,
    [rename_project] does not reach its files: the call it makes on the
    subdirectory lists the working directory again, so the walk does not
    return, whatever the recursion limit is.  It ends in [RecursionError],
    always so when the regular files of the working directory decode; a
    file that does not decode can only stop it earlier, in
    [UnicodeDecodeError].  The entries of the subdirectory are after the
    call what they were before it. *)
Theorem rename_project_never_descends
  (depth : nat) (project_name name : string) (es : list (string * node)) (w : world) :
  Dict.get (cwd w) name = Some (Dir es) ->
  (fst (rename_project depth project_name w) = Raise RecursionError \/
   fst (rename_project depth project_name w) = Raise UnicodeDecodeError) /\
  (readable (cwd w) = true ->
   fst (rename_project depth project_name w) = Raise RecursionError) /\
  Dict.get (cwd (snd (rename_project depth project_name w))) name = Some (Dir es).
Proof.
  intros H. split; [| split].
  - destruct (rename_project_stuck depth project_name w name es H) as [Hr | [Hr _]];
      [left | right]; exact Hr.
  - exact (rename_project_overflow depth project_name w name es H).
  - destruct (rename_project depth project_name w) as [res w'] eqn:E.
    pose proof (rename_project_keeps_dir depth project_name name es w H) as Hk.
    rewrite E in Hk. exact Hk.
Qed.

(* ===================================================================== *)
(** ** The descriptor *)
(* ===================================================================== *)

Lemma getitem_setitem_same d k v d' :
  setitem d k v = Ok d' -> getitem d' k = Ok v.
Proof.
  destruct d; simpl; intros H; inversion H. subst. simpl.
  rewrite get_set_same. reflexivity.
Qed.

Lemma getitem_setitem_other d k v d' k' :
  setitem d k v = Ok d' -> k <> k' -> getitem d' k' = getitem d k'.
Proof.
  destruct d; simpl; intros H N; inversion H. subst. simpl.
  rewrite get_set_other by exact N. reflexivity.
Qed.

Lemma setitem_at_inv d p path k v d' :
  setitem_at d (p :: path) k v = Ok d' ->
  exists sub sub',
    getitem d p = Ok sub /\ setitem_at sub path k v = Ok sub' /\
    setitem d p sub' = Ok d'.
Proof.
  simpl. destruct (getitem d p) as [sub | e] eqn:E1; [| discriminate].
  destruct (setitem_at sub path k v) as [sub' | e] eqn:E2; [| discriminate].
  intros H. exists sub, sub'. split; [reflexivity | split; [exact E2 | exact H]].
Qed.

(** What has just been assigned is there. *)
Lemma getitem_at_same path :
  forall d k v d',
    setitem_at d path k v = Ok d' -> getitem_at d' (path ++ [k])%list = Ok v.
Proof.
  induction path as [| p path IH]; intros d k v d' H.
  - simpl in *. rewrite (getitem_setitem_same _ _ _ _ H). reflexivity.
  - destruct (setitem_at_inv _ _ _ _ _ _ H) as (sub & sub' & H1 & H2 & H3).
    simpl. rewrite (getitem_setitem_same _ _ _ _ H3). exact (IH _ _ _ _ H2).
Qed.

(** An assignment leaves alone what lies off its path. *)
Lemma getitem_at_diverges path :
  forall d k v d' q,
    setitem_at d path k v = Ok d' ->
    diverges (path ++ [k])%list q = true ->
    getitem_at d' q = getitem_at d q.
Proof.
  induction path as [| p path IH]; intros d k v d' q H Hq.
  - simpl in *. destruct q as [| b q]; [discriminate Hq |].
    destruct (String.eqb_spec k b) as [-> | N]; [discriminate Hq |].
    simpl. rewrite (getitem_setitem_other _ _ _ _ _ H N). reflexivity.
  - destruct (setitem_at_inv _ _ _ _ _ _ H) as (sub & sub' & H1 & H2 & H3).
    simpl in Hq. destruct q as [| b q]; [discriminate Hq |].
    destruct (String.eqb_spec p b) as [<- | N].
    + simpl. rewrite (getitem_setitem_same _ _ _ _ H3), H1.
      exact (IH _ _ _ _ _ H2 Hq).
    + simpl. rewrite (getitem_setitem_other _ _ _ _ _ H3 N). reflexivity.
Qed.

Lemma then_set_inv r path k v d' :
  then_set r path k v = Ok d' ->
  exists d, r = Ok d /\ setitem_at d path k v = Ok d'.
Proof.
  destruct r as [d | e]; simpl; intros H; [| discriminate H].
  exists d. split; [reflexivity | exact H].
Qed.

(** The descriptor once the four answers of the first phase are in. *)
Lemma mutate_metadata_fields data name email project description py data' :
  mutate_metadata data (name, email, project, description, py) = Ok data' ->
  getitem_at data' ["project"; "authors"] =
    Ok (TList [TTable [("name", TStr name); ("email", TStr email)]]) /\
  getitem_at data' ["project"; "name"] = Ok (TStr project) /\
  getitem_at data' ["project"; "description"] = Ok (TStr description) /\
  getitem_at data' ["project"; "python"] = Ok (TStr py) /\
  (forall q, diverges ["project"] q = true ->
             getitem_at data' q = getitem_at data q).
Proof.
  unfold mutate_metadata. intros H.
  apply then_set_inv in H. destruct H as (d3 & H & H4).
  apply then_set_inv in H. destruct H as (d2 & H & H3).
  apply then_set_inv in H. destruct H as (d1 & H1 & H2).
  repeat split.
  - rewrite (getitem_at_diverges _ _ _ _ _ _ H4) by reflexivity.
    rewrite (getitem_at_diverges _ _ _ _ _ _ H3) by reflexivity.
    rewrite (getitem_at_diverges _ _ _ _ _ _ H2) by reflexivity.
    exact (getitem_at_same _ _ _ _ _ H1).
  - rewrite (getitem_at_diverges _ _ _ _ _ _ H4) by reflexivity.
    rewrite (getitem_at_diverges _ _ _ _ _ _ H3) by reflexivity.
    exact (getitem_at_same _ _ _ _ _ H2).
  - rewrite (getitem_at_diverges _ _ _ _ _ _ H4) by reflexivity.
    exact (getitem_at_same _ _ _ _ _ H3).
  - exact (getitem_at_same _ _ _ _ _ H4).
  - intros q Hq.
    assert (Hd : forall k, diverges (["project"] ++ [k])%list q = true).
    { intros k. destruct q as [| b q]; cbn [diverges app] in *;
        [discriminate Hq |].
      destruct (String.eqb "project" b); [discriminate Hq | reflexivity]. }
    rewrite (getitem_at_diverges _ _ _ _ _ _ H4 (Hd _)).
    rewrite (getitem_at_diverges _ _ _ _ _ _ H3 (Hd _)).
    rewrite (getitem_at_diverges _ _ _ _ _ _ H2 (Hd _)).
    exact (getitem_at_diverges _ _ _ _ _ _ H1 (Hd _)).
Qed.

(** The descriptor once the four mappings are in: each list is the
    mapping of its own scope, and nothing outside [project] has moved. *)
Lemma mutate_dependencies_fields data runtime dev doc test data' :
  mutate_dependencies data runtime dev doc test = Ok data' ->
  getitem_at data' ["project"; "dependencies"] = Ok (format_dependencies runtime) /\
  getitem_at data' ["project"; "optional-dependencies"; "dev"] =
    Ok (format_dependencies dev) /\
  getitem_at data' ["project"; "optional-dependencies"; "doc"] =
    Ok (format_dependencies doc) /\
  getitem_at data' ["project"; "optional-dependencies"; "test"] =
    Ok (format_dependencies test) /\
  (forall q, diverges ["project"; "dependencies"] q = true ->
             diverges ["project"; "optional-dependencies"] q = true ->
             getitem_at data' q = getitem_at data q).
Proof.
  unfold mutate_dependencies. intros H.
  apply then_set_inv in H. destruct H as (d3 & H & H4).
  apply then_set_inv in H. destruct H as (d2 & H & H3).
  apply then_set_inv in H. destruct H as (d1 & H1 & H2).
  repeat split.
  - rewrite (getitem_at_diverges _ _ _ _ _ _ H4) by reflexivity.
    rewrite (getitem_at_diverges _ _ _ _ _ _ H3) by reflexivity.
    rewrite (getitem_at_diverges _ _ _ _ _ _ H2) by reflexivity.
    exact (getitem_at_same _ _ _ _ _ H1).
  - rewrite (getitem_at_diverges _ _ _ _ _ _ H4) by reflexivity.
    rewrite (getitem_at_diverges _ _ _ _ _ _ H3) by reflexivity.
    exact (getitem_at_same _ _ _ _ _ H2).
  - rewrite (getitem_at_diverges _ _ _ _ _ _ H4) by reflexivity.
    exact (getitem_at_same _ _ _ _ _ H3).
  - exact (getitem_at_same _ _ _ _ _ H4).
  - intros q Hq1 Hq2.
    assert (Hd : forall k, diverges (["project"; "optional-dependencies"] ++ [k])%list q = true).
    { intros k. destruct q as [| b [| c q]]; cbn [diverges app] in *.
      - discriminate Hq2.
      - destruct (String.eqb "project" b); [discriminate Hq2 | reflexivity].
      - destruct (String.eqb "project" b); [| reflexivity].
        destruct (String.eqb "optional-dependencies" c);
          [discriminate Hq2 | reflexivity]. }
    rewrite (getitem_at_diverges _ _ _ _ _ _ H4 (Hd _)).
    rewrite (getitem_at_diverges _ _ _ _ _ _ H3 (Hd _)).
    rewrite (getitem_at_diverges _ _ _ _ _ _ H2 (Hd _)).
    exact (getitem_at_diverges _ _ _ _ _ _ H1 Hq1).
Qed.

(* ===================================================================== *)
(** ** The driver *)
(* ===================================================================== *)

Lemma bind_lift_ok {A B} (r : result A) (f : A -> M B) a w :
  r = Ok a -> bind (lift r) f w = f a w.
Proof. intros ->. reflexivity. Qed.

Lemma lift_inv_ok {A} (r : result A) a w w' :
  lift r w = (Ok a, w') -> r = Ok a /\ w' = w.
Proof. unfold lift. intros H. inversion H. split; reflexivity. Qed.

Lemma query_dependencies_declined scope a tail o d y r f :
  declines a = true ->
  query_dependencies scope (mkWorld (Line a :: tail) o d y r f) =
  (Ok [], mkWorld tail (o ++ [Prompted (scope_prompt scope); moving_on]) d y r f).
Proof.
  intros Ha. rewrite query_dependencies_loop, deps_loop_unfold.
  unfold deps_body. step. rewrite Ha, ret_run. world_norm.
  do 2 f_equal. tidy_out. reflexivity.
Qed.

Lemma attempt_values_split a :
  attempt_values a =
  (a_name a, a_email a, a_project a, a_description a,
   if Str.is_empty (a_python a) then ">=3.10" else a_python a).
Proof. reflexivity. Qed.

(** The first phase, when the pass is confirmed at once. *)
Lemma ask_metadata_run a confirm tail data data1 o d y r f :
  complete a = true ->
  declines confirm = false ->
  mutate_metadata data (attempt_values a) = Ok data1 ->
  ask_metadata data (mkWorld (attempt_keys a (Line confirm :: tail)) o d y r f) =
  (Ok (data1, a_name a, a_project a),
   mkWorld tail (o ++ greeting ++ attempt_shown a ++ echo (attempt_values a)) d y r f).
Proof.
  intros Ha Hc Hm. unfold ask_metadata. do 2 step.
  assert (Hq : query_params true
                 (mkWorld (attempt_keys a (Line confirm :: tail))
                    ((o ++ [Printed "Hi! Let's get started."]) ++
                     [Printed "Please answer the following questions to help us get you set up."])
                    d y r f) =
               (Ok (attempt_values a),
                mkWorld tail
                  (((o ++ [Printed "Hi! Let's get started."]) ++
                    [Printed "Please answer the following questions to help us get you set up."]) ++
                   attempt_shown a ++ echo (attempt_values a)) d y r f)).
  { rewrite query_params_pass by exact Ha. rewrite Hc. reflexivity. }
  erewrite bind_ok by exact Hq. rewrite attempt_values_split in Hm |- *. cbv iota beta.
  unfold mutate_metadata in Hm.
  apply then_set_inv in Hm. destruct Hm as (d3 & Hm & H4).
  apply then_set_inv in Hm. destruct Hm as (d2 & Hm & H3).
  apply then_set_inv in Hm. destruct Hm as (d1 & H1 & H2).
  erewrite bind_lift_ok by exact H1. erewrite bind_lift_ok by exact H2.
  erewrite bind_lift_ok by exact H3. erewrite bind_lift_ok by exact H4.
  rewrite ret_run.
  do 2 f_equal. unfold greeting. tidy_out. reflexivity.
Qed.

(** What the first phase has done when it returns. *)
Lemma ask_metadata_inv data w data1 name project_name w1 :
  ask_metadata data w = (Ok (data1, name, project_name), w1) ->
  exists email description py,
    mutate_metadata data (name, email, project_name, description, py) = Ok data1.
Proof.
  intros H. unfold ask_metadata in H.
  apply bind_inv_ok in H. destruct H as (u1 & x1 & _ & H).
  apply bind_inv_ok in H. destruct H as (u2 & x2 & _ & H).
  apply bind_inv_ok in H. destruct H as (v & x3 & _ & H).
  destruct v as [[[[name0 email] project0] description] py].
  apply bind_inv_ok in H. destruct H as (t1 & y1 & L1 & H).
  apply lift_inv_ok in L1. destruct L1 as [L1 ->].
  apply bind_inv_ok in H. destruct H as (t2 & y2 & L2 & H).
  apply lift_inv_ok in L2. destruct L2 as [L2 ->].
  apply bind_inv_ok in H. destruct H as (t3 & y3 & L3 & H).
  apply lift_inv_ok in L3. destruct L3 as [L3 ->].
  apply bind_inv_ok in H. destruct H as (t4 & y4 & L4 & H).
  apply lift_inv_ok in L4. destruct L4 as [L4 ->].
  inversion H. subst.
  exists email, description, py. unfold mutate_metadata.
  rewrite L1. cbn [then_set]. rewrite L2. cbn [then_set]. rewrite L3.
  cbn [then_set]. exact L4.
Qed.

(** What the second phase has done when it returns: four calls of
    [query_dependencies], one per scope and each on the keys the one
    before it has left, and the four lists are those of the four
    mappings. *)
Lemma ask_dependencies_inv data w data' w' :
  ask_dependencies data w = (Ok data', w') ->
  exists d1 w1 d2 w2 d3 w3 d4,
    query_dependencies "runtime" w = (Ok d1, w1) /\
    query_dependencies "development" w1 = (Ok d2, w2) /\
    query_dependencies "documentation" w2 = (Ok d3, w3) /\
    query_dependencies "testing" w3 = (Ok d4, w') /\
    mutate_dependencies data d1 d2 d3 d4 = Ok data'.
Proof.
  intros H. unfold ask_dependencies in H.
  apply bind_inv_ok in H. destruct H as (d1 & w1 & Q1 & H).
  apply bind_inv_ok in H. destruct H as (t1 & u1 & L1 & H).
  apply lift_inv_ok in L1. destruct L1 as [L1 ->].
  apply bind_inv_ok in H. destruct H as (d2 & w2 & Q2 & H).
  apply bind_inv_ok in H. destruct H as (t2 & u2 & L2 & H).
  apply lift_inv_ok in L2. destruct L2 as [L2 ->].
  apply bind_inv_ok in H. destruct H as (d3 & w3 & Q3 & H).
  apply bind_inv_ok in H. destruct H as (t3 & u3 & L3 & H).
  apply lift_inv_ok in L3. destruct L3 as [L3 ->].
  apply bind_inv_ok in H. destruct H as (d4 & w4 & Q4 & H).
  apply bind_inv_ok in H. destruct H as (t4 & u4 & L4 & H).
  apply lift_inv_ok in L4. destruct L4 as [L4 ->].
  inversion H. subst.
  exists d1, w1, d2, w2, d3, w3, d4. repeat (split; [assumption |]).
  unfold mutate_dependencies.
  rewrite L1. cbn [then_set]. rewrite L2. cbn [then_set]. rewrite L3.
  cbn [then_set]. exact L4.
Qed.

(** The second phase, when every scope is declined. *)
Lemma ask_dependencies_none data data2 tail o d y r f :
  mutate_dependencies data [] [] [] [] = Ok data2 ->
  ask_dependencies data
    (mkWorld (Line "no" :: Line "no" :: Line "no" :: Line "no" :: tail) o d y r f) =
  (Ok data2,
   mkWorld tail
     (o ++ [ Prompted (scope_prompt "runtime"); moving_on;
             Prompted (scope_prompt "development"); moving_on;
             Prompted (scope_prompt "documentation"); moving_on;
             Prompted (scope_prompt "testing"); moving_on ]) d y r f).
Proof.
  intros Hm. unfold mutate_dependencies in Hm.
  apply then_set_inv in Hm. destruct Hm as (d3 & Hm & H4).
  apply then_set_inv in Hm. destruct Hm as (d2 & Hm & H3).
  apply then_set_inv in Hm. destruct Hm as (d1 & H1 & H2).
  unfold ask_dependencies.
  erewrite bind_ok by (apply query_dependencies_declined; reflexivity).
  erewrite bind_lift_ok by exact H1.
  erewrite bind_ok by (apply query_dependencies_declined; reflexivity).
  erewrite bind_lift_ok by exact H2.
  erewrite bind_ok by (apply query_dependencies_declined; reflexivity).
  erewrite bind_lift_ok by exact H3.
  erewrite bind_ok by (apply query_dependencies_declined; reflexivity).
  erewrite bind_lift_ok by exact H4. rewrite ret_run.
  do 2 f_equal. tidy_out. reflexivity.
Qed.

Lemma write_text_ok path content w w' :
  write_text path content w = (Ok tt, w') ->
  Dict.get (cwd w') path = Some (File content).
Proof.
  unfold write_text.
  destruct (Dict.get (cwd w) path) as [[c | | es |] |]; intros H; inversion H;
    subst; cbn [cwd with_cwd]; apply get_set_same.
Qed.

Lemma os_rename_in_ok dir old new w w' :
  os_rename_in dir old new w = (Ok tt, w') ->
  exists es, Dict.get (cwd w) dir = Some (Dir es).
Proof.
  unfold os_rename_in.
  destruct (Dict.get (cwd w) dir) as [[c | | es |] |]; intros H; try discriminate H.
  exists es. reflexivity.
Qed.

Lemma diverges_first a p q : diverges [a] q = true -> diverges (a :: p) q = true.
Proof.
  destruct q as [| b q]; cbn [diverges]; [discriminate |].
  destruct (String.eqb a b); [discriminate | reflexivity].
Qed.

Section DriverFacts.

Variable toml_loads : string -> option toml.
Variable toml_dumps : toml -> string.

(** The third phase: the license, then the descriptor. *)
Lemma store_descriptor_run data name text old k o d y r f :
  Dict.get d "LICENSE" = Some (File text) ->
  Dict.get d "pyproject.toml" = Some (File old) ->
  store_descriptor toml_dumps data name (mkWorld k o d y r f) =
  (Ok tt,
   mkWorld k (o ++ storing)
     (Dict.set (Dict.set d "LICENSE" (File (licensed name y (universal_newlines text))))
        "pyproject.toml" (File (toml_dumps data))) y r f).
Proof.
  intros Hl Hp. unfold store_descriptor. step.
  erewrite bind_ok by (apply update_license_run; exact Hl).
  world_norm. step. unfold write_text. world_norm.
  rewrite get_set_other by discriminate. rewrite Hp.
  do 2 f_equal. unfold storing. tidy_out. reflexivity.
Qed.

(** What the third phase has written when it returns. *)
Lemma store_descriptor_inv data name w w' :
  store_descriptor toml_dumps data name w = (Ok tt, w') ->
  Dict.get (cwd w') "pyproject.toml" = Some (File (toml_dumps data)).
Proof.
  intros H. unfold store_descriptor in H.
  apply bind_inv_ok in H. destruct H as (u1 & x1 & _ & H).
  apply bind_inv_ok in H. destruct H as (u2 & x2 & _ & H).
  apply bind_inv_ok in H. destruct H as (u3 & x3 & _ & H).
  exact (write_text_ok _ _ _ _ H).
Qed.

(** With a directory in the working directory, the last phase ends at
    the walk, in [RecursionError] when the regular files decode, and
    every directory stays what it was. *)
Lemma rename_tree_overflow data project_name name es w :
  Dict.get (cwd w) name = Some (Dir es) ->
  (fst (rename_tree data project_name w) = Raise RecursionError \/
   fst (rename_tree data project_name w) = Raise UnicodeDecodeError) /\
  (readable (cwd w) = true ->
   fst (rename_tree data project_name w) = Raise RecursionError) /\
  Dict.get (cwd (snd (rename_tree data project_name w))) name = Some (Dir es).
Proof.
  intros H. destruct w as [k o d y r f]. cbn [cwd] in *.
  pose proof (rename_project_stuck r project_name
                (mkWorld k (o ++ [Printed "Renaming project..."]) d y r f)
                name es H) as H1.
  pose proof (rename_project_keeps_dir r project_name name es
                (mkWorld k (o ++ [Printed "Renaming project..."]) d y r f) H)
    as H2.
  cbn [cwd] in H1.
  destruct (rename_project r project_name
              (mkWorld k (o ++ [Printed "Renaming project..."]) d y r f))
    as [[[] | e] w1] eqn:E; cbn [fst snd] in H1, H2;
    [destruct H1 as [H1 | [H1 _]]; discriminate H1 |].
  assert (Ht : rename_tree data project_name (mkWorld k o d y r f) =
               (Raise e, w1)).
  { unfold rename_tree. step. unfold bind at 1. cbn [recursion_limit].
    erewrite bind_raise by exact E. reflexivity. }
  rewrite Ht. cbn [fst snd]. split; [| split; [| exact H2]].
  - destruct H1 as [H1 | [H1 _]]; [left | right]; exact H1.
  - intros Hr. destruct H1 as [H1 | [_ H1]]; [exact H1 | congruence].
Qed.

(** The last phase never returns: the walk fails on a directory, and
    without a directory there is no [src] to rename in. *)
Lemma rename_tree_fails data project_name w w' :
  rename_tree data project_name w <> (Ok tt, w').
Proof.
  intros H. unfold rename_tree in H.
  apply bind_inv_ok in H. destruct H as (u1 & x1 & _ & H).
  apply bind_inv_ok in H. destruct H as (limit & x2 & Hl & H).
  inversion Hl. subst. clear Hl.
  apply bind_inv_ok in H. destruct H as (u3 & x3 & Hwalk & H).
  apply bind_inv_ok in H. destruct H as (u4 & x4 & Hren & _).
  destruct u4. apply os_rename_in_ok in Hren. destruct Hren as [es Hsrc].
  pose proof (rename_project_shapes (recursion_limit x2) project_name x2 "src")
    as Hs.
  rewrite Hwalk in Hs. cbn [snd] in Hs. rewrite Hsrc in Hs. cbn [shape_of] in Hs.
  destruct (Dict.get (cwd x2) "src") as [[c | | es' |] |] eqn:E;
    cbn [shape_of] in Hs; try discriminate Hs.
  pose proof (rename_project_stuck (recursion_limit x2) project_name x2
                "src" es' E) as Ho.
  rewrite Hwalk in Ho. destruct Ho as [Ho | [Ho _]]; discriminate Ho.
Qed.

(** The files after the last phase do not depend on the descriptor it
    is given. *)
Lemma rename_tree_files data data' project_name w :
  cwd (snd (rename_tree data project_name w)) =
  cwd (snd (rename_tree data' project_name w)).
Proof.
  unfold rename_tree, bind, print, lift. cbv beta iota.
  destruct (rename_project _ project_name _) as [[[] | e] w1]; [| reflexivity].
  destruct (os_rename_in "src" "project_name" project_name w1)
    as [[[] | e] w2]; [| reflexivity].
  destruct (setitem_at data _ _ _), (setitem_at data' _ _ _); reflexivity.
Qed.

Lemma main_missing w :
  Dict.get (cwd w) "pyproject.toml" = None ->
  main toml_loads toml_dumps w =
  (Raise (SystemExit 1),
   typed (stdin w) [Printed "No pyproject.toml found, exiting."] w).
Proof.
  intros H. unfold main, bind, try_except, load_descriptor, read_text.
  unfold bind. rewrite H. reflexivity.
Qed.

Lemma main_loaded w text data :
  Dict.get (cwd w) "pyproject.toml" = Some (File text) ->
  toml_loads (universal_newlines text) = Some data ->
  main toml_loads toml_dumps w =
  try_except (main_body toml_dumps data) is_KeyboardInterrupt
    (print (newline ++ "Exiting.") ;; exit 0) w.
Proof.
  intros H Hd. unfold main. unfold bind at 1.
  unfold try_except at 1. unfold load_descriptor, read_text. unfold bind at 1.
  rewrite H, Hd. reflexivity.
Qed.

(** [main] never returns: each of its runs ends in an exception. *)
Lemma main_never_returns w : fst (main toml_loads toml_dumps w) <> Ok tt.
Proof.
  intros H. destruct (main toml_loads toml_dumps w) as [res w'] eqn:E.
  cbn [fst] in H. subst res. unfold main in E.
  apply bind_inv_ok in E. destruct E as (data & w1 & _ & E).
  unfold try_except in E.
  destruct (main_body toml_dumps data w1) as [[[] | e] w2] eqn:Eb.
  - unfold main_body in Eb.
    apply bind_inv_ok in Eb. destruct Eb as ([[data1 name] project_name] & x1 & _ & Eb).
    apply bind_inv_ok in Eb. destruct Eb as (data2 & x2 & _ & Eb).
    apply bind_inv_ok in Eb. destruct Eb as (u3 & x3 & _ & Eb).
    exact (rename_tree_fails _ _ _ _ Eb).
  - destruct (is_KeyboardInterrupt e); [| discriminate E].
    unfold bind, print, exit, raise in E. discriminate E.
Qed.

End DriverFacts.

(* ===================================================================== *)
(** ** The run as a whole *)
(* ===================================================================== *)

Section Runs.

Variable toml_loads : string -> option toml.
Variable toml_dumps : toml -> string.

(** C3.  The end-to-end run: Ada, a@x.com, acme, demo, an empty line at
    the Python version, the echo confirmed, [no] at the four questions
    on dependencies, in a working directory with [pyproject.toml],
    [LICENSE] and the directory [src].  The descriptor that is written
    has the authors, the name, the description, the Python version
    [>=3.10] and the four empty lists.  The run then walks the tree,
    meets the directory [src] and ends in [RecursionError] (a file that
    does not decode can only stop the walk earlier, in
    [UnicodeDecodeError]): it does not terminate normally, its exit
    status is 1, and [src] has the entries it had, so that
    [src/project_name] has not become [src/acme]. *)
Theorem main_end_to_end
  (confirm text license : string) (data data1 data2 : toml)
  (es : list (string * node)) (tail : list key_event) (w : world) :
  declines confirm = false ->
  stdin w = plain_run ada confirm tail ->
  Dict.get (cwd w) "pyproject.toml" = Some (File text) ->
  toml_loads (universal_newlines text) = Some data ->
  mutate_metadata data (attempt_values ada) = Ok data1 ->
  mutate_dependencies data1 [] [] [] [] = Ok data2 ->
  Dict.get (cwd w) "LICENSE" = Some (File license) ->
  Dict.get (cwd w) "src" = Some (Dir es) ->
  main toml_loads toml_dumps w =
    rename_tree data2 "acme"
      (typed tail (plain_shown ada)
         (with_cwd
            (Dict.set
               (Dict.set (cwd w) "LICENSE"
                  (File (licensed "Ada" (year w) (universal_newlines license))))
               "pyproject.toml" (File (toml_dumps data2))) w))
  /\ (getitem_at data2 ["project"; "authors"] =
        Ok (TList [TTable [("name", TStr "Ada"); ("email", TStr "a@x.com")]]) /\
      getitem_at data2 ["project"; "name"] = Ok (TStr "acme") /\
      getitem_at data2 ["project"; "description"] = Ok (TStr "demo") /\
      getitem_at data2 ["project"; "python"] = Ok (TStr ">=3.10") /\
      getitem_at data2 ["project"; "dependencies"] = Ok (TList []) /\
      getitem_at data2 ["project"; "optional-dependencies"; "dev"] = Ok (TList []) /\
      getitem_at data2 ["project"; "optional-dependencies"; "doc"] = Ok (TList []) /\
      getitem_at data2 ["project"; "optional-dependencies"; "test"] = Ok (TList []))
  /\ (fst (main toml_loads toml_dumps w) = Raise RecursionError \/
      fst (main toml_loads toml_dumps w) = Raise UnicodeDecodeError)
  /\ (readable (cwd w) = true ->
      fst (main toml_loads toml_dumps w) = Raise RecursionError)
  /\ exit_status (fst (main toml_loads toml_dumps w)) = 1%Z
  /\ Dict.get (cwd (snd (main toml_loads toml_dumps w))) "src" = Some (Dir es).
Proof.
  intros Hc Hk Hp Hload Hm1 Hm2 Hl Hs.
  destruct w as [k o d y r f]. cbn [stdin cwd year] in *. subst k.
  set (W := typed tail (plain_shown ada)
              (with_cwd
                 (Dict.set (Dict.set d "LICENSE"
                              (File (licensed "Ada" y (universal_newlines license))))
                    "pyproject.toml" (File (toml_dumps data2)))
                 (mkWorld (plain_run ada confirm tail) o d y r f))).
  assert (Hsrc : Dict.get (cwd W) "src" = Some (Dir es)).
  { unfold W. world_norm.
    rewrite get_set_other by discriminate.
    rewrite get_set_other by discriminate. exact Hs. }
  assert (Hread : readable d = true -> readable (cwd W) = true).
  { intros Hr. unfold W. world_norm. apply readable_set, readable_set. exact Hr. }
  destruct (rename_tree_overflow data2 "acme" "src" es W Hsrc) as (Hr0 & Hr1 & Hr2).
  assert (Hb : main_body toml_dumps data
                 (mkWorld (plain_run ada confirm tail) o d y r f) =
               rename_tree data2 "acme" W).
  { unfold main_body, plain_run.
    erewrite bind_ok by (apply ask_metadata_run; [reflexivity | exact Hc | exact Hm1]).
    cbv beta iota.
    erewrite bind_ok by (apply ask_dependencies_none; exact Hm2).
    erewrite bind_ok by (eapply store_descriptor_run; [exact Hl | exact Hp]).
    unfold W, plain_shown. world_norm. do 2 f_equal. tidy_out. reflexivity. }
  assert (Hmain : main toml_loads toml_dumps
                    (mkWorld (plain_run ada confirm tail) o d y r f) =
                  rename_tree data2 "acme" W).
  { rewrite (main_loaded toml_loads toml_dumps
               (mkWorld (plain_run ada confirm tail) o d y r f) text data Hp Hload).
    unfold try_except. rewrite Hb.
    destruct (rename_tree data2 "acme" W) as [[[] | e] w'];
      cbn [fst] in Hr0; [destruct Hr0 as [Hr0 | Hr0]; discriminate Hr0 |].
    destruct Hr0 as [Hr0 | Hr0]; inversion Hr0; reflexivity. }
  rewrite Hmain. split; [reflexivity |]. split.
  - destruct (mutate_metadata_fields data "Ada" "a@x.com" "acme" "demo" ">=3.10"
                data1 Hm1) as (F1 & F2 & F3 & F4 & _).
    destruct (mutate_dependencies_fields data1 [] [] [] [] data2 Hm2)
      as (G1 & G2 & G3 & G4 & G).
    rewrite !G by reflexivity.
    repeat split; assumption.
  - split; [exact Hr0 |]. split; [intros Hr; exact (Hr1 (Hread Hr)) |].
    split; [| exact Hr2].
    destruct Hr0 as [Hr0 | Hr0]; rewrite Hr0; reflexivity.
Qed.

(** C9.  The exit status of the script.  Without [pyproject.toml],
    [main] prints its message and exits with status 1.  Ctrl+C while
    [query_params] collects the metadata makes [main] print "Exiting."
    and exit with status 0.  A missing [LICENSE] is not handled: the
    [FileNotFoundError] of [update_license] leaves [main] as it is, and
    no [SystemExit] is raised.  The third way out, the end of the script
    with status 0, is never taken: no run of [main] returns. *)
Theorem main_exit_status :
  (forall w,
     Dict.get (cwd w) "pyproject.toml" = None ->
     main toml_loads toml_dumps w =
       (Raise (SystemExit 1),
        typed (stdin w) [Printed "No pyproject.toml found, exiting."] w)
     /\ exit_status (fst (main toml_loads toml_dumps w)) = 1%Z)
  /\ (forall w text data w1,
        Dict.get (cwd w) "pyproject.toml" = Some (File text) ->
        toml_loads (universal_newlines text) = Some data ->
        query_params true (typed (stdin w) greeting w) =
          (Raise KeyboardInterrupt, w1) ->
        main toml_loads toml_dumps w =
          (Raise (SystemExit 0),
           typed (stdin w1) [Printed (newline ++ "Exiting.")] w1)
        /\ exit_status (fst (main toml_loads toml_dumps w)) = 0%Z)
  /\ (forall w text data data1 name project_name w1 data2 w2,
        Dict.get (cwd w) "pyproject.toml" = Some (File text) ->
        toml_loads (universal_newlines text) = Some data ->
        ask_metadata data w = (Ok (data1, name, project_name), w1) ->
        ask_dependencies data1 w1 = (Ok data2, w2) ->
        Dict.get (cwd w2) "LICENSE" = None ->
        main toml_loads toml_dumps w =
          (Raise FileNotFoundError,
           typed (stdin w2) [Printed "Updating license..."] w2))
  /\ (forall w, fst (main toml_loads toml_dumps w) <> Ok tt).
Proof.
  split; [| split; [| split]].
  - intros w H. rewrite (main_missing toml_loads toml_dumps w H).
    split; reflexivity.
  - intros w text data w1 Hp Hload Hq.
    rewrite (main_loaded toml_loads toml_dumps w text data Hp Hload).
    assert (Hb : main_body toml_dumps data w = (Raise KeyboardInterrupt, w1)).
    { unfold main_body. erewrite bind_raise; [reflexivity |].
      unfold ask_metadata. destruct w as [k o d y r f]. do 2 step.
      revert Hq. world_norm. unfold greeting. tidy_out. intros Hq.
      erewrite bind_raise by exact Hq. reflexivity. }
    unfold try_except. rewrite Hb. cbn [is_KeyboardInterrupt].
    destruct w1 as [k1 o1 d1 y1 r1 f1]. split; reflexivity.
  - intros w text data data1 name project_name w1 data2 w2 Hp Hload H1 H2 Hl.
    rewrite (main_loaded toml_loads toml_dumps w text data Hp Hload).
    assert (Hb : main_body toml_dumps data w =
                 (Raise FileNotFoundError,
                  typed (stdin w2) [Printed "Updating license..."] w2)).
    { unfold main_body. erewrite bind_ok by exact H1. cbv beta iota.
      erewrite bind_ok by exact H2.
      erewrite bind_raise; [reflexivity |].
      unfold store_descriptor. destruct w2 as [k2 o2 d2 y2 r2 f2]. step.
      erewrite bind_raise; [reflexivity |].
      unfold update_license. erewrite bind_raise; [reflexivity |].
      unfold read_text. cbn [cwd] in *. rewrite Hl. reflexivity. }
    unfold try_except. rewrite Hb. reflexivity.
  - intros w. apply main_never_returns.
Qed.

(** C10.  The descriptor goes to [pyproject.toml] before line 158 is
    reached.  What [toml.dump] writes is the descriptor as the two
    phases of questions have left it; in it, everything outside the
    [project] table, and so [tool.setuptools.dynamic], is what
    [toml.load] gave.  The assignment of line 158 belongs to the last
    phase, which writes no descriptor: the files it leaves are the same
    whatever the descriptor it is given.  That the file never holds the
    text of the new value does not follow, and is not said here: the
    walk of [rename_project] rewrites [pyproject.toml] like any other
    file. *)
Theorem descriptor_written_before_dynamic
  (data data1 data2 : toml) (name project_name : string) (w w1 w2 : world) :
  ask_metadata data w = (Ok (data1, name, project_name), w1) ->
  ask_dependencies data1 w1 = (Ok data2, w2) ->
  main_body toml_dumps data w =
    (store_descriptor toml_dumps data2 name ;; rename_tree data2 project_name) w2
  /\ getitem_at data2 ["tool"; "setuptools"; "dynamic"] =
     getitem_at data ["tool"; "setuptools"; "dynamic"]
  /\ (forall q, diverges ["project"] q = true ->
                getitem_at data2 q = getitem_at data q)
  /\ (forall w3,
        store_descriptor toml_dumps data2 name w2 = (Ok tt, w3) ->
        Dict.get (cwd w3) "pyproject.toml" = Some (File (toml_dumps data2)))
  /\ (forall data' w3,
        cwd (snd (rename_tree data2 project_name w3)) =
        cwd (snd (rename_tree data' project_name w3))).
Proof.
  intros H1 H2.
  assert (Hframe : forall q, diverges ["project"] q = true ->
                             getitem_at data2 q = getitem_at data q).
  { intros q Hq.
    destruct (ask_metadata_inv data w data1 name project_name w1 H1)
      as (email & description & py & Hm1).
    destruct (ask_dependencies_inv data1 w1 data2 w2 H2)
      as (d1 & x1 & d2 & x2 & d3 & x3 & d4 & _ & _ & _ & _ & Hm2).
    destruct (mutate_metadata_fields _ _ _ _ _ _ _ Hm1) as (_ & _ & _ & _ & F).
    destruct (mutate_dependencies_fields _ _ _ _ _ _ Hm2) as (_ & _ & _ & _ & G).
    rewrite G by (apply diverges_first; exact Hq). apply F. exact Hq. }
  split; [| split; [| split; [| split]]].
  - unfold main_body. erewrite bind_ok by exact H1. cbv beta iota.
    erewrite bind_ok by exact H2. reflexivity.
  - apply Hframe. reflexivity.
  - exact Hframe.
  - intros w3 H. exact (store_descriptor_inv toml_dumps data2 name w2 w3 H).
  - intros data' w3. apply rename_tree_files.
Qed.

End Runs.

(** C5.  Ctrl+C at any prompt inside the [try] block of
    [query_dependencies] empties the mapping of that scope and ends the
    call, which returns the empty mapping.  The four scopes are four
    calls, each on the keys left by the one before: in the descriptor,
    each of the four lists is the mapping returned by the call of its own
    scope, whatever happens in the calls that follow. *)
Theorem query_dependencies_interrupt_scope :
  (forall scope es add i rest w,
     forallb kept es = true ->
     declines add = false ->
     interruption_ok i = true ->
     stdin w = entries_keys es (Line add :: interruption_keys i rest) ->
     fst (query_dependencies scope w) = Ok [] /\
     stdin (snd (query_dependencies scope w)) = rest)
  /\ (forall data w data' w',
        ask_dependencies data w = (Ok data', w') ->
        exists d1 w1 d2 w2 d3 w3 d4,
          query_dependencies "runtime" w = (Ok d1, w1) /\
          query_dependencies "development" w1 = (Ok d2, w2) /\
          query_dependencies "documentation" w2 = (Ok d3, w3) /\
          query_dependencies "testing" w3 = (Ok d4, w') /\
          getitem_at data' ["project"; "dependencies"] =
            Ok (format_dependencies d1) /\
          getitem_at data' ["project"; "optional-dependencies"; "dev"] =
            Ok (format_dependencies d2) /\
          getitem_at data' ["project"; "optional-dependencies"; "doc"] =
            Ok (format_dependencies d3) /\
          getitem_at data' ["project"; "optional-dependencies"; "test"] =
            Ok (format_dependencies d4)).
Proof.
  split.
  - intros scope es add i rest w Hes Hadd Hi Hw.
    exact (query_dependencies_interrupted scope es add i rest w Hes Hadd Hi Hw).
  - intros data w data' w' H.
    destruct (ask_dependencies_inv data w data' w' H)
      as (d1 & w1 & d2 & w2 & d3 & w3 & d4 & Q1 & Q2 & Q3 & Q4 & Hm).
    destruct (mutate_dependencies_fields _ _ _ _ _ _ Hm) as (G1 & G2 & G3 & G4 & _).
    exists d1, w1, d2, w2, d3, w3, d4. repeat (split; [assumption |]). assumption.
Qed.

(* ===================================================================== *)
(** ** More on the dialogue *)
(* ===================================================================== *)

(** A required prompt at which the keys stop, after any number of empty
    answers. *)
Lemma ask_required_halt prompt complaint n h o d y r f :
  ask_required prompt complaint (mkWorld (blanks n ++ halt h) o d y r f) =
  (Raise (halt_exn h),
   mkWorld (halt_rest h) (o ++ reprompts prompt complaint n ++ [Prompted prompt]) d y r f).
Proof.
  revert o. induction n as [| n IH]; intros o.
  - rewrite ask_required_unfold. destruct h as [keys |]; reflexivity.
  - rewrite ask_required_unfold. unfold ask_body.
    change (blanks (S n) ++ halt h)%list with (Line EmptyString :: (blanks n ++ halt h))%list.
    step. cbn [Str.is_empty]. step. rewrite ret_run, IH.
    do 2 f_equal. tidy_out. reflexivity.
Qed.

Lemma input_halt p h o d y r f :
  input p (mkWorld (halt h) o d y r f) =
  (Raise (halt_exn h), mkWorld (halt_rest h) (o ++ [Prompted p]) d y r f).
Proof. destruct h as [keys |]; reflexivity. Qed.

(** Passes that are turned down leave [query_params] where it started,
    with the rest of the keys. *)
Lemma query_params_rejections passes :
  rejected passes = true ->
  forall tail o d y r f,
    query_params true (mkWorld (rejected_keys passes tail) o d y r f) =
    query_params true (mkWorld tail (o ++ rejected_shown passes) d y r f).
Proof.
  induction passes as [| [a c] passes IH]; intros Hr tail o d y r f.
  - cbn [rejected_keys fold_right rejected_shown flat_map]. rewrite app_nil_r.
    reflexivity.
  - cbn [rejected forallb fst snd] in Hr. apply andb_prop in Hr.
    destruct Hr as [Hac Hr]. apply andb_prop in Hac. destruct Hac as [Ha Hc].
    cbn [rejected_keys fold_right fst snd].
    rewrite query_params_pass by exact Ha. rewrite Hc.
    fold (rejected_keys passes tail). rewrite (IH Hr).
    cbn [rejected_shown flat_map fst snd]. do 2 f_equal. tidy_out. reflexivity.
Qed.

(** X1.  However many passes the user turns down, [query_params] returns
    the five values of the pass that is confirmed, and of that pass
    only. *)
Theorem query_params_last_pass
  (passes : list (attempt * string)) (a : attempt) (confirm : string)
  (rest : list key_event) (w : world) :
  rejected passes = true ->
  complete a = true ->
  declines confirm = false ->
  stdin w = rejected_keys passes (attempt_keys a (Line confirm :: rest)) ->
  query_params true w =
  (Ok (attempt_values a),
   typed rest
     (rejected_shown passes ++ attempt_shown a ++ echo (attempt_values a))%list w).
Proof.
  intros Hr Ha Hc Hw. destruct w as [k o d y r f]. cbn [stdin] in Hw. subst k.
  rewrite (query_params_rejections passes Hr).
  rewrite query_params_pass by exact Ha. rewrite Hc.
  world_norm. do 2 f_equal. tidy_out. reflexivity.
Qed.

(** X2.  [query_params] handles neither Ctrl+C nor the end of the input:
    at whichever of its six prompts the keys stop, after any number of
    empty answers and of passes turned down, the [KeyboardInterrupt] or
    the [EOFError] of [input] leaves the function, and the keys after the
    Ctrl+C are still to come. *)
Theorem query_params_stops
  (passes : list (attempt * string)) (a : attempt) (stage : nat)
  (h : option (list key_event)) (w : world) :
  rejected passes = true ->
  complete a = true ->
  stdin w = rejected_keys passes (attempt_until a stage (halt h)) ->
  fst (query_params true w) = Raise (halt_exn h) /\
  stdin (snd (query_params true w)) = halt_rest h.
Proof.
  intros Hr Ha Hw. destruct w as [k o d y r f]. cbn [stdin] in Hw. subst k.
  rewrite (query_params_rejections passes Hr).
  destruct (complete_inv a Ha) as (H1 & H2 & H3 & H4).
  destruct stage as [| [| [| [| [| stage]]]]]; cbn [attempt_until].
  - rewrite query_params_unfold. unfold params_body.
    erewrite bind_raise by apply ask_required_halt. split; reflexivity.
  - rewrite query_params_unfold. unfold params_body.
    erewrite bind_ok by (apply ask_required_run; exact H1).
    erewrite bind_raise by apply ask_required_halt. split; reflexivity.
  - rewrite query_params_unfold. unfold params_body.
    erewrite bind_ok by (apply ask_required_run; exact H1).
    erewrite bind_ok by (apply ask_required_run; exact H2).
    erewrite bind_raise by apply ask_required_halt. split; reflexivity.
  - rewrite query_params_unfold. unfold params_body.
    erewrite bind_ok by (apply ask_required_run; exact H1).
    erewrite bind_ok by (apply ask_required_run; exact H2).
    erewrite bind_ok by (apply ask_required_run; exact H3).
    erewrite bind_raise by apply ask_required_halt. split; reflexivity.
  - rewrite query_params_unfold. unfold params_body.
    erewrite bind_ok by (apply ask_required_run; exact H1).
    erewrite bind_ok by (apply ask_required_run; exact H2).
    erewrite bind_ok by (apply ask_required_run; exact H3).
    erewrite bind_ok by (apply ask_required_run; exact H4).
    erewrite bind_raise by apply input_halt. split; reflexivity.
  - rewrite query_params_pass by exact Ha. destruct h as [keys |]; split; reflexivity.
Qed.

(** X3.  None of the five values [query_params] returns is empty: the four
    required ones because their prompts insist, the Python version
    because its default is not empty. *)
Theorem query_params_values_nonempty
  (validate : bool) (w : world) (v : answers) (w' : world) :
  query_params validate w = (Ok v, w') -> answers_nonempty v.
Proof.
  intros H. unfold query_params, while_input in H.
  refine (@while_fuel_invariant unit answers _ (fun _ => True) answers_nonempty
            _ _ tt w v w' I H).
  clear. intros [] w c w' _ H.
  apply bind_inv_ok in H. destruct H as (name & w1 & E1 & H).
  apply bind_inv_ok in H. destruct H as (email & w2 & E2 & H).
  apply bind_inv_ok in H. destruct H as (project & w3 & E3 & H).
  apply bind_inv_ok in H. destruct H as (description & w4 & E4 & H).
  apply bind_inv_ok in H. destruct H as (s & w5 & _ & H).
  apply ask_required_nonempty in E1. apply ask_required_nonempty in E2.
  apply ask_required_nonempty in E3. apply ask_required_nonempty in E4.
  assert (Hpy : Str.is_empty (Str.or_default s DEFAULT_PY_VERSION) = false).
  { unfold Str.or_default. destruct (Str.is_empty s) eqn:Es; [reflexivity | exact Es]. }
  cbv zeta in H. destruct validate.
  - apply bind_inv_ok in H. destruct H as (u1 & x1 & _ & H).
    apply bind_inv_ok in H. destruct H as (u2 & x2 & _ & H).
    apply bind_inv_ok in H. destruct H as (u3 & x3 & _ & H).
    apply bind_inv_ok in H. destruct H as (u4 & x4 & _ & H).
    apply bind_inv_ok in H. destruct H as (u5 & x5 & _ & H).
    apply bind_inv_ok in H. destruct H as (confirm & x6 & _ & H).
    destruct (declines confirm).
    + apply bind_inv_ok in H. destruct H as (u7 & x7 & _ & H).
      inversion H. subst. exact I.
    + inversion H. subst. cbn. repeat split; assumption.
  - inversion H. subst. cbn. repeat split; assumption.
Qed.

(** X4.  Any answer but [y] or [Y] to "Add ... dependencies?" ends
    [query_dependencies] at once: it returns the empty mapping, has read
    that one line and nothing more, and has shown the question and its
    parting words only. *)
Theorem query_dependencies_declined_at_once
  (scope answer : string) (rest : list key_event) (w : world) :
  declines answer = true ->
  stdin w = Line answer :: rest ->
  query_dependencies scope w =
  (Ok [], typed rest [Prompted (scope_prompt scope); moving_on] w).
Proof.
  intros Ha Hw. destruct w as [k o d y r f]. cbn [stdin] in Hw. subst k.
  rewrite (query_dependencies_declined scope answer rest o d y r f Ha).
  reflexivity.
Qed.

(** X5.  The way entries get into the mapping: rounds that end with [y]
    to "Add another dependency?" lead back to "Add ... dependencies?",
    and when that question is turned down the call returns the entries of
    those rounds, assigned in the order they were typed. *)
Theorem query_dependencies_kept_rounds
  (scope : string) (es : list entry) (answer : string) (rest : list key_event)
  (w : world) :
  forallb kept es = true ->
  declines answer = true ->
  stdin w = entries_keys es (Line answer :: rest) ->
  query_dependencies scope w =
  (Ok (commits es []),
   typed rest
     (entries_shown scope es ++ [Prompted (scope_prompt scope); moving_on])%list w).
Proof.
  intros Hes Ha Hw. destruct w as [k o d y r f]. cbn [stdin] in Hw. subst k.
  rewrite query_dependencies_loop, (deps_rounds scope es Hes), deps_loop_unfold.
  unfold deps_body. step. rewrite Ha, ret_run. world_norm.
  do 2 f_equal. tidy_out. reflexivity.
Qed.

Lemma find_app {A} (p : A -> bool) (l1 l2 : list A) :
  find p (l1 ++ l2) = match find p l1 with Some x => Some x | None => find p l2 end.
Proof.
  induction l1 as [| x l1 IH]; cbn [find app]; [reflexivity |].
  destruct (p x); [reflexivity | exact IH].
Qed.

(** A name typed more than once has the version typed last. *)
Lemma commits_get es :
  forall deps dep,
    Dict.get (commits es deps) dep =
    match last_entry es dep with
    | Some e => Some (e_version e)
    | None => Dict.get deps dep
    end.
Proof.
  unfold last_entry, commits.
  induction es as [| e es IH]; intros deps dep; [reflexivity |].
  cbn [fold_left rev]. rewrite IH, find_app.
  destruct (find (fun e0 => String.eqb dep (e_dep e0)) (rev es)) as [e' |];
    [reflexivity |].
  cbn [find]. destruct (String.eqb_spec dep (e_dep e)) as [-> | N].
  - apply get_set_same.
  - apply get_set_other. congruence.
Qed.

(** X6.  The mapping is a dictionary: when the same name is typed in
    several rounds, the mapping [query_dependencies] returns has, for
    every name, the version of the last round with that name, and no
    entry for a name that was not typed. *)
Theorem query_dependencies_last_version
  (scope : string) (es : list entry) (answer : string) (rest : list key_event)
  (w : world) (dep : string) :
  forallb kept es = true ->
  declines answer = true ->
  stdin w = entries_keys es (Line answer :: rest) ->
  exists deps w',
    query_dependencies scope w = (Ok deps, w') /\
    Dict.get deps dep = option_map e_version (last_entry es dep).
Proof.
  intros Hes Ha Hw.
  exists (commits es []), (typed rest
     (entries_shown scope es ++ [Prompted (scope_prompt scope); moving_on])%list w).
  split.
  - destruct w as [k o d y r f]. cbn [stdin] in Hw. subst k.
    rewrite query_dependencies_loop, (deps_rounds scope es Hes), deps_loop_unfold.
    unfold deps_body. step. rewrite Ha, ret_run. world_norm.
    do 2 f_equal. tidy_out. reflexivity.
  - rewrite commits_get. destruct (last_entry es dep); reflexivity.
Qed.

(** X7.  The question "Add ... dependencies?" is outside the [try] block:
    when the keys stop there, after rounds that have put entries into the
    mapping, the [KeyboardInterrupt] or the [EOFError] leaves
    [query_dependencies], and the entries are lost with it. *)
Theorem query_dependencies_stops_at_scope
  (scope : string) (es : list entry) (h : option (list key_event)) (w : world) :
  forallb kept es = true ->
  stdin w = entries_keys es (halt h) ->
  fst (query_dependencies scope w) = Raise (halt_exn h) /\
  stdin (snd (query_dependencies scope w)) = halt_rest h.
Proof.
  intros Hes Hw. destruct w as [k o d y r f]. cbn [stdin] in Hw. subst k.
  rewrite query_dependencies_loop, (deps_rounds scope es Hes), deps_loop_unfold.
  unfold deps_body. erewrite bind_raise by apply input_halt. split; reflexivity.
Qed.

Lemma ask_version_halt dep n h o d y r f :
  ask_version dep (mkWorld (blanks n ++ halt h) o d y r f) =
  (Raise (halt_exn h),
   mkWorld (halt_rest h)
     (o ++ reprompts (version_prompt dep) version_complaint n ++
      [Prompted (version_prompt dep)]) d y r f).
Proof. rewrite ask_version_required. apply ask_required_halt. Qed.

(** X8.  Inside the [try] block only [KeyboardInterrupt] is handled: when
    the input ends at the name, the version or "Add another dependency?",
    the [EOFError] leaves [query_dependencies]. *)
Theorem query_dependencies_end_of_input
  (scope : string) (es : list entry) (add : string) (i : interruption) (w : world) :
  forallb kept es = true ->
  declines add = false ->
  interruption_ok i = true ->
  stdin w = entries_keys es (Line add :: exhausted_keys i) ->
  fst (query_dependencies scope w) = Raise EOFError /\
  stdin (snd (query_dependencies scope w)) = [].
Proof.
  intros Hes Hadd Hi Hw. destruct w as [k o d y r f]. cbn [stdin] in Hw. subst k.
  rewrite query_dependencies_loop, (deps_rounds scope es Hes), deps_loop_unfold.
  unfold deps_body. step. rewrite Hadd.
  unfold try_except, add_dependency. do 2 step.
  destruct i as [n | n dep m | n dep m version]; cbn [interruption_ok] in Hi;
    cbn [exhausted_keys].
  - rewrite <- (app_nil_r (blanks n)).
    erewrite bind_raise by apply (ask_required_halt _ _ n None). split; reflexivity.
  - apply negb_true_iff in Hi.
    rewrite <- (app_nil_r (blanks m)).
    erewrite bind_ok by (apply ask_required_run; exact Hi).
    erewrite bind_raise by apply (ask_version_halt dep m None). split; reflexivity.
  - apply andb_prop in Hi. destruct Hi as [Hd Hv].
    apply negb_true_iff in Hd. apply negb_true_iff in Hv.
    erewrite bind_ok by (apply ask_required_run; exact Hd).
    erewrite bind_ok by (apply ask_version_run; exact Hv).
    step. erewrite bind_raise by apply input_eof. split; reflexivity.
Qed.

Lemma in_keys_set {V} (d : Dict.t V) k v x :
  In x (Dict.keys (Dict.set d k v)) -> x = k \/ In x (Dict.keys d).
Proof.
  induction d as [| [k' v'] d IH]; cbn [Dict.set Dict.keys map fst In].
  - intros [<- | []]. left. reflexivity.
  - destruct (String.eqb k k'); cbn [map fst In].
    + intros H. right. exact H.
    + intros [<- | H]; [right; left; reflexivity |].
      destruct (IH H) as [-> | Hin]; [left; reflexivity | right; right; exact Hin].
Qed.

Lemma nodup_keys_set {V} (d : Dict.t V) k v :
  NoDup (Dict.keys d) -> NoDup (Dict.keys (Dict.set d k v)).
Proof.
  induction d as [| [k' v'] d IH]; cbn [Dict.set Dict.keys map fst]; intros H.
  - constructor; [intros [] | constructor].
  - inversion H as [| ? ? Hk Hd]. subst.
    destruct (String.eqb_spec k k') as [-> | N]; cbn [map fst].
    + constructor; assumption.
    + constructor; [| exact (IH Hd)].
      intros Hin. destruct (in_keys_set d k v k' Hin) as [-> | Hin'];
        [congruence | contradiction].
Qed.

Lemma names_nonempty_set deps dep version :
  names_nonempty deps -> Str.is_empty dep = false ->
  names_nonempty (Dict.set deps dep version).
Proof.
  unfold names_nonempty. intros Hd Hn.
  induction deps as [| [k v] deps IH]; cbn [Dict.set].
  - constructor; [exact Hn | constructor].
  - inversion Hd as [| ? ? Hk Hrest]. subst.
    destruct (String.eqb dep k).
    + constructor; [exact Hk | exact Hrest].
    + constructor; [exact Hk | exact (IH Hrest)].
Qed.

(** X9.  The mapping [query_dependencies] returns, on whatever keys, has
    every name once and no empty name. *)
Theorem query_dependencies_names
  (scope : string) (w : world) (deps : Dict.t string) (w' : world) :
  query_dependencies scope w = (Ok deps, w') ->
  NoDup (Dict.keys deps) /\
  (forall dep version, In (dep, version) deps -> dep <> EmptyString).
Proof.
  intros H. rewrite query_dependencies_loop in H.
  destruct (while_input (deps_body scope) [] w) as [[deps0 | e] w1] eqn:E;
    [| discriminate H].
  inversion H. subst. clear H.
  assert (Hq : NoDup (Dict.keys deps) /\ names_nonempty deps).
  { unfold while_input in E.
    refine (@while_fuel_invariant _ _ (deps_body scope)
              (fun d => NoDup (Dict.keys d) /\ names_nonempty d)
              (fun d => NoDup (Dict.keys d) /\ names_nonempty d)
              _ _ _ _ _ _ _ E).
    - clear. intros deps w c w' [Hn Hf] H. unfold deps_body in H.
      apply bind_inv_ok in H. destruct H as (a & w1 & _ & H).
      destruct (declines a); [inversion H; subst; split; assumption |].
      unfold try_except in H.
      destruct (add_dependency deps w1) as [[c0 | e] w2] eqn:E0.
      + inversion H. subst. clear H. unfold add_dependency in E0.
        apply bind_inv_ok in E0. destruct E0 as (u1 & x1 & _ & E0).
        apply bind_inv_ok in E0. destruct E0 as (u2 & x2 & _ & E0).
        apply bind_inv_ok in E0. destruct E0 as (dep & x3 & Hdep & E0).
        apply bind_inv_ok in E0. destruct E0 as (version & x4 & _ & E0).
        apply bind_inv_ok in E0. destruct E0 as (u5 & x5 & _ & E0).
        apply bind_inv_ok in E0. destruct E0 as (b & x6 & _ & E0).
        apply ask_required_nonempty in Hdep.
        destruct (declines b); inversion E0; subst.
        * split; assumption.
        * split; [apply nodup_keys_set; exact Hn
                 | apply names_nonempty_set; assumption].
      + destruct (is_KeyboardInterrupt e); inversion H. subst.
        split; constructor.
    - split; constructor. }
  destruct Hq as [Hn Hf]. split; [exact Hn |].
  intros dep version Hin Hd. subst dep.
  unfold names_nonempty in Hf. rewrite Forall_forall in Hf.
  specialize (Hf _ Hin). discriminate Hf.
Qed.

(* ===================================================================== *)
(** ** More on the files *)
(* ===================================================================== *)

Lemma replace_absent c old' new s :
  occurs (String c old') s = false ->
  Str.replace (String c old') new s = s.
Proof.
  change (Str.replace (String c old') new s)
    with (Str.replace_scan 0 (String c old') new s).
  induction s as [| x s IH]; [reflexivity |].
  cbn [occurs]. intros H. apply orb_false_elim in H. destruct H as [Hp Ho].
  rewrite replace_scan_0, Hp, (IH Ho). reflexivity.
Qed.

Lemma replace_self c old' s :
  Str.replace (String c old') (String c old') s = s.
Proof.
  change (Str.replace (String c old') (String c old') s)
    with (Str.replace_scan 0 (String c old') (String c old') s).
  induction s as [s IH] using string_length_ind.
  destruct s as [| x s']; [reflexivity |].
  destruct (prefix (String c old') (String x s')) eqn:Hp.
  - destruct (prefix_split _ _ Hp) as [t Ht]. rewrite Ht.
    rewrite replace_scan_here, IH; [reflexivity |].
    rewrite Ht. clear. simpl. induction old' as [| y old' IHo]; simpl; lia.
  - rewrite replace_scan_0, Hp, IH by (simpl; lia). reflexivity.
Qed.

Lemma keys_set_present {V} (d : Dict.t V) k v v' :
  Dict.get d k = Some v -> Dict.keys (Dict.set d k v') = Dict.keys d.
Proof.
  induction d as [| [k0 v0] d IH]; cbn [Dict.get Dict.set Dict.keys map fst];
    [discriminate |].
  destruct (String.eqb k k0); [reflexivity |].
  intros H. cbn [map fst]. f_equal. exact (IH H).
Qed.

Lemma same_listing_refl d : same_listing d d.
Proof. split; [reflexivity | apply same_shapes_refl]. Qed.

Lemma same_listing_trans d1 d2 d3 :
  same_listing d1 d2 -> same_listing d2 d3 -> same_listing d1 d3.
Proof.
  intros [K1 S1] [K2 S2]. split; [congruence |].
  exact (same_shapes_trans d1 d2 d3 S1 S2).
Qed.

(** X10.  Whatever its outcome, [rename_project] neither creates nor
    removes nor renames an entry of the working directory: the listing is
    the same, every name is still a file, a directory or neither as it
    was, and the directories have the entries they had. *)
Theorem rename_project_same_listing (depth : nat) :
  forall (project_name : string) (w : world),
    same_listing (cwd w) (cwd (snd (rename_project depth project_name w))).
Proof.
  induction depth as [| depth IH]; intros project_name w.
  - apply same_listing_refl.
  - rewrite rename_project_step. generalize (Dict.keys (cwd w)) as l.
    intros l. revert w. induction l as [| x l IHl]; intros w.
    + apply same_listing_refl.
    + cbn [for_each]. unfold bind.
      destruct (Dict.get (cwd w) x) as [[content | | es' |] |] eqn:Ex.
      * rewrite (visit_file _ _ _ _ _ Ex).
        eapply same_listing_trans; [| apply IHl]. cbn [cwd with_cwd]. split.
        -- exact (keys_set_present _ _ _ _ Ex).
        -- eapply same_shapes_write. exact Ex.
      * rewrite (visit_binary _ _ _ _ Ex). apply same_listing_refl.
      * rewrite (visit_dir _ _ _ _ _ Ex).
        pose proof (IH x w) as Hs.
        destruct (rename_project depth x w) as [[[] | e] w1]; cbn [snd] in *.
        -- eapply same_listing_trans; [exact Hs | apply IHl].
        -- exact Hs.
      * rewrite visit_other by (left; exact Ex). apply IHl.
      * rewrite visit_other by (right; exact Ex). apply IHl.
Qed.

(** A listing that names every entry once and is not readable has a
    name that is a file that does not decode. *)
Lemma unreadable_get d :
  NoDup (Dict.keys d) -> readable d = false ->
  exists path, Dict.get d path = Some Binary.
Proof.
  induction d as [| [k n] d IH]; cbn [Dict.keys map fst readable forallb snd];
    [discriminate |].
  intros Hnd Hr. inversion Hnd as [| ? ? Hk Hnd']. subst.
  destruct n as [content | | es |]; cbn [andb] in Hr.
  2: { exists k. cbn [Dict.get]. rewrite String.eqb_refl. reflexivity. }
  all: destruct (IH Hnd' Hr) as (path & Hp); exists path; cbn [Dict.get];
    destruct (String.eqb_spec path k) as [-> | N]; [| exact Hp];
    exfalso; apply Hk; exact (get_in_keys _ _ _ Hp).
Qed.

(** In a working directory without subdirectories, a file that does not
    decode stops the walk. *)
Lemma rename_project_flat_binary depth project_name w :
  flat (cwd w) ->
  NoDup (Dict.keys (cwd w)) ->
  readable (cwd w) = false ->
  fst (rename_project (S depth) project_name w) = Raise UnicodeDecodeError.
Proof.
  intros Hflat Hnd Hr. rewrite rename_project_step.
  destruct (unreadable_get (cwd w) Hnd Hr) as (name & Hname).
  pose proof (get_in_keys _ _ _ Hname) as Hin.
  assert (Hl : forall l w0,
             In name l -> Dict.get (cwd w0) name = Some Binary -> flat (cwd w0) ->
             fst (for_each l (visit depth project_name) w0) = Raise UnicodeDecodeError).
  { clear w Hflat Hnd Hr Hname Hin.
    induction l as [| x l IHl]; intros w Hin Hname Hflat; [destruct Hin |].
    cbn [for_each].
    destruct (Dict.get (cwd w) x) as [[content | | es |] |] eqn:Ex.
    - assert (Hx : x <> name) by (intros ->; congruence).
      unfold bind. rewrite (visit_file _ _ _ _ _ Ex).
      apply IHl.
      + destruct Hin as [-> | Hin]; [congruence | exact Hin].
      + cbn [cwd with_cwd]. rewrite get_set_other by exact Hx. exact Hname.
      + intros path es. cbn [cwd with_cwd].
        destruct (String.eqb_spec x path) as [<- | N].
        * rewrite get_set_same. discriminate.
        * rewrite get_set_other by exact N. apply Hflat.
    - apply fst_bind_raise. rewrite (visit_binary _ _ _ _ Ex). reflexivity.
    - exfalso. exact (Hflat x es Ex).
    - assert (Hx : x <> name) by (intros ->; congruence).
      unfold bind. rewrite visit_other by (left; exact Ex).
      apply IHl; [| exact Hname | exact Hflat].
      destruct Hin as [-> | Hin]; [congruence | exact Hin].
    - assert (Hx : x <> name) by (intros ->; congruence).
      unfold bind. rewrite visit_other by (right; exact Ex).
      apply IHl; [| exact Hname | exact Hflat].
      destruct Hin as [-> | Hin]; [congruence | exact Hin]. }
  apply Hl; assumption.
Qed.

(** X11.  In a working directory without subdirectories, whose listing
    names every entry once, the outcome of [rename_project] is told by
    the regular files.  When all of them decode, the call returns: every
    regular file has every [project_name] of its text, as it is read,
    replaced by the project name, and every other entry is as it was; a
    file that holds neither the placeholder nor a CR is written back with
    the text it had, and with [project_name] itself as the project name
    every file is written back as it is read.  When one of them does not
    decode, the call ends in [UnicodeDecodeError]. *)
Theorem rename_project_flat_directory
  (depth : nat) (project_name : string) (w : world) :
  flat (cwd w) ->
  NoDup (Dict.keys (cwd w)) ->
  let w' := snd (rename_project (S depth) project_name w) in
  (readable (cwd w) = true ->
   fst (rename_project (S depth) project_name w) = Ok tt /\
   (forall path,
      Dict.get (cwd w') path =
      option_map (rewritten project_name) (Dict.get (cwd w) path)) /\
   (forall path content,
      Dict.get (cwd w) path = Some (File content) ->
      occurs "project_name" content = false ->
      Str.has_char carriage_return content = false ->
      Dict.get (cwd w') path = Some (File content)) /\
   (project_name = "project_name" ->
    forall path content,
      Dict.get (cwd w) path = Some (File content) ->
      Dict.get (cwd w') path = Some (File (universal_newlines content)))) /\
  (readable (cwd w) = false ->
   fst (rename_project (S depth) project_name w) = Raise UnicodeDecodeError).
Proof.
  intros Hflat Hnd. split.
  - intros Hread.
    destruct (rename_project_flat depth project_name w Hflat Hnd Hread)
      as (w1 & Hrun & Hall).
    rewrite Hrun. cbn [fst snd]. split; [reflexivity |]. split; [exact Hall |]. split.
    + intros path content Hget Hno Hcr. rewrite Hall, Hget. cbn [option_map rewritten].
      rewrite (universal_newlines_plain content Hcr).
      rewrite (replace_absent "p" "roject_name" project_name content Hno). reflexivity.
    + intros -> path content Hget. rewrite Hall, Hget. cbn [option_map rewritten].
      rewrite (replace_self "p" "roject_name" (universal_newlines content)). reflexivity.
  - exact (rename_project_flat_binary depth project_name w Hflat Hnd).
Qed.

(* ===================================================================== *)
(** ** What the phases of a run leave alone *)
(* ===================================================================== *)

Lemma keeps_ret {A} (a : A) : keeps_files (ret a).
Proof. intros w. reflexivity. Qed.

Lemma keeps_raise {A} e : keeps_files (@raise A e).
Proof. intros w. reflexivity. Qed.

Lemma keeps_lift {A} (r : result A) : keeps_files (lift r).
Proof. intros w. reflexivity. Qed.

Lemma keeps_print s : keeps_files (print s).
Proof. intros w. reflexivity. Qed.

Lemma keeps_input p : keeps_files (input p).
Proof. intros w. unfold input. destruct (stdin w) as [| [s |] rest]; reflexivity. Qed.

Lemma keeps_bind {A B} (m : M A) (f : A -> M B) :
  keeps_files m -> (forall a, keeps_files (f a)) -> keeps_files (bind m f).
Proof.
  intros Hm Hf w. unfold bind. specialize (Hm w).
  destruct (m w) as [[a | e] w1]; cbn [snd] in *; [| exact Hm].
  rewrite Hf. exact Hm.
Qed.

Lemma keeps_try_except {A} (m h : M A) c :
  keeps_files m -> keeps_files h -> keeps_files (try_except m c h).
Proof.
  intros Hm Hh w. unfold try_except. specialize (Hm w).
  destruct (m w) as [[a | e] w1]; cbn [snd] in *; [exact Hm |].
  destruct (c e); cbn [snd]; [rewrite Hh |]; exact Hm.
Qed.

Lemma keeps_while_input {S A} (body : S -> M (S + A)) s :
  (forall s, keeps_files (body s)) -> keeps_files (while_input body s).
Proof.
  intros Hb w. unfold while_input. generalize (Datatypes.S (List.length (stdin w))).
  intros fuel. revert s w. induction fuel as [| fuel IH]; intros s w; [reflexivity |].
  cbn [while_fuel]. apply keeps_bind; [apply Hb |].
  intros [s' | a] w1; [apply IH | reflexivity].
Qed.

Ltac keeps_tac :=
  repeat first
    [ apply keeps_ret | apply keeps_print | apply keeps_input
    | apply keeps_lift | apply keeps_raise
    | apply keeps_bind | apply keeps_try_except
    | apply keeps_while_input
    | match goal with
      | |- keeps_files (if ?b then _ else _) => destruct b
      | |- keeps_files (match ?x with _ => _ end) => destruct x
      | |- keeps_files (let _ := _ in _) => cbv zeta
      end
    | intro ].

Lemma keeps_ask_required prompt complaint : keeps_files (ask_required prompt complaint).
Proof. unfold ask_required. keeps_tac. Qed.

Lemma keeps_query_params validate : keeps_files (query_params validate).
Proof. unfold query_params. pose proof keeps_ask_required. keeps_tac. Qed.

Lemma keeps_query_dependencies scope : keeps_files (query_dependencies scope).
Proof.
  unfold query_dependencies, add_dependency, ask_version.
  pose proof keeps_ask_required. keeps_tac.
Qed.

(** X12.  The two functions of the dialogue have no effect on the files:
    whatever is typed and however they end, the working directory is
    after [query_params] and after [query_dependencies] what it was
    before. *)
Theorem dialogue_keeps_files (validate : bool) (scope : string) (w : world) :
  cwd (snd (query_params validate w)) = cwd w /\
  cwd (snd (query_dependencies scope w)) = cwd w.
Proof.
  split; [apply keeps_query_params | apply keeps_query_dependencies].
Qed.

Lemma keeps_ask_metadata data : keeps_files (ask_metadata data).
Proof. unfold ask_metadata. pose proof keeps_query_params. keeps_tac. Qed.

Lemma keeps_ask_dependencies data : keeps_files (ask_dependencies data).
Proof. unfold ask_dependencies. pose proof keeps_query_dependencies. keeps_tac. Qed.

(** *** The exceptions of the phases *)

Lemma only_ret {A} allowed (a : A) : raises_only allowed (ret a).
Proof. intros w e w' H. discriminate H. Qed.

Lemma only_print allowed s : raises_only allowed (print s).
Proof. intros w e w' H. discriminate H. Qed.

Lemma only_input allowed p :
  allowed EOFError = true -> allowed KeyboardInterrupt = true ->
  raises_only allowed (input p).
Proof.
  intros H1 H2 w e w' H. unfold input in H.
  destruct (stdin w) as [| [s |] rest]; inversion H; subst; assumption.
Qed.

Lemma only_bind {A B} allowed (m : M A) (f : A -> M B) :
  raises_only allowed m -> (forall a, raises_only allowed (f a)) ->
  raises_only allowed (bind m f).
Proof.
  intros Hm Hf w e w' H. unfold bind in H.
  destruct (m w) as [[a | e1] w1] eqn:E.
  - exact (Hf a _ _ _ H).
  - inversion H. subst. exact (Hm _ _ _ E).
Qed.

Lemma only_try_except {A} allowed (m h : M A) c :
  raises_only allowed m -> raises_only allowed h ->
  raises_only allowed (try_except m c h).
Proof.
  intros Hm Hh w e w' H. unfold try_except in H.
  destruct (m w) as [[a | e1] w1] eqn:E; [discriminate H |].
  destruct (c e1).
  - exact (Hh _ _ _ H).
  - inversion H. subst. exact (Hm _ _ _ E).
Qed.

Lemma only_while_input {S A} allowed (body : S -> M (S + A)) s :
  allowed OutOfFuel = true ->
  (forall s, raises_only allowed (body s)) ->
  raises_only allowed (while_input body s).
Proof.
  intros Hf Hb w. unfold while_input. generalize (Datatypes.S (List.length (stdin w))).
  intros fuel. revert s w. induction fuel as [| fuel IH]; intros s w e w' H.
  - inversion H. subst. exact Hf.
  - cbn [while_fuel] in H. revert H. apply only_bind; [apply Hb |].
    intros [s' | a]; [intros w1 e1 w1' H1; exact (IH _ _ _ _ H1) | apply only_ret].
Qed.

Lemma setitem_at_raises path :
  forall d k v e, setitem_at d path k v = Raise e -> e = KeyError \/ e = TypeError.
Proof.
  assert (Hs : forall d k v e, setitem d k v = Raise e -> e = KeyError \/ e = TypeError).
  { intros d k v e H. destruct d; inversion H; auto. }
  assert (Hg : forall d k e, getitem d k = Raise e -> e = KeyError \/ e = TypeError).
  { intros d k e H. destruct d as [| | | | t]; cbn [getitem] in H;
      try (inversion H; auto; fail).
    destruct (Dict.get t k); inversion H; auto. }
  induction path as [| p path IH]; intros d k v e H; cbn [setitem_at] in H.
  - exact (Hs _ _ _ _ H).
  - destruct (getitem d p) as [sub | e1] eqn:E1.
    + destruct (setitem_at sub path k v) as [sub' | e2] eqn:E2.
      * exact (Hs _ _ _ _ H).
      * inversion H. subst. exact (IH _ _ _ _ E2).
    + inversion H. subst. exact (Hg _ _ _ E1).
Qed.

Lemma only_setitem_at allowed d path k v :
  allowed KeyError = true -> allowed TypeError = true ->
  raises_only allowed (lift (setitem_at d path k v)).
Proof.
  intros H1 H2 w e w' H. unfold lift in H. inversion H as [[Hr Hw]].
  destruct (setitem_at_raises path d k v e Hr) as [-> | ->]; assumption.
Qed.

Lemma only_ask_required allowed prompt complaint :
  allowed EOFError = true -> allowed KeyboardInterrupt = true ->
  allowed OutOfFuel = true ->
  raises_only allowed (ask_required prompt complaint).
Proof.
  intros H1 H2 H3. unfold ask_required. apply only_while_input; [exact H3 |].
  intros []. apply only_bind; [apply only_input; assumption |].
  intros s. destruct (Str.is_empty s).
  - apply only_bind; [apply only_print | intros _; apply only_ret].
  - apply only_ret.
Qed.

Ltac only_tac :=
  repeat first
    [ apply only_ret | apply only_print
    | apply only_input; reflexivity
    | apply only_ask_required; reflexivity
    | apply only_setitem_at; reflexivity
    | apply only_bind | apply only_try_except
    | apply only_while_input; [reflexivity |]
    | match goal with
      | |- raises_only _ (if ?b then _ else _) => destruct b
      | |- raises_only _ (match ?x with _ => _ end) => destruct x
      | |- raises_only _ (let _ := _ in _) => cbv zeta
      end
    | intro ].

Lemma only_query_params validate : raises_only not_exit (query_params validate).
Proof. unfold query_params. only_tac. Qed.

Lemma only_query_dependencies scope : raises_only not_exit (query_dependencies scope).
Proof. unfold query_dependencies, add_dependency, ask_version. only_tac. Qed.

Lemma only_ask_metadata data : raises_only not_exit (ask_metadata data).
Proof.
  unfold ask_metadata.
  apply only_bind; [apply only_print | intros _].
  apply only_bind; [apply only_print | intros _].
  apply only_bind; [apply only_query_params | intros v].
  destruct v as [[[[name email] project] description] py]. only_tac.
Qed.

Lemma only_ask_dependencies data : raises_only not_exit (ask_dependencies data).
Proof.
  unfold ask_dependencies.
  repeat (apply only_bind; [apply only_query_dependencies | intros ?];
          apply only_bind; [apply only_setitem_at; reflexivity | intros ?]).
  apply only_ret.
Qed.

Lemma only_read_text path : raises_only plain_error (read_text path).
Proof.
  intros w e w' H. unfold read_text in H.
  destruct (Dict.get (cwd w) path) as [[c | | es |] |]; inversion H; reflexivity.
Qed.

Lemma only_write_text path content : raises_only plain_error (write_text path content).
Proof.
  intros w e w' H. unfold write_text in H.
  destruct (Dict.get (cwd w) path) as [[c | | es |] |]; inversion H; reflexivity.
Qed.

Lemma only_os_rename_in dir old new : raises_only plain_error (os_rename_in dir old new).
Proof.
  intros w e w' H. unfold os_rename_in in H.
  destruct (Dict.get (cwd w) dir) as [[c | | es |] |]; try (inversion H; reflexivity).
  destruct (Dict.get es old); [| inversion H; reflexivity].
  destruct (String.eqb old new); [discriminate H |].
  destruct (Str.is_empty new || Str.has_char "/" new); [inversion H; reflexivity |].
  destruct (Dict.get es new); inversion H; reflexivity.
Qed.

Lemma only_rename_project depth :
  forall project_name, raises_only plain_error (rename_project depth project_name).
Proof.
  induction depth as [| depth IH]; intros project_name.
  - intros w e w' H. inversion H. reflexivity.
  - cbn [rename_project]. apply only_bind; [intros w e w' H; discriminate H |].
    intros paths. induction paths as [| path paths IHp]; cbn [for_each].
    + apply only_ret.
    + apply only_bind; [| intros _; exact IHp].
      apply only_bind; [intros w e w' H; discriminate H |].
      intros [|]; [apply IH |].
      apply only_bind; [intros w e w' H; discriminate H |].
      intros [|]; [| apply only_ret].
      apply only_bind; [apply only_read_text | intros data; apply only_write_text].
Qed.

Lemma only_update_license name : raises_only plain_error (update_license name).
Proof.
  unfold update_license.
  apply only_bind; [apply only_read_text | intros data].
  apply only_bind; [intros w e w' H; discriminate H | intros y].
  apply only_write_text.
Qed.

(** X18.  The two functions of the dialogue raise nothing of their own:
    an exception that leaves [query_params] or [query_dependencies] is
    the [KeyboardInterrupt] or the [EOFError] of an [input]. *)
Theorem dialogue_exceptions
  (validate : bool) (scope : string) (w : world) (e : exn) (w' : world) :
  query_params validate w = (Raise e, w') \/
  query_dependencies scope w = (Raise e, w') ->
  e = KeyboardInterrupt \/ e = EOFError.
Proof.
  assert (Hp : raises_only input_error (query_params validate)).
  { unfold query_params. only_tac. }
  assert (Hd : raises_only input_error (query_dependencies scope)).
  { unfold query_dependencies, add_dependency, ask_version. only_tac. }
  intros [H | H].
  - pose proof (Hp w e w' H) as Hi.
    destruct e; try discriminate Hi; auto.
    exfalso. exact (@query_params_total validate w w' H).
  - pose proof (Hd w e w' H) as Hi.
    destruct e; try discriminate Hi; auto.
    exfalso. exact (@query_dependencies_total scope w w' H).
Qed.

Lemma bind_inv_raise {A B} (m : M A) (f : A -> M B) w e w' :
  bind m f w = (Raise e, w') ->
  m w = (Raise e, w') \/ exists a w1, m w = (Ok a, w1) /\ f a w1 = (Raise e, w').
Proof.
  unfold bind. destruct (m w) as [[a | e1] w1]; intros H.
  - right. exists a, w1. split; [reflexivity | exact H].
  - left. inversion H. reflexivity.
Qed.

Section RunFacts.

Variable toml_loads : string -> option toml.
Variable toml_dumps : toml -> string.

Lemma only_store_descriptor data name :
  raises_only plain_error (store_descriptor toml_dumps data name).
Proof.
  unfold store_descriptor.
  apply only_bind; [apply only_print | intros _].
  apply only_bind; [apply only_update_license | intros _].
  apply only_bind; [apply only_print | intros _].
  apply only_write_text.
Qed.

Lemma only_rename_tree data project_name :
  raises_only plain_error (rename_tree data project_name).
Proof.
  unfold rename_tree.
  apply only_bind; [apply only_print | intros _].
  apply only_bind; [intros w e w' H; discriminate H | intros limit].
  apply only_bind; [apply only_rename_project | intros _].
  apply only_bind; [apply only_os_rename_in | intros _].
  apply only_bind; [apply only_setitem_at; reflexivity | intros _].
  apply only_bind; [apply only_print | intros _].
  apply only_bind; [intros w e w' H; discriminate H | intros file].
  apply only_print.
Qed.

(** The body of [main] raises no [SystemExit]. *)
Lemma only_main_body data : raises_only not_exit (main_body toml_dumps data).
Proof.
  assert (Hp : forall A (m : M A), raises_only plain_error m -> raises_only not_exit m).
  { intros A m Hm w e w' H. specialize (Hm w e w' H). unfold plain_error in Hm.
    apply andb_prop in Hm. exact (proj1 Hm). }
  unfold main_body.
  apply only_bind; [apply only_ask_metadata | intros [[data1 name] project_name]].
  apply only_bind; [apply only_ask_dependencies | intros data2].
  apply only_bind; [apply Hp, only_store_descriptor | intros _].
  apply Hp, only_rename_tree.
Qed.

(** Ctrl+C ends the body of [main] before any file is written. *)
Lemma main_body_interrupted data w w' :
  main_body toml_dumps data w = (Raise KeyboardInterrupt, w') -> cwd w' = cwd w.
Proof.
  intros H. unfold main_body in H.
  apply bind_inv_raise in H. destruct H as [H | ([[data1 name] project_name] & w1 & E1 & H)].
  - pose proof (keeps_ask_metadata data w) as K. rewrite H in K. exact K.
  - pose proof (keeps_ask_metadata data w) as K1. rewrite E1 in K1. cbn [snd] in K1.
    apply bind_inv_raise in H. destruct H as [H | (data2 & w2 & E2 & H)].
    + pose proof (keeps_ask_dependencies data1 w1) as K. rewrite H in K.
      cbn [snd] in K. congruence.
    + exfalso.
      assert (Ho : raises_only plain_error
                     (store_descriptor toml_dumps data2 name ;;
                      rename_tree data2 project_name)).
      { apply only_bind; [apply only_store_descriptor | intros _].
        apply only_rename_tree. }
      specialize (Ho w2 _ w' H). discriminate Ho.
Qed.

Lemma load_descriptor_world w : snd (load_descriptor toml_loads w) = w.
Proof.
  unfold load_descriptor, bind, read_text.
  destruct (Dict.get (cwd w) "pyproject.toml") as [[text | | es |] |]; try reflexivity.
  destruct (toml_loads (universal_newlines text)); reflexivity.
Qed.

Lemma load_descriptor_raises w e w' :
  load_descriptor toml_loads w = (Raise e, w') -> not_exit e = true.
Proof.
  unfold load_descriptor, bind, read_text.
  destruct (Dict.get (cwd w) "pyproject.toml") as [[text | | es |] |];
    try (intros H; inversion H; reflexivity).
  destruct (toml_loads (universal_newlines text)); intros H; inversion H; reflexivity.
Qed.

Lemma exit_status_not_exit e : not_exit e = true -> exit_status (Raise e) = 1%Z.
Proof. destruct e; try reflexivity. discriminate. Qed.

Lemma main_after_load w data w' :
  load_descriptor toml_loads w = (Ok data, w') ->
  main toml_loads toml_dumps w =
  try_except (main_body toml_dumps data) is_KeyboardInterrupt
    (print (newline ++ "Exiting.") ;; exit 0) w'.
Proof.
  intros El. unfold main. unfold bind at 1. unfold try_except at 1.
  rewrite El. reflexivity.
Qed.

Lemma main_load_failed w e w' :
  load_descriptor toml_loads w = (Raise e, w') ->
  main toml_loads toml_dumps w =
  if is_FileNotFoundError e
  then (Raise (SystemExit 1),
        with_stdout (stdout w' ++ [Printed "No pyproject.toml found, exiting."]) w')
  else (Raise e, w').
Proof.
  intros El. unfold main. unfold bind at 1. unfold try_except at 1.
  rewrite El. destruct (is_FileNotFoundError e); reflexivity.
Qed.

Lemma handler_run w :
  bind (print (newline ++ "Exiting.")) (fun _ => exit 0 : M unit) w =
  (Raise (SystemExit 0),
   with_stdout (stdout w ++ [Printed (newline ++ "Exiting.")]) w).
Proof. destruct w; reflexivity. Qed.

(** X13.  The handler of [KeyboardInterrupt] is the only way to the exit
    status 0: when the status is 0, [main] has ended in [exit(0)] and
    the last thing on the terminal is "Exiting.".  And when Ctrl+C is
    pressed at a prompt of the two phases of questions, so that the
    [KeyboardInterrupt] leaves [query_params] or [query_dependencies],
    the status is 0 and no file has been written: the working directory
    is what it was when the script started. *)
Theorem main_status_zero (w : world) :
  (exit_status (fst (main toml_loads toml_dumps w)) = 0%Z ->
   fst (main toml_loads toml_dumps w) = Raise (SystemExit 0) /\
   exists shown,
     stdout (snd (main toml_loads toml_dumps w)) =
     (shown ++ [Printed (newline ++ "Exiting.")])%list) /\
  (forall data,
     load_descriptor toml_loads w = (Ok data, w) ->
     (fst (ask_metadata data w) = Raise KeyboardInterrupt \/
      exists data1 name project_name w1,
        ask_metadata data w = (Ok (data1, name, project_name), w1) /\
        fst (ask_dependencies data1 w1) = Raise KeyboardInterrupt) ->
     exit_status (fst (main toml_loads toml_dumps w)) = 0%Z /\
     cwd (snd (main toml_loads toml_dumps w)) = cwd w).
Proof.
  split.
  - pose proof (main_never_returns toml_loads toml_dumps w) as Hnever.
    pose proof (load_descriptor_world w) as Hw.
    destruct (load_descriptor toml_loads w) as [[data | e] w1] eqn:El;
      cbn [snd] in Hw; subst w1.
    + rewrite (main_after_load w data w El) in *. unfold try_except in *.
      destruct (main_body toml_dumps data w) as [[[] | e] w2] eqn:Eb.
      * exfalso. apply Hnever. reflexivity.
      * destruct (is_KeyboardInterrupt e) eqn:Ek.
        -- intros _. rewrite handler_run. cbn [fst snd].
           split; [reflexivity |]. exists (stdout w2).
           destruct w2; reflexivity.
        -- pose proof (only_main_body data w e w2 Eb) as Hx.
           cbn [fst]. rewrite (exit_status_not_exit e Hx). discriminate.
    + rewrite (main_load_failed w e w El).
      destruct (is_FileNotFoundError e) eqn:Ef.
      * discriminate.
      * cbn [fst]. rewrite (exit_status_not_exit e (load_descriptor_raises w e w El)).
        discriminate.
  - intros data El Hint.
    rewrite (main_after_load w data w El).
    assert (Hb : exists w2,
               main_body toml_dumps data w = (Raise KeyboardInterrupt, w2) /\
               cwd w2 = cwd w).
    { destruct Hint as [H | (data1 & name & project_name & w1 & E1 & H)].
      - pose proof (keeps_ask_metadata data w) as K.
        destruct (ask_metadata data w) as [[r | e] w2] eqn:E; cbn [fst snd] in *;
          [discriminate H |].
        injection H as ->. exists w2. split; [| exact K].
        unfold main_body. erewrite bind_raise by exact E. reflexivity.
      - pose proof (keeps_ask_metadata data w) as K1. rewrite E1 in K1.
        pose proof (keeps_ask_dependencies data1 w1) as K2.
        destruct (ask_dependencies data1 w1) as [[r | e] w2] eqn:E; cbn [fst snd] in *;
          [discriminate H |].
        injection H as ->. exists w2. split; [| congruence].
        unfold main_body. erewrite bind_ok by exact E1. cbv beta iota.
        erewrite bind_raise by exact E. reflexivity. }
    destruct Hb as (w2 & Hb & Hc).
    unfold try_except. rewrite Hb. cbn [is_KeyboardInterrupt].
    rewrite handler_run. cbn [fst snd exit_status].
    split; [reflexivity |]. destruct w2; exact Hc.
Qed.

Lemma store_descriptor_unlicensed data name w :
  Dict.get (cwd w) "LICENSE" = None ->
  store_descriptor toml_dumps data name w =
  (Raise FileNotFoundError, with_stdout (stdout w ++ [Printed "Updating license..."]) w).
Proof.
  intros H. unfold store_descriptor, bind, print, update_license, read_text.
  cbn [cwd with_stdout]. unfold bind. cbn [cwd with_stdout]. rewrite H. reflexivity.
Qed.

Lemma main_body_unlicensed data w :
  Dict.get (cwd w) "LICENSE" = None ->
  cwd (snd (main_body toml_dumps data w)) = cwd w.
Proof.
  intros Hl. unfold main_body. unfold bind at 1.
  pose proof (keeps_ask_metadata data w) as K1.
  destruct (ask_metadata data w) as [[[[data1 name] project_name] | e1] w1];
    cbn [snd] in K1; [| exact K1].
  unfold bind at 1.
  pose proof (keeps_ask_dependencies data1 w1) as K2.
  destruct (ask_dependencies data1 w1) as [[data2 | e2] w2];
    cbn [snd] in K2 |- *; [| congruence].
  unfold bind at 1.
  assert (E2 : Dict.get (cwd w2) "LICENSE" = None) by (rewrite K2, K1; exact Hl).
  rewrite (store_descriptor_unlicensed data2 name w2 E2). cbn [snd cwd with_stdout].
  congruence.
Qed.

(** X14.  [update_license] runs before [pyproject.toml] is written: in a
    working directory without [LICENSE] no run of [main] changes a file,
    however far the questions get, and a run in which all of them are
    answered ends in the [FileNotFoundError] of [update_license]. *)
Theorem main_without_license (w : world) :
  Dict.get (cwd w) "LICENSE" = None ->
  cwd (snd (main toml_loads toml_dumps w)) = cwd w /\
  (forall data data1 name project_name w1 data2 w2,
     load_descriptor toml_loads w = (Ok data, w) ->
     ask_metadata data w = (Ok (data1, name, project_name), w1) ->
     ask_dependencies data1 w1 = (Ok data2, w2) ->
     fst (main toml_loads toml_dumps w) = Raise FileNotFoundError).
Proof.
  intros Hl. split.
  - pose proof (load_descriptor_world w) as Hw.
    destruct (load_descriptor toml_loads w) as [[data | e] w1] eqn:El;
      cbn [snd] in Hw; subst w1.
    + rewrite (main_after_load w data w El).
      unfold try_except. pose proof (main_body_unlicensed data w Hl) as K.
      destruct (main_body toml_dumps data w) as [[[] | e] w2]; cbn [snd] in K;
        [exact K |].
      destruct (is_KeyboardInterrupt e); exact K.
    + rewrite (main_load_failed w e w El).
      destruct (is_FileNotFoundError e); reflexivity.
  - intros data data1 name project_name w1 data2 w2 El E1 E2.
    rewrite (main_after_load w data w El).
    unfold try_except, main_body.
    erewrite bind_ok by exact E1. cbv beta iota.
    erewrite bind_ok by exact E2.
    assert (L2 : Dict.get (cwd w2) "LICENSE" = None).
    { pose proof (keeps_ask_metadata data w) as K1. rewrite E1 in K1.
      pose proof (keeps_ask_dependencies data1 w1) as K2. rewrite E2 in K2.
      cbn [snd] in K1, K2. rewrite K2, K1. exact Hl. }
    erewrite bind_raise by (apply store_descriptor_unlicensed; exact L2).
    reflexivity.
Qed.

(** X15.  A descriptor without a [project] table is found out after the
    five questions: once they are answered and confirmed, [main] ends in
    the exception of its first assignment, a [KeyError] when the key
    [project] is missing and a [TypeError] when its value is no table;
    the questions on dependencies are not asked and no file is changed. *)
Theorem main_without_project_table
  (text : string) (data : toml) (e : exn) (v : answers) (w w1 : world) :
  Dict.get (cwd w) "pyproject.toml" = Some (File text) ->
  toml_loads (universal_newlines text) = Some data ->
  no_project_table data = Some e ->
  query_params true (typed (stdin w) greeting w) = (Ok v, w1) ->
  main toml_loads toml_dumps w = (Raise e, w1) /\
  (e = KeyError \/ e = TypeError) /\
  cwd w1 = cwd w.
Proof.
  intros Hp Hload Hg Hq.
  assert (Hs : forall k x, setitem_at data ["project"] k x = Raise e).
  { intros k x. unfold no_project_table in Hg. cbn [setitem_at].
    destruct (getitem data "project") as [sub | e0].
    - destruct sub; cbn [setitem]; congruence.
    - congruence. }
  assert (He : e = KeyError \/ e = TypeError).
  { unfold no_project_table in Hg.
    destruct data as [| | | | t]; cbn [getitem] in Hg; try (inversion Hg; auto; fail).
    destruct (Dict.get t "project") as [sub |]; [| inversion Hg; auto].
    destruct sub; inversion Hg; auto. }
  assert (Hc : cwd w1 = cwd w).
  { pose proof (keeps_query_params true (typed (stdin w) greeting w)) as K.
    rewrite Hq in K. exact K. }
  split; [| split; assumption].
  rewrite (main_loaded toml_loads toml_dumps w text data Hp Hload).
  assert (Hb : main_body toml_dumps data w = (Raise e, w1)).
  { unfold main_body. erewrite bind_raise; [reflexivity |].
    unfold ask_metadata. destruct w as [k o d y r f]. do 2 step.
    revert Hq. world_norm. unfold greeting. tidy_out. intros Hq.
    erewrite bind_ok by exact Hq.
    destruct v as [[[[name email] project] description] py]. cbv beta iota.
    unfold bind at 1. unfold lift at 1. rewrite Hs. reflexivity. }
  unfold try_except. rewrite Hb.
  destruct He as [-> | ->]; reflexivity.
Qed.

(** X16.  Only a missing [pyproject.toml] is handled.  When the file is
    there and [toml.load] rejects it, or its bytes do not decode, or when
    the name is a directory, the exception leaves [main] at once: nothing
    is printed, nothing is asked, and the exit status is 1 as for the
    missing file. *)
Theorem main_descriptor_unreadable (n : node) (w : world) :
  Dict.get (cwd w) "pyproject.toml" = Some n ->
  match n with
  | File text => toml_loads (universal_newlines text) = None
  | Binary => True
  | Dir _ => True
  | Special => False
  end ->
  main toml_loads toml_dumps w =
    (Raise match n with
           | File _ => TomlDecodeError
           | Binary => UnicodeDecodeError
           | _ => IsADirectoryError
           end, w) /\
  exit_status (fst (main toml_loads toml_dumps w)) = 1%Z.
Proof.
  intros Hp Hn.
  assert (Hm : main toml_loads toml_dumps w =
               (Raise match n with
                      | File _ => TomlDecodeError
                      | Binary => UnicodeDecodeError
                      | _ => IsADirectoryError
                      end, w)).
  { unfold main. unfold bind at 1. unfold try_except at 1.
    unfold load_descriptor, bind, read_text. rewrite Hp.
    destruct n as [text | | es |]; [rewrite Hn | | | contradiction]; reflexivity. }
  rewrite Hm. split; [reflexivity |]. destruct n; reflexivity.
Qed.

(** X17.  The two phases of questions assign to eight places of the
    descriptor and to nothing else: whatever lies off those eight paths,
    inside the [project] table or outside it, is in the descriptor that is
    written what [toml.load] gave. *)
Theorem descriptor_frame
  (data data1 data2 : toml) (name project_name : string) (w w1 w2 : world)
  (q : list string) :
  ask_metadata data w = (Ok (data1, name, project_name), w1) ->
  ask_dependencies data1 w1 = (Ok data2, w2) ->
  untouched q = true ->
  getitem_at data2 q = getitem_at data q.
Proof.
  intros H1 H2 Hq.
  destruct (ask_metadata_inv data w data1 name project_name w1 H1)
    as (email & description & py & Hm1).
  destruct (ask_dependencies_inv data1 w1 data2 w2 H2)
    as (d1 & x1 & d2 & x2 & d3 & x3 & d4 & _ & _ & _ & _ & Hm2).
  unfold untouched, assigned in Hq. cbn [forallb] in Hq.
  repeat (apply andb_prop in Hq; destruct Hq as [? Hq]).
  unfold mutate_metadata in Hm1. unfold mutate_dependencies in Hm2.
  apply then_set_inv in Hm2. destruct Hm2 as (t7 & Hm2 & S8).
  apply then_set_inv in Hm2. destruct Hm2 as (t6 & Hm2 & S7).
  apply then_set_inv in Hm2. destruct Hm2 as (t5 & S5 & S6).
  apply then_set_inv in Hm1. destruct Hm1 as (t3 & Hm1 & S4).
  apply then_set_inv in Hm1. destruct Hm1 as (t2 & Hm1 & S3).
  apply then_set_inv in Hm1. destruct Hm1 as (t1 & S1 & S2).
  rewrite (getitem_at_diverges _ _ _ _ _ q S8) by assumption.
  rewrite (getitem_at_diverges _ _ _ _ _ q S7) by assumption.
  rewrite (getitem_at_diverges _ _ _ _ _ q S6) by assumption.
  rewrite (getitem_at_diverges _ _ _ _ _ q S5) by assumption.
  rewrite (getitem_at_diverges _ _ _ _ _ q S4) by assumption.
  rewrite (getitem_at_diverges _ _ _ _ _ q S3) by assumption.
  rewrite (getitem_at_diverges _ _ _ _ _ q S2) by assumption.
  exact (getitem_at_diverges _ _ _ _ _ q S1 ltac:(assumption)).
Qed.

(** X19.  In a working directory without subdirectories, whose listing
    names every entry once, the last phase never gets to line 158.  When
    the regular files all decode, it rewrites every one of them and then
    fails at [os.rename]: there is no directory [src], so the exception
    is [FileNotFoundError] when nothing has that name, and
    [NotADirectoryError] when [src] is a file; the files stay rewritten.
    When a file does not decode, the walk ends in [UnicodeDecodeError]. *)
Theorem rename_tree_flat_directory
  (data : toml) (project_name : string) (w : world) :
  flat (cwd w) ->
  NoDup (Dict.keys (cwd w)) ->
  recursion_limit w <> 0 ->
  let w' := snd (rename_tree data project_name w) in
  (readable (cwd w) = true ->
   (exists e,
      fst (rename_tree data project_name w) = Raise e /\
      (Dict.get (cwd w) "src" = None -> e = FileNotFoundError) /\
      (forall content,
         Dict.get (cwd w) "src" = Some (File content) -> e = NotADirectoryError)) /\
   (forall path,
      Dict.get (cwd w') path =
      option_map (rewritten project_name) (Dict.get (cwd w) path))) /\
  (readable (cwd w) = false ->
   fst (rename_tree data project_name w) = Raise UnicodeDecodeError).
Proof.
  intros Hflat Hnd Hlimit.
  destruct w as [k o d y r f]. cbn [cwd recursion_limit] in *.
  destruct r as [| depth]; [congruence |].
  split.
  - intros Hread.
    destruct (rename_project_flat depth project_name
                (mkWorld k (o ++ [Printed "Renaming project..."]) d y (S depth) f)
                Hflat Hnd Hread) as (w1 & Hrun & Hall).
    cbn [cwd] in Hall.
    assert (Ht : rename_tree data project_name (mkWorld k o d y (S depth) f) =
                 (Raise match Dict.get d "src" with
                        | None => FileNotFoundError
                        | Some _ => NotADirectoryError
                        end, w1)).
    { unfold rename_tree. step. unfold bind at 1. cbn [recursion_limit].
      erewrite bind_ok by exact Hrun.
      erewrite bind_raise; [reflexivity |].
      unfold os_rename_in. rewrite (Hall "src").
      pose proof (Hflat "src") as Hs.
      destruct (Dict.get d "src") as [[c | | es |] |]; cbn [option_map rewritten];
        try reflexivity.
      exfalso. exact (Hs es eq_refl). }
    rewrite Ht. cbn [fst snd]. split; [| exact Hall].
    eexists. split; [reflexivity |]. split.
    + intros ->. reflexivity.
    + intros content ->. reflexivity.
  - intros Hread.
    pose proof (rename_project_flat_binary depth project_name
                  (mkWorld k (o ++ [Printed "Renaming project..."]) d y (S depth) f)
                  Hflat Hnd Hread) as Hrun.
    destruct (rename_project (S depth) project_name
                (mkWorld k (o ++ [Printed "Renaming project..."]) d y (S depth) f))
      as [[[] | e] w1] eqn:E; cbn [fst] in Hrun; [discriminate Hrun |].
    injection Hrun as ->.
    assert (Ht : rename_tree data project_name (mkWorld k o d y (S depth) f) =
                 (Raise UnicodeDecodeError, w1)).
    { unfold rename_tree. step. unfold bind at 1. cbn [recursion_limit].
      erewrite bind_raise by exact E. reflexivity. }
    rewrite Ht. reflexivity.
Qed.

End RunFacts.

Lemma flatb_flat d : flatb d = true -> flat d.
Proof.
  unfold flat. induction d as [| [k n] d IH]; intros H path es; cbn [Dict.get].
  - discriminate.
  - cbn [flatb forallb snd] in H. apply andb_prop in H as [Hn Hd].
    destruct (String.eqb path k).
    + destruct n; [discriminate | discriminate | discriminate Hn | discriminate].
    + exact (IH Hd path es).
Qed.

(* ===================================================================== *)
(** ** More on the dependencies and the license *)
(* ===================================================================== *)

(** X20.  The default dependencies of lines 7-21 are not used: when the
    four questions "Add ... dependencies?" are turned down, the four
    lists of the descriptor are empty, the three optional ones too. *)
Theorem ask_dependencies_all_declined
  (data data2 : toml) (a1 a2 a3 a4 : string) (rest : list key_event) (w : world) :
  declines a1 = true -> declines a2 = true ->
  declines a3 = true -> declines a4 = true ->
  mutate_dependencies data [] [] [] [] = Ok data2 ->
  stdin w = Line a1 :: Line a2 :: Line a3 :: Line a4 :: rest ->
  ask_dependencies data w = (Ok data2, typed rest all_declined w) /\
  getitem_at data2 ["project"; "dependencies"] = Ok (TList []) /\
  getitem_at data2 ["project"; "optional-dependencies"; "dev"] = Ok (TList []) /\
  getitem_at data2 ["project"; "optional-dependencies"; "doc"] = Ok (TList []) /\
  getitem_at data2 ["project"; "optional-dependencies"; "test"] = Ok (TList []) /\
  getitem_at data2 ["project"; "optional-dependencies"; "dev"] <>
    Ok (format_dependencies DEFAULT_DEPS_DEV) /\
  getitem_at data2 ["project"; "optional-dependencies"; "doc"] <>
    Ok (format_dependencies DEFAULT_DEPS_DOC) /\
  getitem_at data2 ["project"; "optional-dependencies"; "test"] <>
    Ok (format_dependencies DEFAULT_DEPS_TEST).
Proof.
  intros H1 H2 H3 H4 Hm Hin.
  destruct (mutate_dependencies_fields _ _ _ _ _ _ Hm) as (G1 & G2 & G3 & G4 & _).
  change (format_dependencies []) with (TList []) in G1, G2, G3, G4.
  split; [| rewrite G1, G2, G3, G4; repeat split; discriminate].
  destruct w as [k o d y r f]. cbn [stdin] in Hin. subst k.
  unfold mutate_dependencies in Hm.
  apply then_set_inv in Hm. destruct Hm as (d3 & Hm & S4).
  apply then_set_inv in Hm. destruct Hm as (d2 & Hm & S3).
  apply then_set_inv in Hm. destruct Hm as (d1 & S1 & S2).
  unfold ask_dependencies.
  erewrite bind_ok by (apply query_dependencies_declined; assumption).
  erewrite bind_lift_ok by exact S1.
  erewrite bind_ok by (apply query_dependencies_declined; assumption).
  erewrite bind_lift_ok by exact S2.
  erewrite bind_ok by (apply query_dependencies_declined; assumption).
  erewrite bind_lift_ok by exact S3.
  erewrite bind_ok by (apply query_dependencies_declined; assumption).
  erewrite bind_lift_ok by exact S4. rewrite ret_run.
  world_norm. unfold all_declined. do 2 f_equal. tidy_out. reflexivity.
Qed.

(** X21.  [update_license] needs a regular file [LICENSE] that decodes:
    without one it raises at its [open] or its [read] and changes
    nothing, with [FileNotFoundError] when nothing has that name,
    [IsADirectoryError] when a directory has, and [UnicodeDecodeError]
    when the bytes of the file are no text. *)
Theorem update_license_not_a_file (name : string) (w : world) :
  (forall text, Dict.get (cwd w) "LICENSE" <> Some (File text)) ->
  exists e,
    update_license name w = (Raise e, w) /\
    (Dict.get (cwd w) "LICENSE" = None -> e = FileNotFoundError) /\
    (forall es, Dict.get (cwd w) "LICENSE" = Some (Dir es) -> e = IsADirectoryError) /\
    (Dict.get (cwd w) "LICENSE" = Some Binary -> e = UnicodeDecodeError).
Proof.
  intros Hn. unfold update_license, bind, read_text.
  destruct (Dict.get (cwd w) "LICENSE") as [[text | | es |] |].
  - exfalso. exact (Hn text eq_refl).
  - eexists. split; [reflexivity |]. repeat split; (discriminate || reflexivity).
  - eexists. split; [reflexivity |]. repeat split; (discriminate || reflexivity).
  - eexists. split; [reflexivity |]. repeat split; discriminate.
  - eexists. split; [reflexivity |]. repeat split; (discriminate || reflexivity).
Qed.

Lemma set_get_same {V} (d : Dict.t V) k v :
  Dict.get d k = Some v -> Dict.set d k v = d.
Proof.
  induction d as [| [k' v'] d IH]; cbn [Dict.get Dict.set]; [discriminate |].
  destruct (String.eqb k k').
  - intros H. injection H as ->. reflexivity.
  - intros H. rewrite (IH H). reflexivity.
Qed.

(** X22.  A [LICENSE] that holds neither [<year>] nor [<name>], and no
    CR, is written back with the text it had: the call returns and the
    world is what it was, so that a second run of [update_license] finds
    nothing to do unless the name put in by the first holds a
    placeholder.  With a CR in it, the line ends are what changes. *)
Theorem update_license_without_placeholders (name text : string) (w : world) :
  Dict.get (cwd w) "LICENSE" = Some (File text) ->
  occurs "<year>" (universal_newlines text) = false ->
  occurs "<name>" (universal_newlines text) = false ->
  Dict.get (cwd (snd (update_license name w))) "LICENSE" =
    Some (File (universal_newlines text)) /\
  (Str.has_char carriage_return text = false -> update_license name w = (Ok tt, w)).
Proof.
  intros Hl Hy Hn. rewrite (update_license_run name text w Hl).
  rewrite (replace_absent "<"%char "year>" (Str.of_N (year w)) _ Hy).
  rewrite (replace_absent "<"%char "name>" name _ Hn).
  cbn [snd cwd with_cwd]. split; [apply get_set_same |].
  intros Hcr. rewrite (universal_newlines_plain text Hcr).
  rewrite (set_get_same _ _ _ Hl).
  destruct w; reflexivity.
Qed.

(* ===================================================================== *)
(** ** The theorems at work *)
(* ===================================================================== *)

(** [y], [requests], [>=2.0], [no]: "Added!" is shown and the mapping is
    empty. *)
Lemma query_dependencies_last_entry_dropped_witness :
  let e := mkEntry "y" 0 "requests" 0 ">=2.0" "no" in
  let w := console [Line "y"; Line "requests"; Line ">=2.0"; Line "no"] [] in
  forallb kept [] = true /\
  entered e = true /\
  declines (e_another e) = true /\
  stdin w = entries_keys [] (entry_keys e []) /\
  fst (query_dependencies "runtime" w) = Ok [] /\
  In (Printed "Added!") (stdout (snd (query_dependencies "runtime" w))).
Proof.
  intros e w.
  pose proof (query_dependencies_last_entry_dropped "runtime" [] e [] w
                eq_refl eq_refl eq_refl eq_refl) as [H Hadded].
  do 4 (split; [reflexivity |]). rewrite H. split; [reflexivity |].
  clear H Hadded. cbn. repeat (try (left; reflexivity); right).
Defined.

(** A file next to a directory: the walk overflows and the file in the
    directory keeps its placeholder. *)
Lemma rename_project_never_descends_witness :
  let inner := [("utils.py", File "import project_name.utils")] in
  let w := console [] [("setup.py", File "project_name"); ("src", Dir inner)] in
  Dict.get (cwd w) "src" = Some (Dir inner) /\
  readable (cwd w) = true /\
  fst (rename_project 1000 "acme" w) = Raise RecursionError /\
  Dict.get (cwd (snd (rename_project 1000 "acme" w))) "src" = Some (Dir inner).
Proof.
  intros inner w. split; [reflexivity |]. split; [reflexivity |].
  destruct (rename_project_never_descends 1000 "acme" "src" inner w eq_refl)
    as (_ & Hr & Hk).
  split; [exact (Hr eq_refl) | exact Hk].
Defined.

(** The end-to-end run on the sample template. *)
Lemma main_end_to_end_witness :
  let w := console (plain_run ada "y" []) sample_tree in
  let es := [("project_name", Dir [("utils.py", File "import project_name.utils")])] in
  declines "y" = false /\
  stdin w = plain_run ada "y" [] /\
  Dict.get (cwd w) "pyproject.toml" = Some (File "[project]") /\
  sample_loads (universal_newlines "[project]") = Some sample_descriptor /\
  mutate_metadata sample_descriptor (attempt_values ada) = Ok sample_descriptor1 /\
  mutate_dependencies sample_descriptor1 [] [] [] [] = Ok sample_descriptor2 /\
  Dict.get (cwd w) "LICENSE" = Some (File "Copyright (c) <year> <name>") /\
  Dict.get (cwd w) "src" = Some (Dir es) /\
  readable (cwd w) = true /\
  fst (main sample_loads sample_dumps w) = Raise RecursionError /\
  exit_status (fst (main sample_loads sample_dumps w)) = 1%Z /\
  Dict.get (cwd (snd (main sample_loads sample_dumps w))) "src" = Some (Dir es).
Proof.
  intros w es.
  pose proof (main_end_to_end sample_loads sample_dumps "y" "[project]"
                "Copyright (c) <year> <name>"
                sample_descriptor sample_descriptor1 sample_descriptor2 es [] w
                eq_refl eq_refl eq_refl eq_refl eq_refl eq_refl eq_refl eq_refl)
    as (_ & _ & _ & H1 & H2 & H3).
  do 9 (split; [reflexivity |]).
  split; [exact (H1 eq_refl) |]. split; [exact H2 | exact H3].
Defined.


(** The runtime scope keeps an entry; in the development scope Ctrl+C
    comes at the version prompt. *)
Lemma query_dependencies_interrupt_scope_witness :
  let black := mkEntry "y" 0 "black" 0 ">=23" "y" in
  let w := console (entries_keys [black]
                      (Line "y" :: interruption_keys (AtVersion 0 "ruff" 1) [Line "n"])) [] in
  let runs := console [ Line "y"; Line "requests"; Line ">=2.0"; Line "y"; Line "n";
                        Line "y"; Line "black"; CtrlC; Line "n"; Line "n" ] [] in
  (forallb kept [black] = true /\
   declines "y" = false /\
   interruption_ok (AtVersion 0 "ruff" 1) = true /\
   fst (query_dependencies "development" w) = Ok [] /\
   stdin (snd (query_dependencies "development" w)) = [Line "n"])
  /\
  (exists data' w',
     ask_dependencies sample_descriptor runs = (Ok data', w') /\
     getitem_at data' ["project"; "dependencies"] =
       Ok (format_dependencies [("requests", ">=2.0")]) /\
     getitem_at data' ["project"; "optional-dependencies"; "dev"] =
       Ok (format_dependencies [])).
Proof.
  intros black w runs. split.
  - do 3 (split; [reflexivity |]).
    exact (proj1 query_dependencies_interrupt_scope "development" [black] "y"
             (AtVersion 0 "ruff" 1) [Line "n"] w eq_refl eq_refl eq_refl eq_refl).
  - assert (Hrun : ask_dependencies sample_descriptor runs =
                   (match fst (ask_dependencies sample_descriptor runs) with
                    | Ok d => Ok d
                    | Raise e => Ok sample_descriptor
                    end, snd (ask_dependencies sample_descriptor runs)))
      by (vm_compute; reflexivity).
    destruct (proj2 query_dependencies_interrupt_scope sample_descriptor runs _ _ Hrun)
      as (d1 & w1 & d2 & w2 & d3 & w3 & d4 & Q1 & Q2 & _ & _ & G1 & G2 & _).
    assert (E1 : fst (query_dependencies "runtime" runs) =
                 Ok [("requests", ">=2.0")])
      by (vm_compute; reflexivity).
    assert (W1 : snd (query_dependencies "runtime" runs) = w1)
      by (rewrite Q1; reflexivity).
    assert (E2 : fst (query_dependencies "development"
                        (snd (query_dependencies "runtime" runs))) = Ok [])
      by (vm_compute; reflexivity).
    rewrite Q1 in E1. cbn [fst] in E1. injection E1 as ->.
    rewrite W1, Q2 in E2. cbn [fst] in E2. injection E2 as ->.
    eexists. eexists. split; [exact Hrun |]. split; [exact G1 | exact G2].
Defined.

(** An empty line at the version prompt, then [>=2.0]. *)
Lemma query_dependencies_versions_nonempty_witness :
  let w := console [ Line "y"; Line "requests"; Line EmptyString; Line ">=2.0";
                     Line "y"; Line "n" ] [] in
  query_dependencies "runtime" w =
    (Ok [("requests", ">=2.0")], snd (query_dependencies "runtime" w)) /\
  (forall dep version,
     In (dep, version) [("requests", ">=2.0")] -> version <> EmptyString).
Proof.
  intros w.
  assert (H : query_dependencies "runtime" w =
              (Ok [("requests", ">=2.0")], snd (query_dependencies "runtime" w)))
    by (vm_compute; reflexivity).
  split; [exact H |].
  exact (proj2 (proj2 query_dependencies_versions_nonempty) "runtime" w _ _ H).
Defined.

(** An empty line at the name, two at the project name, none at the
    Python version. *)
Lemma query_params_required_fields_witness :
  let a := mkAttempt 1 "Ada" 0 "a@x.com" 2 "acme" 0 "demo" EmptyString in
  let w := console (attempt_keys a [Line "Y"]) [] in
  complete a = true /\
  declines "Y" = false /\
  stdin w = attempt_keys a [Line "Y"] /\
  fst (query_params true w) = Ok ("Ada", "a@x.com", "acme", "demo", ">=3.10").
Proof.
  intros a w. do 3 (split; [reflexivity |]).
  exact (f_equal fst (query_params_required_fields a true "Y" [] w
                        eq_refl eq_refl eq_refl)).
Defined.

(** The license of Ada Lovelace in 2024, with the line ends of DOS. *)
Lemma update_license_fills_placeholders_witness :
  let w := console [] [("LICENSE", File dos_license); ("README.md", File "<name>")] in
  Dict.get (cwd w) "LICENSE" = Some (File dos_license) /\
  Dict.get (cwd (snd (update_license "Ada Lovelace" w))) "LICENSE" =
    Some (File ("MIT License" ++
                String line_feed "Copyright (c) 2024 Ada Lovelace")) /\
  Dict.get (cwd (snd (update_license "Ada Lovelace" w))) "README.md" =
    Some (File "<name>").
Proof.
  intros w. split; [reflexivity |].
  pose proof (update_license_fills_placeholders "Ada Lovelace" dos_license w eq_refl)
    as (_ & _ & Hfill & _ & Hframe & _).
  split.
  - exact Hfill.
  - exact (Hframe "README.md" ltac:(discriminate)).
Defined.

(** The text outside the tags is not what it was: the CR of every line
    end is gone. *)
Lemma update_license_keeps_other_text_counterexample :
  Dict.get (cwd (snd (update_license "Ada Lovelace"
                        (console [] [("LICENSE", File dos_license)])))) "LICENSE" =
    Some (File ("MIT License" ++
                String line_feed "Copyright (c) 2024 Ada Lovelace")) /\
  licensed "Ada Lovelace" 2024 dos_license =
    "MIT License" ++
    String carriage_return (String line_feed "Copyright (c) 2024 Ada Lovelace") /\
  Dict.get (cwd (snd (update_license "Ada Lovelace"
                        (console [] [("LICENSE", File dos_license)])))) "LICENSE" <>
    Some (File (licensed "Ada Lovelace" 2024 dos_license)).
Proof.
  split; [vm_compute; reflexivity |]. split; [vm_compute; reflexivity |].
  vm_compute. discriminate.
Qed.

(** The three ways out that [main] takes. *)
Lemma main_exit_status_witness :
  let missing := console (plain_run ada "y" []) [("LICENSE", File "<year>")] in
  let aborted := console [Line "Ada"; CtrlC] sample_tree in
  let unlicensed := console (plain_run ada "y" []) [("pyproject.toml", File "[project]")] in
  (Dict.get (cwd missing) "pyproject.toml" = None /\
   exit_status (fst (main sample_loads sample_dumps missing)) = 1%Z) /\
  (fst (main sample_loads sample_dumps aborted) = Raise (SystemExit 0)) /\
  (Dict.get (cwd unlicensed) "LICENSE" = None /\
   fst (main sample_loads sample_dumps unlicensed) = Raise FileNotFoundError) /\
  fst (main sample_loads sample_dumps (console (plain_run ada "y" []) sample_tree))
    <> Ok tt.
Proof.
  intros missing aborted unlicensed.
  destruct (main_exit_status sample_loads sample_dumps) as (H1 & H2 & H3 & H4).
  split; [| split; [| split]].
  - split; [reflexivity |]. exact (proj2 (H1 missing eq_refl)).
  - assert (Hq : query_params true (typed (stdin aborted) greeting aborted) =
                 (Raise KeyboardInterrupt,
                  snd (query_params true (typed (stdin aborted) greeting aborted))))
      by (vm_compute; reflexivity).
    exact (f_equal fst (proj1 (H2 aborted "[project]" sample_descriptor _
                                 eq_refl eq_refl Hq))).
  - split; [reflexivity |].
    assert (Ha : ask_metadata sample_descriptor unlicensed =
                 (Ok (sample_descriptor1, "Ada", "acme"),
                  snd (ask_metadata sample_descriptor unlicensed)))
      by (vm_compute; reflexivity).
    assert (Hd : ask_dependencies sample_descriptor1
                   (snd (ask_metadata sample_descriptor unlicensed)) =
                 (Ok sample_descriptor2,
                  snd (ask_dependencies sample_descriptor1
                         (snd (ask_metadata sample_descriptor unlicensed)))))
      by (vm_compute; reflexivity).
    exact (f_equal fst (H3 unlicensed "[project]" sample_descriptor sample_descriptor1
                          "Ada" "acme" _ sample_descriptor2 _
                          eq_refl eq_refl Ha Hd eq_refl)).
  - exact (H4 _).
Defined.

(** The descriptor of the end-to-end run when it is written. *)
Lemma descriptor_written_before_dynamic_witness :
  let w := console (plain_run ada "y" []) sample_tree in
  let w1 := snd (ask_metadata sample_descriptor w) in
  let w2 := snd (ask_dependencies sample_descriptor1 w1) in
  ask_metadata sample_descriptor w = (Ok (sample_descriptor1, "Ada", "acme"), w1) /\
  ask_dependencies sample_descriptor1 w1 = (Ok sample_descriptor2, w2) /\
  getitem_at sample_descriptor2 ["tool"; "setuptools"; "dynamic"] =
    Ok (TTable [("version", TTable [("attr", TStr "project_name.__version__")])]) /\
  Dict.get (cwd (snd (store_descriptor sample_dumps sample_descriptor2 "Ada" w2)))
    "pyproject.toml" = Some (File "[project] name = acme").
Proof.
  intros w w1 w2.
  assert (Ha : ask_metadata sample_descriptor w =
               (Ok (sample_descriptor1, "Ada", "acme"), w1))
    by (vm_compute; reflexivity).
  assert (Hd : ask_dependencies sample_descriptor1 w1 = (Ok sample_descriptor2, w2))
    by (vm_compute; reflexivity).
  split; [exact Ha |]. split; [exact Hd |].
  pose proof (descriptor_written_before_dynamic sample_dumps
                sample_descriptor sample_descriptor1 sample_descriptor2
                "Ada" "acme" w w1 w2 Ha Hd) as (_ & Hdyn & _ & Hwrite & _).
  split; [exact Hdyn |].
  assert (Hs : store_descriptor sample_dumps sample_descriptor2 "Ada" w2 =
               (Ok tt, snd (store_descriptor sample_dumps sample_descriptor2 "Ada" w2)))
    by (vm_compute; reflexivity).
  exact (Hwrite _ Hs).
Defined.

(** The file holds the new value of the dynamic version although line
    158 was not reached: once because the walk of [rename_project] has
    put the project name into the text that was written, once because
    the descriptor that was loaded had the value already. *)
Lemma pyproject_never_holds_dynamic_counterexample :
  (Dict.get (cwd (snd (store_descriptor dynamic_dumps sample_descriptor2 "Ada"
                         (console [] sample_tree)))) "pyproject.toml" =
     Some (File "dynamic.version.attr = project_name.__version__") /\
   Dict.get (cwd (snd (main sample_loads dynamic_dumps
                         (console (plain_run ada "y" []) sample_tree))))
     "pyproject.toml" =
     Some (File "dynamic.version.attr = acme.__version__") /\
   occurs ("acme" ++ ".__version__") "dynamic.version.attr = acme.__version__" = true)
  /\
  (Dict.get (cwd (snd (main released_loads dynamic_dumps
                         (console (plain_run ada "y" []) sample_tree))))
     "pyproject.toml" =
     Some (File "dynamic = acme.__version__") /\
   occurs ("acme" ++ ".__version__") "dynamic = acme.__version__" = true).
Proof.
  split; [split; [| split] | split]; vm_compute; reflexivity.
Qed.

(* ===================================================================== *)
(** ** The further properties at work *)
(* ===================================================================== *)

(** Two passes turned down, one with [n] and one with an empty line, then
    Grace's pass confirmed. *)
Lemma query_params_last_pass_witness :
  let b := mkAttempt 0 "Grace" 1 "g@x.com" 0 "cobol" 0 "compiler" "3.12" in
  let passes := [(ada, "n"); (ada, EmptyString)] in
  let w := console (rejected_keys passes (attempt_keys b [Line "y"])) [] in
  rejected passes = true /\
  complete b = true /\
  declines "y" = false /\
  fst (query_params true w) = Ok ("Grace", "g@x.com", "cobol", "compiler", "3.12").
Proof.
  intros b passes w. do 3 (split; [reflexivity |]).
  exact (f_equal fst
           (query_params_last_pass passes b "y" [] w eq_refl eq_refl eq_refl eq_refl)).
Defined.

(** Ctrl+C at the project name of the second pass. *)
Lemma query_params_stops_witness :
  let w := console [ Line "Ada"; Line "a@x.com"; Line "acme"; Line "demo";
                     Line EmptyString; Line "n";
                     Line "Ada"; Line "a@x.com"; Line EmptyString; CtrlC;
                     Line "left" ] [] in
  rejected [(ada, "n")] = true /\
  complete ada = true /\
  fst (query_params true w) = Raise KeyboardInterrupt /\
  stdin (snd (query_params true w)) = [Line "left"].
Proof.
  intros w. do 2 (split; [reflexivity |]).
  exact (query_params_stops [(ada, "n")]
           (mkAttempt 0 "Ada" 0 "a@x.com" 1 "acme" 0 "demo" EmptyString) 2
           (Some [Line "left"]) w eq_refl eq_refl eq_refl).
Defined.

(** Ada's answers, with the default Python version. *)
Lemma query_params_values_nonempty_witness :
  let w := console (attempt_keys ada [Line "y"]) [] in
  query_params false w =
    (Ok ("Ada", "a@x.com", "acme", "demo", ">=3.10"), snd (query_params false w)) /\
  answers_nonempty ("Ada", "a@x.com", "acme", "demo", ">=3.10").
Proof.
  intros w.
  assert (H : query_params false w =
              (Ok ("Ada", "a@x.com", "acme", "demo", ">=3.10"),
               snd (query_params false w)))
    by (vm_compute; reflexivity).
  split; [exact H |].
  exact (query_params_values_nonempty false w _ _ H).
Defined.

(** [no] to the first question; the next line is left unread. *)
Lemma query_dependencies_declined_at_once_witness :
  let w := console [Line "no"; Line "later"] [] in
  declines "no" = true /\
  fst (query_dependencies "runtime" w) = Ok [] /\
  stdin (snd (query_dependencies "runtime" w)) = [Line "later"] /\
  stdout (snd (query_dependencies "runtime" w)) =
    [Prompted (scope_prompt "runtime"); moving_on].
Proof.
  intros w. split; [reflexivity |].
  rewrite (query_dependencies_declined_at_once "runtime" "no" [Line "later"] w
             eq_refl eq_refl).
  split; [reflexivity |]. split; reflexivity.
Defined.

(** Two rounds kept, then [n]. *)
Lemma query_dependencies_kept_rounds_witness :
  let es := [ mkEntry "y" 0 "requests" 0 ">=2.0" "y";
              mkEntry "Y" 1 "numpy" 0 "<2" "Y" ] in
  let w := console (entries_keys es [Line "n"]) [] in
  forallb kept es = true /\
  declines "n" = true /\
  fst (query_dependencies "runtime" w) = Ok [("requests", ">=2.0"); ("numpy", "<2")].
Proof.
  intros es w. do 2 (split; [reflexivity |]).
  exact (f_equal fst
           (query_dependencies_kept_rounds "runtime" es "n" [] w
              eq_refl eq_refl eq_refl)).
Defined.

(** [requests] typed twice: the second version is the one returned. *)
Lemma query_dependencies_last_version_witness :
  let es := [ mkEntry "y" 0 "requests" 0 ">=2.0" "y";
              mkEntry "y" 0 "numpy" 0 "<2" "y";
              mkEntry "y" 0 "requests" 0 ">=3.0" "y" ] in
  let w := console (entries_keys es [Line "n"]) [] in
  forallb kept es = true /\
  declines "n" = true /\
  exists deps w',
    query_dependencies "runtime" w = (Ok deps, w') /\
    Dict.get deps "requests" = Some ">=3.0".
Proof.
  intros es w. do 2 (split; [reflexivity |]).
  exact (query_dependencies_last_version "runtime" es "n" [] w "requests"
           eq_refl eq_refl eq_refl).
Defined.

(** One round kept, then the input ends at the first question. *)
Lemma query_dependencies_stops_at_scope_witness :
  let es := [mkEntry "y" 0 "requests" 0 ">=2.0" "y"] in
  let w := console (entries_keys es []) [] in
  forallb kept es = true /\
  fst (query_dependencies "runtime" w) = Raise EOFError /\
  stdin (snd (query_dependencies "runtime" w)) = [].
Proof.
  intros es w. split; [reflexivity |].
  exact (query_dependencies_stops_at_scope "runtime" es None w eq_refl eq_refl).
Defined.

(** The input ends at the version of [ruff]. *)
Lemma query_dependencies_end_of_input_witness :
  let w := console [Line "y"; Line "ruff"] [] in
  declines "y" = false /\
  interruption_ok (AtVersion 0 "ruff" 0) = true /\
  fst (query_dependencies "development" w) = Raise EOFError /\
  stdin (snd (query_dependencies "development" w)) = [].
Proof.
  intros w. do 2 (split; [reflexivity |]).
  exact (query_dependencies_end_of_input "development" [] "y" (AtVersion 0 "ruff" 0) w
           eq_refl eq_refl eq_refl eq_refl).
Defined.

(** [requests] twice and [numpy] once: two names in the mapping. *)
Lemma query_dependencies_names_witness :
  let w := console [ Line "y"; Line "requests"; Line ">=2.0"; Line "y";
                     Line "y"; Line "numpy"; Line "<2"; Line "y";
                     Line "y"; Line "requests"; Line ">=3.0"; Line "y";
                     Line "n" ] [] in
  let deps := [("requests", ">=3.0"); ("numpy", "<2")] in
  query_dependencies "runtime" w = (Ok deps, snd (query_dependencies "runtime" w)) /\
  NoDup (Dict.keys deps) /\
  (forall dep version, In (dep, version) deps -> dep <> EmptyString).
Proof.
  intros w deps.
  assert (H : query_dependencies "runtime" w =
              (Ok deps, snd (query_dependencies "runtime" w)))
    by (vm_compute; reflexivity).
  split; [exact H |].
  exact (query_dependencies_names "runtime" w _ _ H).
Defined.

(** Two files and no directory: the one with the placeholder is
    rewritten, the other is as it was. *)
Lemma rename_project_flat_directory_witness :
  let files := [("setup.py", File "name = project_name"); ("README", File "hello")] in
  let w := console [] files in
  flatb files = true /\
  readable files = true /\
  fst (rename_project 1000 "acme" w) = Ok tt /\
  Dict.get (cwd (snd (rename_project 1000 "acme" w))) "setup.py" =
    Some (File "name = acme") /\
  Dict.get (cwd (snd (rename_project 1000 "acme" w))) "README" = Some (File "hello").
Proof.
  intros files w. split; [reflexivity |]. split; [reflexivity |].
  assert (Hnd : NoDup (Dict.keys (cwd w))).
  { repeat constructor; cbn; intuition discriminate. }
  destruct (proj1 (rename_project_flat_directory 999 "acme" w
                     (flatb_flat files eq_refl) Hnd) eq_refl)
    as (Hok & Hall & Hkeep & _).
  split; [exact Hok |]. split.
  - exact (Hall "setup.py").
  - exact (Hkeep "README" "hello" eq_refl eq_refl eq_refl).
Defined.

(** Ctrl+C at the e-mail address. *)
Lemma main_status_zero_witness :
  let w := console [Line "Ada"; CtrlC] sample_tree in
  load_descriptor sample_loads w = (Ok sample_descriptor, w) /\
  fst (ask_metadata sample_descriptor w) = Raise KeyboardInterrupt /\
  exit_status (fst (main sample_loads sample_dumps w)) = 0%Z /\
  fst (main sample_loads sample_dumps w) = Raise (SystemExit 0) /\
  cwd (snd (main sample_loads sample_dumps w)) = sample_tree.
Proof.
  intros w.
  assert (Hl : load_descriptor sample_loads w = (Ok sample_descriptor, w))
    by (vm_compute; reflexivity).
  assert (Hq : fst (ask_metadata sample_descriptor w) = Raise KeyboardInterrupt)
    by (vm_compute; reflexivity).
  destruct (main_status_zero sample_loads sample_dumps w) as [Hzero Hint].
  destruct (Hint sample_descriptor Hl (or_introl Hq)) as [Hs Hc].
  split; [exact Hl |]. split; [exact Hq |]. split; [exact Hs |].
  split; [exact (proj1 (Hzero Hs)) | exact Hc].
Defined.

(** All questions answered, no [LICENSE]: the descriptor is not written. *)
Lemma main_without_license_witness :
  let files := [("pyproject.toml", File "[project]")] in
  let w := console (plain_run ada "y" []) files in
  Dict.get (cwd w) "LICENSE" = None /\
  cwd (snd (main sample_loads sample_dumps w)) = files /\
  fst (main sample_loads sample_dumps w) = Raise FileNotFoundError.
Proof.
  intros files w. split; [reflexivity |].
  destruct (main_without_license sample_loads sample_dumps w eq_refl) as [Hc Hf].
  split; [exact Hc |].
  assert (H0 : load_descriptor sample_loads w = (Ok sample_descriptor, w))
    by (vm_compute; reflexivity).
  assert (H1 : ask_metadata sample_descriptor w =
               (Ok (sample_descriptor1, "Ada", "acme"),
                snd (ask_metadata sample_descriptor w)))
    by (vm_compute; reflexivity).
  assert (H2 : ask_dependencies sample_descriptor1
                 (snd (ask_metadata sample_descriptor w)) =
               (Ok sample_descriptor2,
                snd (ask_dependencies sample_descriptor1
                       (snd (ask_metadata sample_descriptor w)))))
    by (vm_compute; reflexivity).
  exact (Hf _ _ _ _ _ _ _ H0 H1 H2).
Defined.

(** A descriptor that is an empty document. *)
Lemma main_without_project_table_witness :
  let loads := fun _ : string => Some (TTable []) in
  let w := console (attempt_keys ada [Line "y"; Line "y"])
             [("pyproject.toml", File EmptyString)] in
  no_project_table (TTable []) = Some KeyError /\
  fst (main loads sample_dumps w) = Raise KeyError /\
  stdin (snd (main loads sample_dumps w)) = [Line "y"].
Proof.
  intros loads w. split; [reflexivity |].
  assert (Hq : query_params true (typed (stdin w) greeting w) =
               (Ok (attempt_values ada),
                snd (query_params true (typed (stdin w) greeting w))))
    by (vm_compute; reflexivity).
  destruct (main_without_project_table loads sample_dumps EmptyString (TTable [])
              KeyError _ w _ eq_refl eq_refl eq_refl Hq) as [Hm _].
  rewrite Hm. split; [reflexivity |]. vm_compute. reflexivity.
Defined.

(** A descriptor the parser rejects. *)
Lemma main_descriptor_unreadable_witness :
  let w := console [Line "Ada"] [("pyproject.toml", File "[project")] in
  sample_loads (universal_newlines "[project") = None /\
  main sample_loads sample_dumps w = (Raise TomlDecodeError, w) /\
  exit_status (fst (main sample_loads sample_dumps w)) = 1%Z.
Proof.
  intros w. split; [reflexivity |].
  exact (main_descriptor_unreadable sample_loads sample_dumps (File "[project") w
           eq_refl eq_refl).
Defined.

(** The [tool] table of the sample descriptor after the two phases. *)
Lemma descriptor_frame_witness :
  let w := console (plain_run ada "y" []) [] in
  let q := ["tool"; "setuptools"; "dynamic"; "version"; "attr"] in
  untouched q = true /\
  getitem_at sample_descriptor2 q = Ok (TStr "project_name.__version__").
Proof.
  intros w q. split; [reflexivity |].
  assert (H1 : ask_metadata sample_descriptor w =
               (Ok (sample_descriptor1, "Ada", "acme"),
                snd (ask_metadata sample_descriptor w)))
    by (vm_compute; reflexivity).
  assert (H2 : ask_dependencies sample_descriptor1
                 (snd (ask_metadata sample_descriptor w)) =
               (Ok sample_descriptor2,
                snd (ask_dependencies sample_descriptor1
                       (snd (ask_metadata sample_descriptor w)))))
    by (vm_compute; reflexivity).
  exact (descriptor_frame _ _ _ _ _ _ _ _ q H1 H2 eq_refl).
Defined.

(** The input ends at the e-mail address. *)
Lemma dialogue_exceptions_witness :
  let w := console [Line "Ada"] [] in
  query_params true w = (Raise EOFError, snd (query_params true w)) /\
  (EOFError = KeyboardInterrupt \/ EOFError = EOFError).
Proof.
  intros w.
  assert (H : query_params true w = (Raise EOFError, snd (query_params true w)))
    by (vm_compute; reflexivity).
  split; [exact H |].
  exact (dialogue_exceptions true "runtime" w _ _ (or_introl H)).
Defined.

(** One file and no [src]: the file is rewritten and the rename fails. *)
Lemma rename_tree_flat_directory_witness :
  let files := [("setup.py", File "name = project_name")] in
  let w := console [] files in
  flatb files = true /\
  readable files = true /\
  recursion_limit w <> 0 /\
  fst (rename_tree sample_descriptor "acme" w) = Raise FileNotFoundError /\
  Dict.get (cwd (snd (rename_tree sample_descriptor "acme" w))) "setup.py" =
    Some (File "name = acme").
Proof.
  intros files w. split; [reflexivity |]. split; [reflexivity |].
  assert (Hl : recursion_limit w <> 0) by discriminate.
  split; [exact Hl |].
  assert (Hnd : NoDup (Dict.keys (cwd w))).
  { repeat constructor; cbn; intuition discriminate. }
  destruct (proj1 (rename_tree_flat_directory sample_descriptor "acme" w
                     (flatb_flat files eq_refl) Hnd Hl) eq_refl)
    as [(e & He & Hnone & _) Hall].
  rewrite He, (Hnone eq_refl). split; [reflexivity |].
  exact (Hall "setup.py").
Defined.

(** Four ways of saying no. *)
Lemma ask_dependencies_all_declined_witness :
  let w := console [Line "n"; Line "no"; Line EmptyString; Line "N"; Line "left"] [] in
  declines "n" = true /\ declines "no" = true /\
  declines EmptyString = true /\ declines "N" = true /\
  mutate_dependencies sample_descriptor1 [] [] [] [] = Ok sample_descriptor2 /\
  fst (ask_dependencies sample_descriptor1 w) = Ok sample_descriptor2 /\
  stdin (snd (ask_dependencies sample_descriptor1 w)) = [Line "left"] /\
  getitem_at sample_descriptor2 ["project"; "optional-dependencies"; "dev"] =
    Ok (TList []).
Proof.
  intros w. do 5 (split; [reflexivity |]).
  destruct (ask_dependencies_all_declined sample_descriptor1 sample_descriptor2
              "n" "no" EmptyString "N" [Line "left"] w
              eq_refl eq_refl eq_refl eq_refl eq_refl eq_refl)
    as (Hrun & _ & Hdev & _).
  rewrite Hrun. split; [reflexivity |]. split; [reflexivity | exact Hdev].
Defined.

(** A directory called [LICENSE]. *)
Lemma update_license_not_a_file_witness :
  let w := console [] [("LICENSE", Dir [])] in
  update_license "Ada" w = (Raise IsADirectoryError, w).
Proof.
  intros w.
  assert (Hn : forall text, Dict.get (cwd w) "LICENSE" <> Some (File text))
    by (intros text; discriminate).
  destruct (update_license_not_a_file "Ada" w Hn) as (e & He & _ & Hd & _).
  rewrite He, (Hd [] eq_refl). reflexivity.
Defined.

(** A license that has been filled in already. *)
Lemma update_license_without_placeholders_witness :
  let w := console [] [("LICENSE", File "Copyright (c) 2024 Ada")] in
  occurs "<year>" (universal_newlines "Copyright (c) 2024 Ada") = false /\
  occurs "<name>" (universal_newlines "Copyright (c) 2024 Ada") = false /\
  Str.has_char carriage_return "Copyright (c) 2024 Ada" = false /\
  update_license "Grace" w = (Ok tt, w).
Proof.
  intros w. do 3 (split; [reflexivity |]).
  exact (proj2 (update_license_without_placeholders "Grace" "Copyright (c) 2024 Ada" w
                  eq_refl eq_refl eq_refl) eq_refl).
Defined.
